(** * simbrief: request encoding, response decoding and helper utilities

    A shallow embedding of the Go packages [pkg/types] and [pkg/client] of
    mrlm-net/simbrief, together with models of the parts of the Go standard
    library those packages call ([strconv], [strings], [unicode/utf8],
    [fmt], [net/url], [encoding/json]).

    Conventions.
    - A Go [string] and a Go [[]byte] are sequences of bytes: [string] of
      the Standard Library, whose characters are the 256 byte values.
    - A Go [int] is a 64-bit signed integer, embedded as [Z]; the range
      checks of the parsers are written out ([strconv.Atoi]) and the
      arithmetic that can overflow is wrapped ([client.wrap]).
    - A Go [float64] is a primitive binary64 float.
    - A pointer field that may be nil is an [option].
    - A Go [error] result is a value of [result]: [Ok v] when the error is
      nil, [Err e] otherwise. *)

From Stdlib Require Import ZArith List Bool Lia String Ascii DecimalString.
From Stdlib Require Import DecimalPos.
From Stdlib Require Import Floats.PrimFloat Floats.SpecFloat Floats.FloatOps Floats.FloatAxioms.
From stdpp Require Import base gmap strings sorting.

Import ListNotations.
Local Open Scope string_scope.
Local Open Scope Z_scope.

(** ** Errors and results *)

Inductive error : Type :=
| errorString (msg : string)          (* errors.New / fmt.Errorf *)
| SyntaxError                         (* *json.SyntaxError, *strconv.NumError{ErrSyntax} *)
| RangeError                          (* *strconv.NumError{ErrRange} *)
| UnmarshalTypeError                  (* *json.UnmarshalTypeError *)
| UnsupportedValueError.              (* *json.UnsupportedValueError *)

Inductive result (A : Type) : Type :=
| Ok (a : A)
| Err (e : error).
Arguments Ok {A} a.
Arguments Err {A} e.

Definition is_ok {A} (r : result A) : bool :=
  match r with Ok _ => true | Err _ => false end.

(** ** Bytes *)

(** The numeric value of a byte, and the byte of a value in [0, 255]. *)
Definition b2z (c : ascii) : Z := Z.of_N (N_of_ascii c).
Definition z2b (z : Z) : ascii := ascii_of_N (Z.to_N z).

(** The double-quote character (code 34). *)
Definition dquote : ascii := "034"%char.

(** The builtin [len] of a string: its number of bytes. *)
Definition len (s : string) : Z := Z.of_nat (String.length s).

(** [s[i:]]. *)
Fixpoint drop (n : nat) (s : string) : string :=
  match n, s with
  | S n', String _ s' => drop n' s'
  | _, _ => s
  end.

(** [s[:i]]. *)
Fixpoint take (n : nat) (s : string) : string :=
  match n, s with
  | S n', String c s' => String c (take n' s')
  | _, _ => ""
  end.

(** [s[i]], with 0 standing for an index out of range (never read). *)
Definition at_ (s : string) (i : nat) : Z :=
  match String.get i s with
  | Some c => b2z c
  | None => 0
  end.

Definition in_range (lo c hi : Z) : bool := (lo <=? c) && (c <=? hi).

(** ** Package [unicode/utf8] *)

Module go_utf8.

Definition RuneError : Z := 0xFFFD.
Definition RuneSelf : Z := 0x80.
Definition MaxRune : Z := 0x10FFFF.
Definition UTFMax : nat := 4.

Definition surrogateMin : Z := 0xD800.
Definition surrogateMax : Z := 0xDFFF.

Definition maskx : Z := 0x3F.
Definition mask2 : Z := 0x1F.
Definition mask3 : Z := 0x0F.
Definition mask4 : Z := 0x07.
Definition locb : Z := 0x80.
Definition hicb : Z := 0xBF.

(** An entry of the table [first]: what the first byte of a sequence
    announces. [multi sz lo hi] is a sequence of [sz] bytes whose second
    byte must lie in the accept range [lo, hi]. *)
Inductive lead : Type :=
| as_                                (* ASCII: size 1 *)
| xx                                 (* invalid: size 1 *)
| multi (sz : nat) (lo hi : Z).

Definition first (s0 : Z) : lead :=
  if s0 <? 0x80 then as_
  else if s0 <? 0xC2 then xx
  else if s0 <? 0xE0 then multi 2 locb hicb
  else if s0 =? 0xE0 then multi 3 0xA0 hicb
  else if s0 <? 0xED then multi 3 locb hicb
  else if s0 =? 0xED then multi 3 locb 0x9F
  else if s0 <? 0xF0 then multi 3 locb hicb
  else if s0 =? 0xF0 then multi 4 0x90 hicb
  else if s0 <? 0xF4 then multi 4 locb hicb
  else if s0 =? 0xF4 then multi 4 locb 0x8F
  else xx.

(** [utf8.DecodeRuneInString] (and [utf8.DecodeRune]): the first rune of
    [s] and its width in bytes; [(RuneError, 1)] for an invalid or
    truncated encoding, [(RuneError, 0)] for the empty string. *)
Definition DecodeRune (s : string) : Z * nat :=
  let n := String.length s in
  if (n <? 1)%nat then (RuneError, 0%nat) else
  let s0 := at_ s 0 in
  match first s0 with
  | as_ => (s0, 1%nat)
  | xx => (RuneError, 1%nat)
  | multi sz lo hi =>
      if (n <? sz)%nat then (RuneError, 1%nat) else
      let s1 := at_ s 1 in
      if (s1 <? lo) || (hi <? s1) then (RuneError, 1%nat) else
      if (sz <=? 2)%nat then
        (Z.lor (Z.shiftl (Z.land s0 mask2) 6) (Z.land s1 maskx), 2%nat)
      else
      let s2 := at_ s 2 in
      if (s2 <? locb) || (hicb <? s2) then (RuneError, 1%nat) else
      if (sz <=? 3)%nat then
        (Z.lor (Z.lor (Z.shiftl (Z.land s0 mask3) 12)
                      (Z.shiftl (Z.land s1 maskx) 6))
               (Z.land s2 maskx), 3%nat)
      else
      let s3 := at_ s 3 in
      if (s3 <? locb) || (hicb <? s3) then (RuneError, 1%nat) else
      (Z.lor (Z.lor (Z.lor (Z.shiftl (Z.land s0 mask4) 18)
                           (Z.shiftl (Z.land s1 maskx) 12))
                    (Z.shiftl (Z.land s2 maskx) 6))
             (Z.land s3 maskx), 4%nat)
  end.

(** [utf8.EncodeRune] / [utf8.AppendRune]: the UTF-8 encoding of [r];
    a surrogate or an out-of-range value is encoded as [RuneError]. *)
Definition encode3 (r : Z) : string :=
  String (z2b (Z.lor 0xE0 (Z.shiftr r 12)))
    (String (z2b (Z.lor 0x80 (Z.land (Z.shiftr r 6) maskx)))
       (String (z2b (Z.lor 0x80 (Z.land r maskx))) "")).

Definition EncodeRune (r : Z) : string :=
  if (0 <=? r) && (r <=? 0x7F) then String (z2b r) ""
  else if (0 <=? r) && (r <=? 0x7FF) then
    String (z2b (Z.lor 0xC0 (Z.shiftr r 6)))
      (String (z2b (Z.lor 0x80 (Z.land r maskx))) "")
  else if (r <? 0) || (MaxRune <? r) || in_range surrogateMin r surrogateMax then
    encode3 RuneError
  else if r <=? 0xFFFF then encode3 r
  else
    String (z2b (Z.lor 0xF0 (Z.shiftr r 18)))
      (String (z2b (Z.lor 0x80 (Z.land (Z.shiftr r 12) maskx)))
         (String (z2b (Z.lor 0x80 (Z.land (Z.shiftr r 6) maskx)))
            (String (z2b (Z.lor 0x80 (Z.land r maskx))) ""))).

(** The iteration [for i, r := range s]: the runes of [s] from left to
    right, each with the bytes it was decoded from. An invalid byte is a
    chunk of its own carrying [RuneError]. *)
Fixpoint chunks (s : string) : list (Z * string) :=
  match s with
  | "" => []
  | String c0 s1 =>
      let '(r, size) := DecodeRune s in
      match size, s1 with
      | 2%nat, String c1 s2 =>
          (r, String c0 (String c1 "")) :: chunks s2
      | 3%nat, String c1 (String c2 s3) =>
          (r, String c0 (String c1 (String c2 ""))) :: chunks s3
      | 4%nat, String c1 (String c2 (String c3 s4)) =>
          (r, String c0 (String c1 (String c2 (String c3 "")))) :: chunks s4
      | _, _ => (r, String c0 "") :: chunks s1
      end
  end.

(** A chunk that is a well-formed encoding: anything but [RuneError]
    read from a single byte. *)
Definition chunk_valid (ch : Z * string) : bool :=
  negb ((fst ch =? RuneError) && (String.length (snd ch) =? 1)%nat).

(** [utf8.ValidString]. *)
Definition ValidString (s : string) : bool := forallb chunk_valid (chunks s).

End go_utf8.

(** ** Package [unicode] *)

Module go_unicode.

(** [unicode.IsSpace]: the Latin-1 cases, then the table [White_Space]. *)
Definition IsSpace (r : Z) : bool :=
  if (0 <=? r) && (r <=? 0xFF) then
    in_range 0x09 r 0x0D || (r =? 0x20) || (r =? 0x85) || (r =? 0xA0)
  else
    (r =? 0x1680) || in_range 0x2000 r 0x200A || in_range 0x2028 r 0x2029
    || (r =? 0x202F) || (r =? 0x205F) || (r =? 0x3000).

End go_unicode.

(** The parts of the Go standard library that are data tables or
    floating-point algorithms are taken as an interface. *)
Class GoTables : Type := {
  (** [unicode.ToUpper] on a rune outside ASCII. *)
  unicode_ToUpper : Z -> Z;
  (** [strconv.FormatFloat(v, 'f', -1, 64)]: the shortest decimal
      representation, without exponent, that parses back to [v]. *)
  FormatFloat_f : float -> string;
  (** The JSON text of a finite [float64], as written by [encoding/json]. *)
  json_float : float -> string
}.

(** ** Package [strings] *)

Module go_strings.
Import go_utf8.

Definition concat_chunks (l : list (Z * string)) : string :=
  fold_right (fun ch acc => (snd ch ++ acc)%string) "" l.

Definition space_chunk (ch : Z * string) : bool := go_unicode.IsSpace (fst ch).

Fixpoint drop_while {A} (f : A -> bool) (l : list A) : list A :=
  match l with
  | [] => []
  | x :: l' => if f x then drop_while f l' else l
  end.

(** [strings.TrimSpace]: [s] without its leading and trailing white-space
    runes. (The library scans ASCII bytes directly and decodes the other
    ones, forwards from the start and backwards from the end; the result
    is the one obtained on the rune sequence of [range s].) *)
Definition TrimSpace (s : string) : string :=
  concat_chunks
    (rev (drop_while space_chunk (rev (drop_while space_chunk (chunks s))))).

(** The loop of [strings.FieldsFunc(s, unicode.IsSpace)] over [range s]:
    [cur] is the field being read, if any ([start >= 0]). *)
Fixpoint fields_loop (cur : option string) (l : list (Z * string)) : list string :=
  match l with
  | [] => match cur with Some f => [f] | None => [] end
  | ch :: l' =>
      if space_chunk ch then
        match cur with
        | Some f => f :: fields_loop None l'
        | None => fields_loop None l'
        end
      else
        match cur with
        | Some f => fields_loop (Some (f ++ snd ch)%string) l'
        | None => fields_loop (Some (snd ch)) l'
        end
  end.

(** [strings.Fields]. *)
Definition Fields (s : string) : list string := fields_loop None (chunks s).

(** [strings.Split(s, sep)] for a separator [sep] of one byte. *)
Fixpoint Split (s : string) (sep : ascii) : list string :=
  match s with
  | "" => [""]
  | String c s' =>
      if Ascii.eqb c sep then "" :: Split s' sep
      else match Split s' sep with
           | h :: t => String c h :: t
           | [] => [String c ""]
           end
  end.

(** [strings.HasPrefix]. *)
Definition HasPrefix (s prefix : string) : bool := String.prefix prefix s.

(** [strings.TrimPrefix]. *)
Definition TrimPrefix (s prefix : string) : string :=
  if HasPrefix s prefix then drop (String.length prefix) s else s.

Definition isASCII (s : string) : bool :=
  forallb (fun c => b2z c <? RuneSelf) (list_ascii_of_string s).

Definition upper_byte (c : ascii) : ascii :=
  if in_range 97 (b2z c) 122 then z2b (b2z c - 32) else c.

Fixpoint map_bytes (f : ascii -> ascii) (s : string) : string :=
  match s with
  | "" => ""
  | String c s' => String (f c) (map_bytes f s')
  end.

(** [strings.Map]: a negative result drops the rune; an invalid byte is
    seen by [mapping] as [RuneError]. *)
Definition Map (mapping : Z -> Z) (s : string) : string :=
  fold_right
    (fun ch acc =>
       let r := mapping (fst ch) in
       if r <? 0 then acc else (EncodeRune r ++ acc)%string)
    "" (chunks s).

(** [strings.ToUpper]: ASCII-only strings are mapped byte by byte, the
    others rune by rune through [unicode.ToUpper]. *)
Definition ToUpper `{GoTables} (s : string) : string :=
  if isASCII s then map_bytes upper_byte s
  else Map (fun r => if r <? RuneSelf then b2z (upper_byte (z2b r))
                     else unicode_ToUpper r) s.

End go_strings.

(** ** Package [strconv] *)

Module go_strconv.

Definition intSize : Z := 64.

Definition is_digit (c : ascii) : bool := in_range 48 (b2z c) 57.

(** [strconv.Itoa]. *)
Definition Itoa (n : Z) : string := NilZero.string_of_int (Z.to_int n).

(** The digit loop of [strconv.ParseUint(s, 10, 64)]. *)
Definition maxUint64 : Z := 2 ^ 64 - 1.
Definition cutoff10 : Z := maxUint64 / 10 + 1.

Fixpoint ParseUint_loop (n : Z) (s : string) : result Z :=
  match s with
  | "" => Ok n
  | String c s' =>
      if is_digit c then
        if n >=? cutoff10 then Err RangeError
        else
          let n1 := n * 10 + (b2z c - 48) in
          if n1 >? maxUint64 then Err RangeError
          else ParseUint_loop n1 s'
      else Err SyntaxError
  end.

Definition ParseUint (s : string) : result Z :=
  if String.eqb s "" then Err SyntaxError else ParseUint_loop 0 s.

(** [strconv.ParseInt(s, 10, 0)]. *)
Definition ParseInt (s : string) : result Z :=
  match s with
  | "" => Err SyntaxError
  | String c0 s' =>
      let neg := Ascii.eqb c0 "-" in
      let s1 := if Ascii.eqb c0 "+" || neg then s' else s in
      match ParseUint s1 with
      | Err SyntaxError => Err SyntaxError
      | r =>
          let un := match r with Ok u => u | Err _ => maxUint64 end in
          let cutoff := 2 ^ (intSize - 1) in
          if negb neg && (un >=? cutoff) then Err RangeError
          else if neg && (un >? cutoff) then Err RangeError
          else Ok (if neg then - un else un)
      end
  end.

(** The fast path of [strconv.Atoi], for fewer than 19 bytes. *)
Fixpoint Atoi_fast_loop (n : Z) (s : string) : result Z :=
  match s with
  | "" => Ok n
  | String ch s' =>
      if is_digit ch then Atoi_fast_loop (n * 10 + (b2z ch - 48)) s'
      else Err SyntaxError
  end.

(** [strconv.Atoi]. *)
Definition Atoi (s : string) : result Z :=
  let sLen := len s in
  if (0 <? sLen) && (sLen <? 19) then
    match s with
    | "" => Err SyntaxError
    | String c0 s' =>
        let signed := Ascii.eqb c0 "-" || Ascii.eqb c0 "+" in
        let s1 := if signed then s' else s in
        if signed && (len s1 <? 1) then Err SyntaxError
        else
          match Atoi_fast_loop 0 s1 with
          | Ok n => Ok (if Ascii.eqb c0 "-" then - n else n)
          | Err e => Err e
          end
    end
  else ParseInt s.

End go_strconv.

(** ** Package [fmt] *)

Module go_fmt.

Fixpoint zeros (n : nat) : string :=
  match n with
  | O => ""
  | S n' => String "0" (zeros n')
  end.

(** The verb [%0Wd] of [fmt.Sprintf]: the sign, then the digits padded
    with zeros so that sign and digits fill at least [W] columns. *)
Definition Sprintf_0d (W : nat) (n : Z) : string :=
  let digits := go_strconv.Itoa (Z.abs n) in
  let prec := if n <? 0 then (W - 1)%nat else W in
  let padded := (zeros (prec - String.length digits) ++ digits)%string in
  if n <? 0 then String "-" padded else padded.

(** The verb [%d] of [fmt.Sprintf] on an [int]: the text of
    [strconv.Itoa]. *)
Definition Sprintf_d (n : Z) : string := go_strconv.Itoa n.

End go_fmt.

(** ** Package [net/url] *)

Module go_url.

(** [url.Values] is [map[string][]string]. *)
Abbreviation Values := (gmap string (list string)).

(** [Values.Add]: [v[key] = append(v[key], value)]. *)
Definition Add (v : Values) (key value : string) : Values :=
  <[key := (default [] (v !! key) ++ [value])%list]> v.

(** [shouldEscape(c, encodeQueryComponent)]: everything but the
    unreserved characters is escaped. *)
Definition shouldEscape (c : ascii) : bool :=
  let z := b2z c in
  if in_range 97 z 122 || in_range 65 z 90 || in_range 48 z 57 then false
  else if Ascii.eqb c "-" || Ascii.eqb c "_" || Ascii.eqb c "." || Ascii.eqb c "~"
  then false
  else true.

Definition upperhex : string := "0123456789ABCDEF".

Definition hex_digit (digits : string) (i : Z) : ascii :=
  match String.get (Z.to_nat i) digits with
  | Some c => c
  | None => "0"%char
  end.

(** [url.QueryEscape]. *)
Fixpoint QueryEscape (s : string) : string :=
  match s with
  | "" => ""
  | String c s' =>
      if shouldEscape c then
        if Ascii.eqb c " " then String "+" (QueryEscape s')
        else String "%"
               (String (hex_digit upperhex (Z.shiftr (b2z c) 4))
                  (String (hex_digit upperhex (Z.land (b2z c) 15))
                     (QueryEscape s')))
      else String c (QueryEscape s')
  end.

(** The order of [slices.Sort] on strings: bytewise lexicographic. *)
Definition string_le (a b : string) : Prop := String.leb a b = true.

#[global] Instance string_le_dec a b : Decision (string_le a b).
Proof. unfold string_le. apply _. Defined.

Definition sorted_keys (v : Values) : list string :=
  merge_sort string_le (map fst (map_to_list v)).

(** [Values.Encode]: the pairs [key=value], escaped, in the order of the
    sorted keys, separated by [&]. *)
Definition Encode (v : Values) : string :=
  fold_left
    (fun buf k =>
       let vs := default [] (v !! k) in
       let keyEscaped := QueryEscape k in
       fold_left
         (fun buf x =>
            ((if (0 <? len buf)%Z then buf ++ "&" else buf)
               ++ keyEscaped ++ "=" ++ QueryEscape x)%string)
         vs buf)
    (sorted_keys v) "".

End go_url.

(** ** Package [encoding/json] *)

Module go_json.
Import go_utf8.

(** *** The scanner ([scanner.go]) *)

(** The state functions a scanner can be in ([scanner.step]). *)
Inductive step_fn : Type :=
| S_BeginValueOrEmpty | S_BeginValue | S_BeginStringOrEmpty | S_BeginString
| S_EndValue | S_EndTop
| S_InString | S_InStringEsc
| S_InStringEscU | S_InStringEscU1 | S_InStringEscU12 | S_InStringEscU123
| S_Neg | S_1 | S_0 | S_Dot | S_Dot0 | S_E | S_ESign | S_E0
| S_T | S_Tr | S_Tru
| S_F | S_Fa | S_Fal | S_Fals
| S_N | S_Nu | S_Nul
| S_Error.

Inductive parse_state : Type :=
| parseObjectKey | parseObjectValue | parseArrayValue.

(** The scanner; [parseState] has the innermost state first; [err] tells
    whether [scanner.err] is set. *)
Record scanner : Type := mkScanner {
  step : step_fn;
  endTop : bool;
  parseState : list parse_state;
  err : bool
}.

Definition maxNestingDepth : Z := 10000.

Definition reset : scanner :=
  {| step := S_BeginValue; endTop := false; parseState := []; err := false |}.

Definition set_step (s : scanner) (f : step_fn) : scanner :=
  {| step := f; endTop := endTop s; parseState := parseState s; err := err s |}.

(** [scanner.error]. *)
Definition error_ (s : scanner) : scanner :=
  {| step := S_Error; endTop := endTop s; parseState := parseState s; err := true |}.

(** [scanner.pushParseState]. *)
Definition pushParseState (s : scanner) (newParseState : parse_state)
    (successState : step_fn) : scanner :=
  let s' := {| step := successState; endTop := endTop s;
               parseState := newParseState :: parseState s; err := err s |} in
  if Z.of_nat (List.length (parseState s')) <=? maxNestingDepth then s' else error_ s'.

(** [scanner.popParseState]. *)
Definition popParseState (s : scanner) : scanner :=
  let ps := tail (parseState s) in
  match ps with
  | [] => {| step := S_EndTop; endTop := true; parseState := ps; err := err s |}
  | _ => {| step := S_EndValue; endTop := endTop s; parseState := ps; err := err s |}
  end.

(** Replaces the innermost parse state. *)
Definition set_top (s : scanner) (p : parse_state) : scanner :=
  {| step := step s; endTop := endTop s;
     parseState := p :: tail (parseState s); err := err s |}.

Definition isSpace (c : ascii) : bool :=
  Ascii.eqb c " " || (b2z c =? 9) || (b2z c =? 13) || (b2z c =? 10).

Definition is_digit (c : ascii) : bool := in_range 48 (b2z c) 57.
Definition is_digit19 (c : ascii) : bool := in_range 49 (b2z c) 57.
Definition is_hex (c : ascii) : bool :=
  in_range 48 (b2z c) 57 || in_range 97 (b2z c) 102 || in_range 65 (b2z c) 70.

Definition stateEndTop (s : scanner) (c : ascii) : scanner :=
  if negb (isSpace c) then error_ s else s.

Definition stateEndValue (s : scanner) (c : ascii) : scanner :=
  match parseState s with
  | [] =>
      (* Completed top-level before the current byte. *)
      stateEndTop {| step := S_EndTop; endTop := true;
                     parseState := []; err := err s |} c
  | ps :: _ =>
      if isSpace c then set_step s S_EndValue
      else
        match ps with
        | parseObjectKey =>
            if Ascii.eqb c ":" then set_step (set_top s parseObjectValue) S_BeginValue
            else error_ s
        | parseObjectValue =>
            if Ascii.eqb c "," then set_step (set_top s parseObjectKey) S_BeginString
            else if Ascii.eqb c "}" then popParseState s
            else error_ s
        | parseArrayValue =>
            if Ascii.eqb c "," then set_step s S_BeginValue
            else if Ascii.eqb c "]" then popParseState s
            else error_ s
        end
  end.

Definition stateBeginValue (s : scanner) (c : ascii) : scanner :=
  if isSpace c then s
  else if Ascii.eqb c "{" then
    pushParseState (set_step s S_BeginStringOrEmpty) parseObjectKey S_BeginStringOrEmpty
  else if Ascii.eqb c "[" then
    pushParseState (set_step s S_BeginValueOrEmpty) parseArrayValue S_BeginValueOrEmpty
  else if Ascii.eqb c dquote then set_step s S_InString
  else if Ascii.eqb c "-" then set_step s S_Neg
  else if Ascii.eqb c "0" then set_step s S_0
  else if Ascii.eqb c "t" then set_step s S_T
  else if Ascii.eqb c "f" then set_step s S_F
  else if Ascii.eqb c "n" then set_step s S_N
  else if is_digit19 c then set_step s S_1
  else error_ s.

Definition stateBeginValueOrEmpty (s : scanner) (c : ascii) : scanner :=
  if isSpace c then s
  else if Ascii.eqb c "]" then stateEndValue s c
  else stateBeginValue s c.

Definition stateBeginString (s : scanner) (c : ascii) : scanner :=
  if isSpace c then s
  else if Ascii.eqb c dquote then set_step s S_InString
  else error_ s.

Definition stateBeginStringOrEmpty (s : scanner) (c : ascii) : scanner :=
  if isSpace c then s
  else if Ascii.eqb c "}" then stateEndValue (set_top s parseObjectValue) c
  else stateBeginString s c.

Definition stateInString (s : scanner) (c : ascii) : scanner :=
  if Ascii.eqb c dquote then set_step s S_EndValue
  else if Ascii.eqb c "\" then set_step s S_InStringEsc
  else if b2z c <? 0x20 then error_ s
  else s.

Definition stateInStringEsc (s : scanner) (c : ascii) : scanner :=
  if Ascii.eqb c "b" || Ascii.eqb c "f" || Ascii.eqb c "n" || Ascii.eqb c "r"
     || Ascii.eqb c "t" || Ascii.eqb c "\" || Ascii.eqb c "/" || Ascii.eqb c dquote
  then set_step s S_InString
  else if Ascii.eqb c "u" then set_step s S_InStringEscU
  else error_ s.

Definition stateHex (next : step_fn) (s : scanner) (c : ascii) : scanner :=
  if is_hex c then set_step s next else error_ s.

Definition state0 (s : scanner) (c : ascii) : scanner :=
  if Ascii.eqb c "." then set_step s S_Dot
  else if Ascii.eqb c "e" || Ascii.eqb c "E" then set_step s S_E
  else stateEndValue s c.

Definition state1 (s : scanner) (c : ascii) : scanner :=
  if is_digit c then set_step s S_1 else state0 s c.

Definition stateNeg (s : scanner) (c : ascii) : scanner :=
  if Ascii.eqb c "0" then set_step s S_0
  else if is_digit19 c then set_step s S_1
  else error_ s.

Definition stateDot (s : scanner) (c : ascii) : scanner :=
  if is_digit c then set_step s S_Dot0 else error_ s.

Definition stateDot0 (s : scanner) (c : ascii) : scanner :=
  if is_digit c then s
  else if Ascii.eqb c "e" || Ascii.eqb c "E" then set_step s S_E
  else stateEndValue s c.

Definition stateESign (s : scanner) (c : ascii) : scanner :=
  if is_digit c then set_step s S_E0 else error_ s.

Definition stateE (s : scanner) (c : ascii) : scanner :=
  if Ascii.eqb c "+" || Ascii.eqb c "-" then set_step s S_ESign
  else stateESign s c.

Definition stateE0 (s : scanner) (c : ascii) : scanner :=
  if is_digit c then s else stateEndValue s c.

(** The states inside the literals [true], [false] and [null]. *)
Definition stateLetter (expected : ascii) (next : step_fn)
    (s : scanner) (c : ascii) : scanner :=
  if Ascii.eqb c expected then set_step s next else error_ s.

(** One call [s.step(s, c)]. *)
Definition step_byte (s : scanner) (c : ascii) : scanner :=
  match step s with
  | S_BeginValueOrEmpty => stateBeginValueOrEmpty s c
  | S_BeginValue => stateBeginValue s c
  | S_BeginStringOrEmpty => stateBeginStringOrEmpty s c
  | S_BeginString => stateBeginString s c
  | S_EndValue => stateEndValue s c
  | S_EndTop => stateEndTop s c
  | S_InString => stateInString s c
  | S_InStringEsc => stateInStringEsc s c
  | S_InStringEscU => stateHex S_InStringEscU1 s c
  | S_InStringEscU1 => stateHex S_InStringEscU12 s c
  | S_InStringEscU12 => stateHex S_InStringEscU123 s c
  | S_InStringEscU123 => stateHex S_InString s c
  | S_Neg => stateNeg s c
  | S_1 => state1 s c
  | S_0 => state0 s c
  | S_Dot => stateDot s c
  | S_Dot0 => stateDot0 s c
  | S_E => stateE s c
  | S_ESign => stateESign s c
  | S_E0 => stateE0 s c
  | S_T => stateLetter "r" S_Tr s c
  | S_Tr => stateLetter "u" S_Tru s c
  | S_Tru => stateLetter "e" S_EndValue s c
  | S_F => stateLetter "a" S_Fa s c
  | S_Fa => stateLetter "l" S_Fal s c
  | S_Fal => stateLetter "s" S_Fals s c
  | S_Fals => stateLetter "e" S_EndValue s c
  | S_N => stateLetter "u" S_Nu s c
  | S_Nu => stateLetter "l" S_Nul s c
  | S_Nul => stateLetter "l" S_EndValue s c
  | S_Error => s
  end.

Fixpoint scan (s : scanner) (data : string) : scanner :=
  match data with
  | "" => s
  | String c data' => scan (step_byte s c) data'
  end.

(** [scanner.eof]: [true] when the input seen so far is a complete
    JSON value. *)
Definition eof (s : scanner) : bool :=
  if err s then false
  else if endTop s then true
  else
    endTop (step_byte s " ").

(** [checkValid]: [true] when the error is nil. *)
Definition checkValid (data : string) : bool := eof (scan reset data).

(** *** Encoding a string ([appendString], with [escapeHTML] set) *)

Definition hex : string := "0123456789abcdef".

Definition hex_digit (digits : string) (i : Z) : ascii :=
  match String.get (Z.to_nat i) digits with
  | Some c => c
  | None => "0"%char
  end.

(** [htmlSafeSet[b]]: the ASCII bytes copied as they are. *)
Definition htmlSafeSet (b : ascii) : bool :=
  in_range 0x20 (b2z b) 0x7F
  && negb (Ascii.eqb b dquote || Ascii.eqb b "\" || Ascii.eqb b "<"
           || Ascii.eqb b ">" || Ascii.eqb b "&").

(** What one iteration of the loop of [appendString] appends for the
    rune [ch] of the source. *)
Definition appendString_rune (ch : Z * string) : string :=
  let b := at_ (snd ch) 0 in
  if b <? RuneSelf then
    if htmlSafeSet (z2b b) then snd ch
    else if (b =? 92) || (b =? 34) then String "\" (snd ch)
    else if b =? 8 then "\b"
    else if b =? 12 then "\f"
    else if b =? 10 then "\n"
    else if b =? 13 then "\r"
    else if b =? 9 then "\t"
    else
      (* bytes < 0x20 without a short escape, and <, >, & *)
      "\u00" ++ String (hex_digit hex (Z.shiftr b 4))
                  (String (hex_digit hex (Z.land b 0xF)) "")
  else if (fst ch =? RuneError) && (String.length (snd ch) =? 1)%nat then
    "\ufffd"
  else if (fst ch =? 0x2028) || (fst ch =? 0x2029) then
    "\u202" ++ String (hex_digit hex (Z.land (fst ch) 0xF)) ""
  else snd ch.

Definition appendString_body (src : string) : string :=
  fold_right (fun ch acc => appendString_rune ch ++ acc) "" (chunks src).

Definition appendString (src : string) : string :=
  String dquote (appendString_body src ++ String dquote "").

(** *** Decoding a string literal ([unquoteBytes]) *)

Definition hexval (c : ascii) : Z :=
  let z := b2z c in
  if in_range 48 z 57 then z - 48
  else if in_range 97 z 102 then z - 97 + 10
  else if in_range 65 z 70 then z - 65 + 10
  else -1.

(** [getu4]: the value of a leading [\uXXXX], or -1. *)
Definition getu4 (s : string) : Z :=
  match s with
  | String b (String u (String h1 (String h2 (String h3 (String h4 _))))) =>
      if negb (Ascii.eqb b "\") || negb (Ascii.eqb u "u") then -1
      else if (hexval h1 <? 0) || (hexval h2 <? 0)
              || (hexval h3 <? 0) || (hexval h4 <? 0) then -1
      else ((hexval h1 * 16 + hexval h2) * 16 + hexval h3) * 16 + hexval h4
  | _ => -1
  end.

(** [utf16.IsSurrogate] and [utf16.DecodeRune]. *)
Definition IsSurrogate (r : Z) : bool := (0xD800 <=? r) && (r <? 0xE000).

Definition utf16_DecodeRune (r1 r2 : Z) : Z :=
  if (0xD800 <=? r1) && (r1 <? 0xDC00) && (0xDC00 <=? r2) && (r2 <? 0xE000) then
    Z.lor (Z.shiftl (r1 - 0xD800) 10) (r2 - 0xDC00) + 0x10000
  else RuneError.

Definition option_app (a : string) (o : option string) : option string :=
  match o with
  | Some b => Some (a ++ b)%string
  | None => None
  end.

(** The main loop of [unquoteBytes], on the literal without its quotes.
    (The library first copies the longest prefix that needs no
    unquoting; the loop maps such a prefix to itself.) *)
Fixpoint unquote_loop (s : string) : option string :=
  match s with
  | "" => Some ""
  | String c r1 =>
      if Ascii.eqb c "\" then
        match r1 with
        | "" => None
        | String e r2 =>
            if Ascii.eqb e dquote || Ascii.eqb e "\" || Ascii.eqb e "/"
               || Ascii.eqb e "'" then option_app (String e "") (unquote_loop r2)
            else if Ascii.eqb e "b" then option_app (String (z2b 8) "") (unquote_loop r2)
            else if Ascii.eqb e "f" then option_app (String (z2b 12) "") (unquote_loop r2)
            else if Ascii.eqb e "n" then option_app (String (z2b 10) "") (unquote_loop r2)
            else if Ascii.eqb e "r" then option_app (String (z2b 13) "") (unquote_loop r2)
            else if Ascii.eqb e "t" then option_app (String (z2b 9) "") (unquote_loop r2)
            else if Ascii.eqb e "u" then
              let rr := getu4 s in
              if rr <? 0 then None
              else
                match r2 with
                | String _ (String _ (String _ (String _ r6))) =>
                    if IsSurrogate rr then
                      let rr1 := getu4 r6 in
                      let dec := utf16_DecodeRune rr rr1 in
                      match r6 with
                      | String _ (String _ (String _ (String _ (String _ (String _ r12))))) =>
                          if negb (dec =? RuneError) then
                            (* A valid pair; consume. *)
                            option_app (EncodeRune dec) (unquote_loop r12)
                          else
                            (* Invalid surrogate; fall back to replacement rune. *)
                            option_app (EncodeRune RuneError) (unquote_loop r6)
                      | _ => option_app (EncodeRune RuneError) (unquote_loop r6)
                      end
                    else option_app (EncodeRune rr) (unquote_loop r6)
                | _ => None
                end
            else None
        end
      else if Ascii.eqb c dquote || (b2z c <? 0x20) then None
      else if b2z c <? RuneSelf then option_app (String c "") (unquote_loop r1)
      else
        (* Coerce to well-formed UTF-8. *)
        let '(rr, size) := DecodeRune s in
        match size, r1 with
        | 2%nat, String _ r2 => option_app (EncodeRune rr) (unquote_loop r2)
        | 3%nat, String _ (String _ r3) => option_app (EncodeRune rr) (unquote_loop r3)
        | 4%nat, String _ (String _ (String _ r4)) =>
            option_app (EncodeRune rr) (unquote_loop r4)
        | _, _ => option_app (EncodeRune rr) (unquote_loop r1)
        end
  end.

Fixpoint last_byte (s : string) : option ascii :=
  match s with
  | "" => None
  | String c "" => Some c
  | String _ s' => last_byte s'
  end.

Fixpoint remove_last (s : string) : string :=
  match s with
  | "" => ""
  | String c "" => ""
  | String c s' => String c (remove_last s')
  end.

(** [unquoteBytes]: the string denoted by a quoted literal. *)
Definition unquoteBytes (s : string) : option string :=
  match s with
  | String c0 s' =>
      if (len s <? 2) || negb (Ascii.eqb c0 dquote)
         || negb (match last_byte s with Some c => Ascii.eqb c dquote | None => false end)
      then None
      else unquote_loop (remove_last s')
  | "" => None
  end.

(** *** Decoding ([decode.go]) *)

(** [decodeState.rescanLiteral] on a string: the bytes of the literal
    that follow its opening quote, closing quote included. *)
Fixpoint rescan_string (data : string) : string :=
  match data with
  | "" => ""
  | String c data' =>
      if Ascii.eqb c "\" then
        match data' with
        | "" => String c ""
        | String e data'' => String c (String e (rescan_string data''))
        end
      else if Ascii.eqb c dquote then String c ""
      else String c (rescan_string data')
  end.

(** [decodeState.scanWhile(scanSkipSpace)] at the start of the input. *)
Fixpoint skip_space (data : string) : string :=
  match data with
  | "" => ""
  | String c data' => if isSpace c then skip_space data' else data
  end.

(** The number literals of the input, in order: the maximal runs of
    bytes that leave the scanner inside a number. *)
Definition in_number (f : step_fn) : bool :=
  match f with
  | S_Neg | S_1 | S_0 | S_Dot | S_Dot0 | S_E | S_ESign | S_E0 => true
  | _ => false
  end.

Definition flush (cur : string) (l : list string) : list string :=
  if String.eqb cur "" then l else cur :: l.

Fixpoint number_literals_from (s : scanner) (cur : string) (data : string)
    : list string :=
  match data with
  | "" => flush cur []
  | String c data' =>
      let s' := step_byte s c in
      if in_number (step s') then
        number_literals_from s' (cur ++ String c "") data'
      else flush cur (number_literals_from s' "" data')
  end.

Definition number_literals (data : string) : list string :=
  number_literals_from reset "" data.

(** The value of a number literal is [mant * 10 ^ exp10]. *)
Record decimal : Type := mkDecimal {
  mant : Z;          (* the digits of the integer and fraction parts *)
  frac : Z;          (* the number of fraction digits *)
  in_frac : bool;
  in_exp : bool;
  eneg : bool;
  expo : Z           (* the digits of the exponent *)
}.

Definition read_number_byte (d : decimal) (c : ascii) : decimal :=
  if is_digit c then
    let v := b2z c - 48 in
    if in_exp d then
      mkDecimal (mant d) (frac d) (in_frac d) true (eneg d) (expo d * 10 + v)
    else if in_frac d then
      mkDecimal (mant d * 10 + v) (frac d + 1) true false (eneg d) (expo d)
    else mkDecimal (mant d * 10 + v) (frac d) false false (eneg d) (expo d)
  else if Ascii.eqb c "." then
    mkDecimal (mant d) (frac d) true (in_exp d) (eneg d) (expo d)
  else if Ascii.eqb c "e" || Ascii.eqb c "E" then
    mkDecimal (mant d) (frac d) (in_frac d) true (eneg d) (expo d)
  else if Ascii.eqb c "-" && in_exp d then
    mkDecimal (mant d) (frac d) (in_frac d) true true (expo d)
  else d.

Fixpoint read_number (d : decimal) (s : string) : decimal :=
  match s with
  | "" => d
  | String c s' => read_number (read_number_byte d c) s'
  end.

(** The least magnitude that rounds to an infinite [float64]: the
    midpoint between the largest finite value and [2^1024]. *)
Definition float64_overflow : Z := 2 ^ 1024 - 2 ^ 970.

(** Whether [strconv.ParseFloat(s, 64)] returns a nil error on the number
    literal [s]: the literal is well formed, so the only error is
    [ErrRange], returned when the nearest [float64] is infinite. *)
Definition ParseFloat_ok (s : string) : bool :=
  let d := read_number (mkDecimal 0 0 false false false 0) s in
  let exp10 := (if eneg d then - expo d else expo d) - frac d in
  if 0 <=? exp10 then mant d * 10 ^ exp10 <? float64_overflow
  else mant d <? float64_overflow * 10 ^ (- exp10).

(** [decodeState.convertNumber] without [UseNumber]. *)
Definition convertNumber_ok (s : string) : bool := ParseFloat_ok s.

(** [json.Unmarshal(data, &str)] for [var str string]: the value of
    [str] afterwards, or the error. *)
Definition Unmarshal_string (data : string) : result string :=
  if negb (checkValid data) then Err SyntaxError
  else
    match skip_space data with
    | String c rest =>
        if Ascii.eqb c dquote then
          match unquoteBytes (String c (rescan_string rest)) with
          | Some s => Ok s
          | None => Err SyntaxError
          end
        else if Ascii.eqb c "n" then
          (* null: no effect on a string, no error *)
          Ok ""
        else Err UnmarshalTypeError
    | "" => Err SyntaxError
    end.

(** [json.Unmarshal(data, &obj)] for [var obj map[string]interface{}]:
    whether the error is nil. The members of an object are decoded into
    [interface{}] values, which fails only where a number does not fit a
    [float64]. *)
Definition Unmarshal_map (data : string) : result unit :=
  if negb (checkValid data) then Err SyntaxError
  else
    match skip_space data with
    | String c rest =>
        if Ascii.eqb c "{" then
          if forallb convertNumber_ok (number_literals data) then Ok tt
          else Err UnmarshalTypeError
        else if Ascii.eqb c "n" then Ok tt
        else Err UnmarshalTypeError
    | "" => Err SyntaxError
    end.

(** [json.Marshal] of a string. *)
Definition Marshal_string (s : string) : result string := Ok (appendString s).

(** *** Encoding a struct whose fields are all tagged [omitempty] *)

Inductive field : Type :=
| fstring (name : string) (v : string)
| ffloat (name : string) (v : float)
| fint (name : string) (v : Z).

Definition field_name (f : field) : string :=
  match f with fstring n _ | ffloat n _ | fint n _ => n end.

(** [isEmptyValue]. *)
Definition isEmptyValue (f : field) : bool :=
  match f with
  | fstring _ v => String.eqb v ""
  | ffloat _ v => PrimFloat.eqb v 0%float
  | fint _ v => v =? 0
  end.

(** The encoders of the field types; [floatEncoder] rejects NaN and the
    infinities. *)
Definition encode_value `{GoTables} (f : field) : result string :=
  match f with
  | fstring _ v => Ok (appendString v)
  | ffloat _ v =>
      if PrimFloat.is_infinity v || PrimFloat.is_nan v then Err UnsupportedValueError
      else Ok (json_float v)
  | fint _ v => Ok (go_strconv.Itoa v)
  end.

(** [structEncoder.encode]: [next] is the byte written before the next
    member, an opening brace at first and a comma afterwards. *)
Fixpoint struct_members `{GoTables} (next : ascii) (fs : list field) (buf : string)
    : result string :=
  match fs with
  | [] => Ok (if Ascii.eqb next "{" then "{}" else buf ++ "}")%string
  | f :: fs' =>
      if isEmptyValue f then struct_members next fs' buf
      else
        match encode_value f with
        | Err e => Err e
        | Ok v =>
            struct_members ","%char fs'
              (buf ++ String next (appendString (field_name f)) ++ ":" ++ v)%string
        end
  end.

Definition Marshal_struct `{GoTables} (fs : list field) : result string :=
  struct_members "{"%char fs "".

End go_json.

(** ** Package [types] *)

Module types.

Definition Units := string.
Definition UnitsLBS : Units := "LBS".
Definition UnitsKGS : Units := "KGS".

Definition PlanFormat := string.
Definition PlanFormatLIDO : PlanFormat := "LIDO".
Definition PlanFormatDefault : PlanFormat := "".

Module AircraftData.
Record t : Type := mk {
  Category : string;
  Equipment : string;
  Transponder : string;
  PBN : string;
  ExtraRemark : string;
  MaxPax : string;
  OEW : float;
  MZFW : float;
  MTOW : float;
  MLW : float;
  MaxFuel : float;
  HexCode : string;
  Per : string;
  PaxWgt : Z;
  ICAO : string;
  Name : string;
  Engines : string
}.
End AircraftData.

Module FlightPlanRequest.
Record t : Type := mk {
  (* Required parameters *)
  Origin : string;
  Destination : string;
  Aircraft : string;
  (* Basic flight information *)
  Airline : string;
  FlightNumber : string;
  Date : string;
  DepartureHour : Z;
  DepartureMinute : Z;
  Route : string;
  ScheduledHour : Z;
  ScheduledMinute : Z;
  (* Aircraft details *)
  Registration : string;
  FinNumber : string;
  SELCAL : string;
  ATCCallsign : string;
  (* Crew and passenger info *)
  Passengers : Z;
  CaptainName : string;
  DispatcherName : string;
  PilotID : string;
  (* Alternates and routing *)
  Alternate : string;
  Altitude : string;
  AltnCount : Z;
  AltnAvoid : string;
  (* Alternate 1-4 specific fields *)
  Altn1ID : string;
  Altn1Runway : string;
  Altn1Route : string;
  Altn2ID : string;
  Altn2Runway : string;
  Altn2Route : string;
  Altn3ID : string;
  Altn3Runway : string;
  Altn3Route : string;
  Altn4ID : string;
  Altn4Runway : string;
  Altn4Route : string;
  (* Fuel and weight *)
  FuelFactor : string;
  ManualZFW : float;
  AddedFuel : string;
  AddedFuelUnits : string;
  ContFuelPct : string;
  ReserveFuel : Z;
  Cargo : float;
  (* Taxi and runway *)
  TaxiOut : Z;
  TaxiIn : Z;
  OriginRunway : string;
  DestRunway : string;
  (* Performance profiles *)
  ClimbProfile : string;
  DescentProfile : string;
  CruiseProfile : string;
  CostIndex : string;
  (* Aircraft data *)
  AircraftData : option AircraftData.t;
  (* ETOPS *)
  ETOPSRule : string;
  (* Custom remarks and static ID *)
  ManualRemarks : string;
  StaticID : string;
  (* OFP Options *)
  PlanFormat : string;
  Units : types.Units;
  NavLog : option bool;
  ETOPS : option bool;
  StepClimbs : option bool;
  RunwayAnalysis : option bool;
  NOTAMs : option bool;
  FIRNOTAMs : option bool;
  Maps : string;
  OmitSIDs : option bool;
  OmitSTARs : option bool;
  FindSIDSTAR : string
}.

(** Assignments to single fields. *)
Definition set_Airline (v : string) (r : t) : t :=
  mk
    (Origin r) (Destination r) (Aircraft r) v (FlightNumber r) (Date r)
    (DepartureHour r) (DepartureMinute r) (Route r) (ScheduledHour r)
    (ScheduledMinute r) (Registration r) (FinNumber r) (SELCAL r)
    (ATCCallsign r) (Passengers r) (CaptainName r) (DispatcherName r)
    (PilotID r) (Alternate r) (Altitude r) (AltnCount r) (AltnAvoid r)
    (Altn1ID r) (Altn1Runway r) (Altn1Route r) (Altn2ID r) (Altn2Runway r)
    (Altn2Route r) (Altn3ID r) (Altn3Runway r) (Altn3Route r) (Altn4ID r)
    (Altn4Runway r) (Altn4Route r) (FuelFactor r) (ManualZFW r) (AddedFuel
    r) (AddedFuelUnits r) (ContFuelPct r) (ReserveFuel r) (Cargo r)
    (TaxiOut r) (TaxiIn r) (OriginRunway r) (DestRunway r) (ClimbProfile
    r) (DescentProfile r) (CruiseProfile r) (CostIndex r) (AircraftData r)
    (ETOPSRule r) (ManualRemarks r) (StaticID r) (PlanFormat r) (Units r)
    (NavLog r) (ETOPS r) (StepClimbs r) (RunwayAnalysis r) (NOTAMs r)
    (FIRNOTAMs r) (Maps r) (OmitSIDs r) (OmitSTARs r) (FindSIDSTAR r).

Definition set_FlightNumber (v : string) (r : t) : t :=
  mk
    (Origin r) (Destination r) (Aircraft r) (Airline r) v (Date r)
    (DepartureHour r) (DepartureMinute r) (Route r) (ScheduledHour r)
    (ScheduledMinute r) (Registration r) (FinNumber r) (SELCAL r)
    (ATCCallsign r) (Passengers r) (CaptainName r) (DispatcherName r)
    (PilotID r) (Alternate r) (Altitude r) (AltnCount r) (AltnAvoid r)
    (Altn1ID r) (Altn1Runway r) (Altn1Route r) (Altn2ID r) (Altn2Runway r)
    (Altn2Route r) (Altn3ID r) (Altn3Runway r) (Altn3Route r) (Altn4ID r)
    (Altn4Runway r) (Altn4Route r) (FuelFactor r) (ManualZFW r) (AddedFuel
    r) (AddedFuelUnits r) (ContFuelPct r) (ReserveFuel r) (Cargo r)
    (TaxiOut r) (TaxiIn r) (OriginRunway r) (DestRunway r) (ClimbProfile
    r) (DescentProfile r) (CruiseProfile r) (CostIndex r) (AircraftData r)
    (ETOPSRule r) (ManualRemarks r) (StaticID r) (PlanFormat r) (Units r)
    (NavLog r) (ETOPS r) (StepClimbs r) (RunwayAnalysis r) (NOTAMs r)
    (FIRNOTAMs r) (Maps r) (OmitSIDs r) (OmitSTARs r) (FindSIDSTAR r).

Definition set_DepartureHour (v : Z) (r : t) : t :=
  mk
    (Origin r) (Destination r) (Aircraft r) (Airline r) (FlightNumber r)
    (Date r) v (DepartureMinute r) (Route r) (ScheduledHour r)
    (ScheduledMinute r) (Registration r) (FinNumber r) (SELCAL r)
    (ATCCallsign r) (Passengers r) (CaptainName r) (DispatcherName r)
    (PilotID r) (Alternate r) (Altitude r) (AltnCount r) (AltnAvoid r)
    (Altn1ID r) (Altn1Runway r) (Altn1Route r) (Altn2ID r) (Altn2Runway r)
    (Altn2Route r) (Altn3ID r) (Altn3Runway r) (Altn3Route r) (Altn4ID r)
    (Altn4Runway r) (Altn4Route r) (FuelFactor r) (ManualZFW r) (AddedFuel
    r) (AddedFuelUnits r) (ContFuelPct r) (ReserveFuel r) (Cargo r)
    (TaxiOut r) (TaxiIn r) (OriginRunway r) (DestRunway r) (ClimbProfile
    r) (DescentProfile r) (CruiseProfile r) (CostIndex r) (AircraftData r)
    (ETOPSRule r) (ManualRemarks r) (StaticID r) (PlanFormat r) (Units r)
    (NavLog r) (ETOPS r) (StepClimbs r) (RunwayAnalysis r) (NOTAMs r)
    (FIRNOTAMs r) (Maps r) (OmitSIDs r) (OmitSTARs r) (FindSIDSTAR r).

Definition set_DepartureMinute (v : Z) (r : t) : t :=
  mk
    (Origin r) (Destination r) (Aircraft r) (Airline r) (FlightNumber r)
    (Date r) (DepartureHour r) v (Route r) (ScheduledHour r)
    (ScheduledMinute r) (Registration r) (FinNumber r) (SELCAL r)
    (ATCCallsign r) (Passengers r) (CaptainName r) (DispatcherName r)
    (PilotID r) (Alternate r) (Altitude r) (AltnCount r) (AltnAvoid r)
    (Altn1ID r) (Altn1Runway r) (Altn1Route r) (Altn2ID r) (Altn2Runway r)
    (Altn2Route r) (Altn3ID r) (Altn3Runway r) (Altn3Route r) (Altn4ID r)
    (Altn4Runway r) (Altn4Route r) (FuelFactor r) (ManualZFW r) (AddedFuel
    r) (AddedFuelUnits r) (ContFuelPct r) (ReserveFuel r) (Cargo r)
    (TaxiOut r) (TaxiIn r) (OriginRunway r) (DestRunway r) (ClimbProfile
    r) (DescentProfile r) (CruiseProfile r) (CostIndex r) (AircraftData r)
    (ETOPSRule r) (ManualRemarks r) (StaticID r) (PlanFormat r) (Units r)
    (NavLog r) (ETOPS r) (StepClimbs r) (RunwayAnalysis r) (NOTAMs r)
    (FIRNOTAMs r) (Maps r) (OmitSIDs r) (OmitSTARs r) (FindSIDSTAR r).

Definition set_Route (v : string) (r : t) : t :=
  mk
    (Origin r) (Destination r) (Aircraft r) (Airline r) (FlightNumber r)
    (Date r) (DepartureHour r) (DepartureMinute r) v (ScheduledHour r)
    (ScheduledMinute r) (Registration r) (FinNumber r) (SELCAL r)
    (ATCCallsign r) (Passengers r) (CaptainName r) (DispatcherName r)
    (PilotID r) (Alternate r) (Altitude r) (AltnCount r) (AltnAvoid r)
    (Altn1ID r) (Altn1Runway r) (Altn1Route r) (Altn2ID r) (Altn2Runway r)
    (Altn2Route r) (Altn3ID r) (Altn3Runway r) (Altn3Route r) (Altn4ID r)
    (Altn4Runway r) (Altn4Route r) (FuelFactor r) (ManualZFW r) (AddedFuel
    r) (AddedFuelUnits r) (ContFuelPct r) (ReserveFuel r) (Cargo r)
    (TaxiOut r) (TaxiIn r) (OriginRunway r) (DestRunway r) (ClimbProfile
    r) (DescentProfile r) (CruiseProfile r) (CostIndex r) (AircraftData r)
    (ETOPSRule r) (ManualRemarks r) (StaticID r) (PlanFormat r) (Units r)
    (NavLog r) (ETOPS r) (StepClimbs r) (RunwayAnalysis r) (NOTAMs r)
    (FIRNOTAMs r) (Maps r) (OmitSIDs r) (OmitSTARs r) (FindSIDSTAR r).

Definition set_Passengers (v : Z) (r : t) : t :=
  mk
    (Origin r) (Destination r) (Aircraft r) (Airline r) (FlightNumber r)
    (Date r) (DepartureHour r) (DepartureMinute r) (Route r)
    (ScheduledHour r) (ScheduledMinute r) (Registration r) (FinNumber r)
    (SELCAL r) (ATCCallsign r) v (CaptainName r) (DispatcherName r)
    (PilotID r) (Alternate r) (Altitude r) (AltnCount r) (AltnAvoid r)
    (Altn1ID r) (Altn1Runway r) (Altn1Route r) (Altn2ID r) (Altn2Runway r)
    (Altn2Route r) (Altn3ID r) (Altn3Runway r) (Altn3Route r) (Altn4ID r)
    (Altn4Runway r) (Altn4Route r) (FuelFactor r) (ManualZFW r) (AddedFuel
    r) (AddedFuelUnits r) (ContFuelPct r) (ReserveFuel r) (Cargo r)
    (TaxiOut r) (TaxiIn r) (OriginRunway r) (DestRunway r) (ClimbProfile
    r) (DescentProfile r) (CruiseProfile r) (CostIndex r) (AircraftData r)
    (ETOPSRule r) (ManualRemarks r) (StaticID r) (PlanFormat r) (Units r)
    (NavLog r) (ETOPS r) (StepClimbs r) (RunwayAnalysis r) (NOTAMs r)
    (FIRNOTAMs r) (Maps r) (OmitSIDs r) (OmitSTARs r) (FindSIDSTAR r).

Definition set_Cargo (v : float) (r : t) : t :=
  mk
    (Origin r) (Destination r) (Aircraft r) (Airline r) (FlightNumber r)
    (Date r) (DepartureHour r) (DepartureMinute r) (Route r)
    (ScheduledHour r) (ScheduledMinute r) (Registration r) (FinNumber r)
    (SELCAL r) (ATCCallsign r) (Passengers r) (CaptainName r)
    (DispatcherName r) (PilotID r) (Alternate r) (Altitude r) (AltnCount
    r) (AltnAvoid r) (Altn1ID r) (Altn1Runway r) (Altn1Route r) (Altn2ID
    r) (Altn2Runway r) (Altn2Route r) (Altn3ID r) (Altn3Runway r)
    (Altn3Route r) (Altn4ID r) (Altn4Runway r) (Altn4Route r) (FuelFactor
    r) (ManualZFW r) (AddedFuel r) (AddedFuelUnits r) (ContFuelPct r)
    (ReserveFuel r) v (TaxiOut r) (TaxiIn r) (OriginRunway r) (DestRunway
    r) (ClimbProfile r) (DescentProfile r) (CruiseProfile r) (CostIndex r)
    (AircraftData r) (ETOPSRule r) (ManualRemarks r) (StaticID r)
    (PlanFormat r) (Units r) (NavLog r) (ETOPS r) (StepClimbs r)
    (RunwayAnalysis r) (NOTAMs r) (FIRNOTAMs r) (Maps r) (OmitSIDs r)
    (OmitSTARs r) (FindSIDSTAR r).

Definition set_TaxiOut (v : Z) (r : t) : t :=
  mk
    (Origin r) (Destination r) (Aircraft r) (Airline r) (FlightNumber r)
    (Date r) (DepartureHour r) (DepartureMinute r) (Route r)
    (ScheduledHour r) (ScheduledMinute r) (Registration r) (FinNumber r)
    (SELCAL r) (ATCCallsign r) (Passengers r) (CaptainName r)
    (DispatcherName r) (PilotID r) (Alternate r) (Altitude r) (AltnCount
    r) (AltnAvoid r) (Altn1ID r) (Altn1Runway r) (Altn1Route r) (Altn2ID
    r) (Altn2Runway r) (Altn2Route r) (Altn3ID r) (Altn3Runway r)
    (Altn3Route r) (Altn4ID r) (Altn4Runway r) (Altn4Route r) (FuelFactor
    r) (ManualZFW r) (AddedFuel r) (AddedFuelUnits r) (ContFuelPct r)
    (ReserveFuel r) (Cargo r) v (TaxiIn r) (OriginRunway r) (DestRunway r)
    (ClimbProfile r) (DescentProfile r) (CruiseProfile r) (CostIndex r)
    (AircraftData r) (ETOPSRule r) (ManualRemarks r) (StaticID r)
    (PlanFormat r) (Units r) (NavLog r) (ETOPS r) (StepClimbs r)
    (RunwayAnalysis r) (NOTAMs r) (FIRNOTAMs r) (Maps r) (OmitSIDs r)
    (OmitSTARs r) (FindSIDSTAR r).

Definition set_TaxiIn (v : Z) (r : t) : t :=
  mk
    (Origin r) (Destination r) (Aircraft r) (Airline r) (FlightNumber r)
    (Date r) (DepartureHour r) (DepartureMinute r) (Route r)
    (ScheduledHour r) (ScheduledMinute r) (Registration r) (FinNumber r)
    (SELCAL r) (ATCCallsign r) (Passengers r) (CaptainName r)
    (DispatcherName r) (PilotID r) (Alternate r) (Altitude r) (AltnCount
    r) (AltnAvoid r) (Altn1ID r) (Altn1Runway r) (Altn1Route r) (Altn2ID
    r) (Altn2Runway r) (Altn2Route r) (Altn3ID r) (Altn3Runway r)
    (Altn3Route r) (Altn4ID r) (Altn4Runway r) (Altn4Route r) (FuelFactor
    r) (ManualZFW r) (AddedFuel r) (AddedFuelUnits r) (ContFuelPct r)
    (ReserveFuel r) (Cargo r) (TaxiOut r) v (OriginRunway r) (DestRunway
    r) (ClimbProfile r) (DescentProfile r) (CruiseProfile r) (CostIndex r)
    (AircraftData r) (ETOPSRule r) (ManualRemarks r) (StaticID r)
    (PlanFormat r) (Units r) (NavLog r) (ETOPS r) (StepClimbs r)
    (RunwayAnalysis r) (NOTAMs r) (FIRNOTAMs r) (Maps r) (OmitSIDs r)
    (OmitSTARs r) (FindSIDSTAR r).

Definition set_AircraftData (v : option types.AircraftData.t) (r : t) : t :=
  mk
    (Origin r) (Destination r) (Aircraft r) (Airline r) (FlightNumber r)
    (Date r) (DepartureHour r) (DepartureMinute r) (Route r)
    (ScheduledHour r) (ScheduledMinute r) (Registration r) (FinNumber r)
    (SELCAL r) (ATCCallsign r) (Passengers r) (CaptainName r)
    (DispatcherName r) (PilotID r) (Alternate r) (Altitude r) (AltnCount
    r) (AltnAvoid r) (Altn1ID r) (Altn1Runway r) (Altn1Route r) (Altn2ID
    r) (Altn2Runway r) (Altn2Route r) (Altn3ID r) (Altn3Runway r)
    (Altn3Route r) (Altn4ID r) (Altn4Runway r) (Altn4Route r) (FuelFactor
    r) (ManualZFW r) (AddedFuel r) (AddedFuelUnits r) (ContFuelPct r)
    (ReserveFuel r) (Cargo r) (TaxiOut r) (TaxiIn r) (OriginRunway r)
    (DestRunway r) (ClimbProfile r) (DescentProfile r) (CruiseProfile r)
    (CostIndex r) v (ETOPSRule r) (ManualRemarks r) (StaticID r)
    (PlanFormat r) (Units r) (NavLog r) (ETOPS r) (StepClimbs r)
    (RunwayAnalysis r) (NOTAMs r) (FIRNOTAMs r) (Maps r) (OmitSIDs r)
    (OmitSTARs r) (FindSIDSTAR r).

Definition set_NavLog (v : option bool) (r : t) : t :=
  mk
    (Origin r) (Destination r) (Aircraft r) (Airline r) (FlightNumber r)
    (Date r) (DepartureHour r) (DepartureMinute r) (Route r)
    (ScheduledHour r) (ScheduledMinute r) (Registration r) (FinNumber r)
    (SELCAL r) (ATCCallsign r) (Passengers r) (CaptainName r)
    (DispatcherName r) (PilotID r) (Alternate r) (Altitude r) (AltnCount
    r) (AltnAvoid r) (Altn1ID r) (Altn1Runway r) (Altn1Route r) (Altn2ID
    r) (Altn2Runway r) (Altn2Route r) (Altn3ID r) (Altn3Runway r)
    (Altn3Route r) (Altn4ID r) (Altn4Runway r) (Altn4Route r) (FuelFactor
    r) (ManualZFW r) (AddedFuel r) (AddedFuelUnits r) (ContFuelPct r)
    (ReserveFuel r) (Cargo r) (TaxiOut r) (TaxiIn r) (OriginRunway r)
    (DestRunway r) (ClimbProfile r) (DescentProfile r) (CruiseProfile r)
    (CostIndex r) (AircraftData r) (ETOPSRule r) (ManualRemarks r)
    (StaticID r) (PlanFormat r) (Units r) v (ETOPS r) (StepClimbs r)
    (RunwayAnalysis r) (NOTAMs r) (FIRNOTAMs r) (Maps r) (OmitSIDs r)
    (OmitSTARs r) (FindSIDSTAR r).

Definition set_ETOPS (v : option bool) (r : t) : t :=
  mk
    (Origin r) (Destination r) (Aircraft r) (Airline r) (FlightNumber r)
    (Date r) (DepartureHour r) (DepartureMinute r) (Route r)
    (ScheduledHour r) (ScheduledMinute r) (Registration r) (FinNumber r)
    (SELCAL r) (ATCCallsign r) (Passengers r) (CaptainName r)
    (DispatcherName r) (PilotID r) (Alternate r) (Altitude r) (AltnCount
    r) (AltnAvoid r) (Altn1ID r) (Altn1Runway r) (Altn1Route r) (Altn2ID
    r) (Altn2Runway r) (Altn2Route r) (Altn3ID r) (Altn3Runway r)
    (Altn3Route r) (Altn4ID r) (Altn4Runway r) (Altn4Route r) (FuelFactor
    r) (ManualZFW r) (AddedFuel r) (AddedFuelUnits r) (ContFuelPct r)
    (ReserveFuel r) (Cargo r) (TaxiOut r) (TaxiIn r) (OriginRunway r)
    (DestRunway r) (ClimbProfile r) (DescentProfile r) (CruiseProfile r)
    (CostIndex r) (AircraftData r) (ETOPSRule r) (ManualRemarks r)
    (StaticID r) (PlanFormat r) (Units r) (NavLog r) v (StepClimbs r)
    (RunwayAnalysis r) (NOTAMs r) (FIRNOTAMs r) (Maps r) (OmitSIDs r)
    (OmitSTARs r) (FindSIDSTAR r).

Definition set_StepClimbs (v : option bool) (r : t) : t :=
  mk
    (Origin r) (Destination r) (Aircraft r) (Airline r) (FlightNumber r)
    (Date r) (DepartureHour r) (DepartureMinute r) (Route r)
    (ScheduledHour r) (ScheduledMinute r) (Registration r) (FinNumber r)
    (SELCAL r) (ATCCallsign r) (Passengers r) (CaptainName r)
    (DispatcherName r) (PilotID r) (Alternate r) (Altitude r) (AltnCount
    r) (AltnAvoid r) (Altn1ID r) (Altn1Runway r) (Altn1Route r) (Altn2ID
    r) (Altn2Runway r) (Altn2Route r) (Altn3ID r) (Altn3Runway r)
    (Altn3Route r) (Altn4ID r) (Altn4Runway r) (Altn4Route r) (FuelFactor
    r) (ManualZFW r) (AddedFuel r) (AddedFuelUnits r) (ContFuelPct r)
    (ReserveFuel r) (Cargo r) (TaxiOut r) (TaxiIn r) (OriginRunway r)
    (DestRunway r) (ClimbProfile r) (DescentProfile r) (CruiseProfile r)
    (CostIndex r) (AircraftData r) (ETOPSRule r) (ManualRemarks r)
    (StaticID r) (PlanFormat r) (Units r) (NavLog r) (ETOPS r) v
    (RunwayAnalysis r) (NOTAMs r) (FIRNOTAMs r) (Maps r) (OmitSIDs r)
    (OmitSTARs r) (FindSIDSTAR r).

Definition set_Date (v : string) (r : t) : t :=
  mk
    (Origin r) (Destination r) (Aircraft r) (Airline r) (FlightNumber r) v
    (DepartureHour r) (DepartureMinute r) (Route r) (ScheduledHour r)
    (ScheduledMinute r) (Registration r) (FinNumber r) (SELCAL r)
    (ATCCallsign r) (Passengers r) (CaptainName r) (DispatcherName r)
    (PilotID r) (Alternate r) (Altitude r) (AltnCount r) (AltnAvoid r)
    (Altn1ID r) (Altn1Runway r) (Altn1Route r) (Altn2ID r) (Altn2Runway r)
    (Altn2Route r) (Altn3ID r) (Altn3Runway r) (Altn3Route r) (Altn4ID r)
    (Altn4Runway r) (Altn4Route r) (FuelFactor r) (ManualZFW r) (AddedFuel
    r) (AddedFuelUnits r) (ContFuelPct r) (ReserveFuel r) (Cargo r)
    (TaxiOut r) (TaxiIn r) (OriginRunway r) (DestRunway r) (ClimbProfile
    r) (DescentProfile r) (CruiseProfile r) (CostIndex r) (AircraftData r)
    (ETOPSRule r) (ManualRemarks r) (StaticID r) (PlanFormat r) (Units r)
    (NavLog r) (ETOPS r) (StepClimbs r) (RunwayAnalysis r) (NOTAMs r)
    (FIRNOTAMs r) (Maps r) (OmitSIDs r) (OmitSTARs r) (FindSIDSTAR r).

Definition set_Registration (v : string) (r : t) : t :=
  mk
    (Origin r) (Destination r) (Aircraft r) (Airline r) (FlightNumber r)
    (Date r) (DepartureHour r) (DepartureMinute r) (Route r)
    (ScheduledHour r) (ScheduledMinute r) v (FinNumber r) (SELCAL r)
    (ATCCallsign r) (Passengers r) (CaptainName r) (DispatcherName r)
    (PilotID r) (Alternate r) (Altitude r) (AltnCount r) (AltnAvoid r)
    (Altn1ID r) (Altn1Runway r) (Altn1Route r) (Altn2ID r) (Altn2Runway r)
    (Altn2Route r) (Altn3ID r) (Altn3Runway r) (Altn3Route r) (Altn4ID r)
    (Altn4Runway r) (Altn4Route r) (FuelFactor r) (ManualZFW r) (AddedFuel
    r) (AddedFuelUnits r) (ContFuelPct r) (ReserveFuel r) (Cargo r)
    (TaxiOut r) (TaxiIn r) (OriginRunway r) (DestRunway r) (ClimbProfile
    r) (DescentProfile r) (CruiseProfile r) (CostIndex r) (AircraftData r)
    (ETOPSRule r) (ManualRemarks r) (StaticID r) (PlanFormat r) (Units r)
    (NavLog r) (ETOPS r) (StepClimbs r) (RunwayAnalysis r) (NOTAMs r)
    (FIRNOTAMs r) (Maps r) (OmitSIDs r) (OmitSTARs r) (FindSIDSTAR r).

Definition set_ATCCallsign (v : string) (r : t) : t :=
  mk
    (Origin r) (Destination r) (Aircraft r) (Airline r) (FlightNumber r)
    (Date r) (DepartureHour r) (DepartureMinute r) (Route r)
    (ScheduledHour r) (ScheduledMinute r) (Registration r) (FinNumber r)
    (SELCAL r) v (Passengers r) (CaptainName r) (DispatcherName r)
    (PilotID r) (Alternate r) (Altitude r) (AltnCount r) (AltnAvoid r)
    (Altn1ID r) (Altn1Runway r) (Altn1Route r) (Altn2ID r) (Altn2Runway r)
    (Altn2Route r) (Altn3ID r) (Altn3Runway r) (Altn3Route r) (Altn4ID r)
    (Altn4Runway r) (Altn4Route r) (FuelFactor r) (ManualZFW r) (AddedFuel
    r) (AddedFuelUnits r) (ContFuelPct r) (ReserveFuel r) (Cargo r)
    (TaxiOut r) (TaxiIn r) (OriginRunway r) (DestRunway r) (ClimbProfile
    r) (DescentProfile r) (CruiseProfile r) (CostIndex r) (AircraftData r)
    (ETOPSRule r) (ManualRemarks r) (StaticID r) (PlanFormat r) (Units r)
    (NavLog r) (ETOPS r) (StepClimbs r) (RunwayAnalysis r) (NOTAMs r)
    (FIRNOTAMs r) (Maps r) (OmitSIDs r) (OmitSTARs r) (FindSIDSTAR r).

Definition set_CaptainName (v : string) (r : t) : t :=
  mk
    (Origin r) (Destination r) (Aircraft r) (Airline r) (FlightNumber r)
    (Date r) (DepartureHour r) (DepartureMinute r) (Route r)
    (ScheduledHour r) (ScheduledMinute r) (Registration r) (FinNumber r)
    (SELCAL r) (ATCCallsign r) (Passengers r) v (DispatcherName r)
    (PilotID r) (Alternate r) (Altitude r) (AltnCount r) (AltnAvoid r)
    (Altn1ID r) (Altn1Runway r) (Altn1Route r) (Altn2ID r) (Altn2Runway r)
    (Altn2Route r) (Altn3ID r) (Altn3Runway r) (Altn3Route r) (Altn4ID r)
    (Altn4Runway r) (Altn4Route r) (FuelFactor r) (ManualZFW r) (AddedFuel
    r) (AddedFuelUnits r) (ContFuelPct r) (ReserveFuel r) (Cargo r)
    (TaxiOut r) (TaxiIn r) (OriginRunway r) (DestRunway r) (ClimbProfile
    r) (DescentProfile r) (CruiseProfile r) (CostIndex r) (AircraftData r)
    (ETOPSRule r) (ManualRemarks r) (StaticID r) (PlanFormat r) (Units r)
    (NavLog r) (ETOPS r) (StepClimbs r) (RunwayAnalysis r) (NOTAMs r)
    (FIRNOTAMs r) (Maps r) (OmitSIDs r) (OmitSTARs r) (FindSIDSTAR r).

Definition set_DispatcherName (v : string) (r : t) : t :=
  mk
    (Origin r) (Destination r) (Aircraft r) (Airline r) (FlightNumber r)
    (Date r) (DepartureHour r) (DepartureMinute r) (Route r)
    (ScheduledHour r) (ScheduledMinute r) (Registration r) (FinNumber r)
    (SELCAL r) (ATCCallsign r) (Passengers r) (CaptainName r) v (PilotID
    r) (Alternate r) (Altitude r) (AltnCount r) (AltnAvoid r) (Altn1ID r)
    (Altn1Runway r) (Altn1Route r) (Altn2ID r) (Altn2Runway r) (Altn2Route
    r) (Altn3ID r) (Altn3Runway r) (Altn3Route r) (Altn4ID r) (Altn4Runway
    r) (Altn4Route r) (FuelFactor r) (ManualZFW r) (AddedFuel r)
    (AddedFuelUnits r) (ContFuelPct r) (ReserveFuel r) (Cargo r) (TaxiOut
    r) (TaxiIn r) (OriginRunway r) (DestRunway r) (ClimbProfile r)
    (DescentProfile r) (CruiseProfile r) (CostIndex r) (AircraftData r)
    (ETOPSRule r) (ManualRemarks r) (StaticID r) (PlanFormat r) (Units r)
    (NavLog r) (ETOPS r) (StepClimbs r) (RunwayAnalysis r) (NOTAMs r)
    (FIRNOTAMs r) (Maps r) (OmitSIDs r) (OmitSTARs r) (FindSIDSTAR r).

Definition set_Alternate (v : string) (r : t) : t :=
  mk
    (Origin r) (Destination r) (Aircraft r) (Airline r) (FlightNumber r)
    (Date r) (DepartureHour r) (DepartureMinute r) (Route r)
    (ScheduledHour r) (ScheduledMinute r) (Registration r) (FinNumber r)
    (SELCAL r) (ATCCallsign r) (Passengers r) (CaptainName r)
    (DispatcherName r) (PilotID r) v (Altitude r) (AltnCount r) (AltnAvoid
    r) (Altn1ID r) (Altn1Runway r) (Altn1Route r) (Altn2ID r) (Altn2Runway
    r) (Altn2Route r) (Altn3ID r) (Altn3Runway r) (Altn3Route r) (Altn4ID
    r) (Altn4Runway r) (Altn4Route r) (FuelFactor r) (ManualZFW r)
    (AddedFuel r) (AddedFuelUnits r) (ContFuelPct r) (ReserveFuel r)
    (Cargo r) (TaxiOut r) (TaxiIn r) (OriginRunway r) (DestRunway r)
    (ClimbProfile r) (DescentProfile r) (CruiseProfile r) (CostIndex r)
    (AircraftData r) (ETOPSRule r) (ManualRemarks r) (StaticID r)
    (PlanFormat r) (Units r) (NavLog r) (ETOPS r) (StepClimbs r)
    (RunwayAnalysis r) (NOTAMs r) (FIRNOTAMs r) (Maps r) (OmitSIDs r)
    (OmitSTARs r) (FindSIDSTAR r).

Definition set_Altitude (v : string) (r : t) : t :=
  mk
    (Origin r) (Destination r) (Aircraft r) (Airline r) (FlightNumber r)
    (Date r) (DepartureHour r) (DepartureMinute r) (Route r)
    (ScheduledHour r) (ScheduledMinute r) (Registration r) (FinNumber r)
    (SELCAL r) (ATCCallsign r) (Passengers r) (CaptainName r)
    (DispatcherName r) (PilotID r) (Alternate r) v (AltnCount r)
    (AltnAvoid r) (Altn1ID r) (Altn1Runway r) (Altn1Route r) (Altn2ID r)
    (Altn2Runway r) (Altn2Route r) (Altn3ID r) (Altn3Runway r) (Altn3Route
    r) (Altn4ID r) (Altn4Runway r) (Altn4Route r) (FuelFactor r)
    (ManualZFW r) (AddedFuel r) (AddedFuelUnits r) (ContFuelPct r)
    (ReserveFuel r) (Cargo r) (TaxiOut r) (TaxiIn r) (OriginRunway r)
    (DestRunway r) (ClimbProfile r) (DescentProfile r) (CruiseProfile r)
    (CostIndex r) (AircraftData r) (ETOPSRule r) (ManualRemarks r)
    (StaticID r) (PlanFormat r) (Units r) (NavLog r) (ETOPS r) (StepClimbs
    r) (RunwayAnalysis r) (NOTAMs r) (FIRNOTAMs r) (Maps r) (OmitSIDs r)
    (OmitSTARs r) (FindSIDSTAR r).

Definition set_OriginRunway (v : string) (r : t) : t :=
  mk
    (Origin r) (Destination r) (Aircraft r) (Airline r) (FlightNumber r)
    (Date r) (DepartureHour r) (DepartureMinute r) (Route r)
    (ScheduledHour r) (ScheduledMinute r) (Registration r) (FinNumber r)
    (SELCAL r) (ATCCallsign r) (Passengers r) (CaptainName r)
    (DispatcherName r) (PilotID r) (Alternate r) (Altitude r) (AltnCount
    r) (AltnAvoid r) (Altn1ID r) (Altn1Runway r) (Altn1Route r) (Altn2ID
    r) (Altn2Runway r) (Altn2Route r) (Altn3ID r) (Altn3Runway r)
    (Altn3Route r) (Altn4ID r) (Altn4Runway r) (Altn4Route r) (FuelFactor
    r) (ManualZFW r) (AddedFuel r) (AddedFuelUnits r) (ContFuelPct r)
    (ReserveFuel r) (Cargo r) (TaxiOut r) (TaxiIn r) v (DestRunway r)
    (ClimbProfile r) (DescentProfile r) (CruiseProfile r) (CostIndex r)
    (AircraftData r) (ETOPSRule r) (ManualRemarks r) (StaticID r)
    (PlanFormat r) (Units r) (NavLog r) (ETOPS r) (StepClimbs r)
    (RunwayAnalysis r) (NOTAMs r) (FIRNOTAMs r) (Maps r) (OmitSIDs r)
    (OmitSTARs r) (FindSIDSTAR r).

Definition set_DestRunway (v : string) (r : t) : t :=
  mk
    (Origin r) (Destination r) (Aircraft r) (Airline r) (FlightNumber r)
    (Date r) (DepartureHour r) (DepartureMinute r) (Route r)
    (ScheduledHour r) (ScheduledMinute r) (Registration r) (FinNumber r)
    (SELCAL r) (ATCCallsign r) (Passengers r) (CaptainName r)
    (DispatcherName r) (PilotID r) (Alternate r) (Altitude r) (AltnCount
    r) (AltnAvoid r) (Altn1ID r) (Altn1Runway r) (Altn1Route r) (Altn2ID
    r) (Altn2Runway r) (Altn2Route r) (Altn3ID r) (Altn3Runway r)
    (Altn3Route r) (Altn4ID r) (Altn4Runway r) (Altn4Route r) (FuelFactor
    r) (ManualZFW r) (AddedFuel r) (AddedFuelUnits r) (ContFuelPct r)
    (ReserveFuel r) (Cargo r) (TaxiOut r) (TaxiIn r) (OriginRunway r) v
    (ClimbProfile r) (DescentProfile r) (CruiseProfile r) (CostIndex r)
    (AircraftData r) (ETOPSRule r) (ManualRemarks r) (StaticID r)
    (PlanFormat r) (Units r) (NavLog r) (ETOPS r) (StepClimbs r)
    (RunwayAnalysis r) (NOTAMs r) (FIRNOTAMs r) (Maps r) (OmitSIDs r)
    (OmitSTARs r) (FindSIDSTAR r).

Definition set_StaticID (v : string) (r : t) : t :=
  mk
    (Origin r) (Destination r) (Aircraft r) (Airline r) (FlightNumber r)
    (Date r) (DepartureHour r) (DepartureMinute r) (Route r)
    (ScheduledHour r) (ScheduledMinute r) (Registration r) (FinNumber r)
    (SELCAL r) (ATCCallsign r) (Passengers r) (CaptainName r)
    (DispatcherName r) (PilotID r) (Alternate r) (Altitude r) (AltnCount
    r) (AltnAvoid r) (Altn1ID r) (Altn1Runway r) (Altn1Route r) (Altn2ID
    r) (Altn2Runway r) (Altn2Route r) (Altn3ID r) (Altn3Runway r)
    (Altn3Route r) (Altn4ID r) (Altn4Runway r) (Altn4Route r) (FuelFactor
    r) (ManualZFW r) (AddedFuel r) (AddedFuelUnits r) (ContFuelPct r)
    (ReserveFuel r) (Cargo r) (TaxiOut r) (TaxiIn r) (OriginRunway r)
    (DestRunway r) (ClimbProfile r) (DescentProfile r) (CruiseProfile r)
    (CostIndex r) (AircraftData r) (ETOPSRule r) (ManualRemarks r) v
    (PlanFormat r) (Units r) (NavLog r) (ETOPS r) (StepClimbs r)
    (RunwayAnalysis r) (NOTAMs r) (FIRNOTAMs r) (Maps r) (OmitSIDs r)
    (OmitSTARs r) (FindSIDSTAR r).

Definition set_PlanFormat (v : string) (r : t) : t :=
  mk
    (Origin r) (Destination r) (Aircraft r) (Airline r) (FlightNumber r)
    (Date r) (DepartureHour r) (DepartureMinute r) (Route r)
    (ScheduledHour r) (ScheduledMinute r) (Registration r) (FinNumber r)
    (SELCAL r) (ATCCallsign r) (Passengers r) (CaptainName r)
    (DispatcherName r) (PilotID r) (Alternate r) (Altitude r) (AltnCount
    r) (AltnAvoid r) (Altn1ID r) (Altn1Runway r) (Altn1Route r) (Altn2ID
    r) (Altn2Runway r) (Altn2Route r) (Altn3ID r) (Altn3Runway r)
    (Altn3Route r) (Altn4ID r) (Altn4Runway r) (Altn4Route r) (FuelFactor
    r) (ManualZFW r) (AddedFuel r) (AddedFuelUnits r) (ContFuelPct r)
    (ReserveFuel r) (Cargo r) (TaxiOut r) (TaxiIn r) (OriginRunway r)
    (DestRunway r) (ClimbProfile r) (DescentProfile r) (CruiseProfile r)
    (CostIndex r) (AircraftData r) (ETOPSRule r) (ManualRemarks r)
    (StaticID r) v (Units r) (NavLog r) (ETOPS r) (StepClimbs r)
    (RunwayAnalysis r) (NOTAMs r) (FIRNOTAMs r) (Maps r) (OmitSIDs r)
    (OmitSTARs r) (FindSIDSTAR r).

Definition set_Units (v : types.Units) (r : t) : t :=
  mk
    (Origin r) (Destination r) (Aircraft r) (Airline r) (FlightNumber r)
    (Date r) (DepartureHour r) (DepartureMinute r) (Route r)
    (ScheduledHour r) (ScheduledMinute r) (Registration r) (FinNumber r)
    (SELCAL r) (ATCCallsign r) (Passengers r) (CaptainName r)
    (DispatcherName r) (PilotID r) (Alternate r) (Altitude r) (AltnCount
    r) (AltnAvoid r) (Altn1ID r) (Altn1Runway r) (Altn1Route r) (Altn2ID
    r) (Altn2Runway r) (Altn2Route r) (Altn3ID r) (Altn3Runway r)
    (Altn3Route r) (Altn4ID r) (Altn4Runway r) (Altn4Route r) (FuelFactor
    r) (ManualZFW r) (AddedFuel r) (AddedFuelUnits r) (ContFuelPct r)
    (ReserveFuel r) (Cargo r) (TaxiOut r) (TaxiIn r) (OriginRunway r)
    (DestRunway r) (ClimbProfile r) (DescentProfile r) (CruiseProfile r)
    (CostIndex r) (AircraftData r) (ETOPSRule r) (ManualRemarks r)
    (StaticID r) (PlanFormat r) v (NavLog r) (ETOPS r) (StepClimbs r)
    (RunwayAnalysis r) (NOTAMs r) (FIRNOTAMs r) (Maps r) (OmitSIDs r)
    (OmitSTARs r) (FindSIDSTAR r).

End FlightPlanRequest.

(** The zero value of [AircraftData]. *)
Definition AircraftData_zero : AircraftData.t :=
  AircraftData.mk "" "" "" "" "" "" 0%float 0%float 0%float 0%float 0%float
    "" "" 0 "" "" "".

(** The fields of [AircraftData] with their JSON names; every one is
    tagged [omitempty]. *)
Definition AircraftData_fields (ad : AircraftData.t) : list go_json.field :=
  [ go_json.fstring "cat" (AircraftData.Category ad);
    go_json.fstring "equip" (AircraftData.Equipment ad);
    go_json.fstring "transponder" (AircraftData.Transponder ad);
    go_json.fstring "pbn" (AircraftData.PBN ad);
    go_json.fstring "extrarmk" (AircraftData.ExtraRemark ad);
    go_json.fstring "maxpax" (AircraftData.MaxPax ad);
    go_json.ffloat "oew" (AircraftData.OEW ad);
    go_json.ffloat "mzfw" (AircraftData.MZFW ad);
    go_json.ffloat "mtow" (AircraftData.MTOW ad);
    go_json.ffloat "mlw" (AircraftData.MLW ad);
    go_json.ffloat "maxfuel" (AircraftData.MaxFuel ad);
    go_json.fstring "hexcode" (AircraftData.HexCode ad);
    go_json.fstring "per" (AircraftData.Per ad);
    go_json.fint "paxwgt" (AircraftData.PaxWgt ad);
    go_json.fstring "icao" (AircraftData.ICAO ad);
    go_json.fstring "name" (AircraftData.Name ad);
    go_json.fstring "engines" (AircraftData.Engines ad) ].

(** [AircraftData.String] on a non-nil receiver: the error of
    [json.Marshal] is dropped, and with it the data. *)
Definition AircraftData_String `{GoTables} (ad : AircraftData.t) : string :=
  match go_json.Marshal_struct (AircraftData_fields ad) with
  | Ok data => data
  | Err _ => ""
  end.

Module FetchRequest.
Record t : Type := mk {
  UserID : string;
  Username : string;
  StaticID : string;
  JSON : bool
}.
End FetchRequest.

(** [FetchRequest.ToQueryParams]. *)
Definition ToQueryParams (fr : FetchRequest.t) : string :=
  let values : go_url.Values := ∅ in
  let values :=
    if negb (String.eqb (FetchRequest.UserID fr) "")
    then go_url.Add values "userid" (FetchRequest.UserID fr) else values in
  let values :=
    if negb (String.eqb (FetchRequest.Username fr) "")
    then go_url.Add values "username" (FetchRequest.Username fr) else values in
  let values :=
    if negb (String.eqb (FetchRequest.StaticID fr) "")
    then go_url.Add values "static_id" (FetchRequest.StaticID fr) else values in
  let values :=
    if FetchRequest.JSON fr then go_url.Add values "json" "1" else values in
  if bool_decide (values = ∅) then "" else "?" ++ go_url.Encode values.

(** [NewFlightPlanRequest]. *)
Definition NewFlightPlanRequest (origin destination aircraft : string)
    : FlightPlanRequest.t :=
  FlightPlanRequest.mk
    origin destination aircraft "" "" "" 0 0 "" 0 0 "" "" "" "" 0 "" "" ""
    "" "" 0 "" "" "" "" "" "" "" "" "" "" "" "" "" "" 0%float "" "" "" 0
    0%float 0 0 "" "" "" "" "" "" None "" "" "" "" "" None None None None
    None None "" None None "".

(** The helper closures of [ToURLValues]; each one updates [values]. *)
Definition addString (key value : string) (values : go_url.Values) : go_url.Values :=
  if negb (String.eqb value "") then go_url.Add values key value else values.

Definition addInt (key : string) (value : Z) (values : go_url.Values) : go_url.Values :=
  if negb (value =? 0) then go_url.Add values key (go_strconv.Itoa value) else values.

Definition addFloat `{GoTables} (key : string) (value : float)
    (values : go_url.Values) : go_url.Values :=
  if negb (PrimFloat.eqb value 0%float)
  then go_url.Add values key (FormatFloat_f value) else values.

Definition addBool (key : string) (value : option bool)
    (values : go_url.Values) : go_url.Values :=
  match value with
  | Some true => go_url.Add values key "1"
  | Some false => go_url.Add values key "0"
  | None => values
  end.

(** The statements of a function body that update [values], in order. *)
Definition run (stmts : list (go_url.Values -> go_url.Values))
    (values : go_url.Values) : go_url.Values :=
  fold_left (fun values stmt => stmt values) stmts values.

(** [FlightPlanRequest.ToURLValues]. *)
Definition ToURLValues `{GoTables} (fpr : FlightPlanRequest.t) : go_url.Values :=
  let values : go_url.Values := ∅ in
  run
    [
    addString "orig" (FlightPlanRequest.Origin fpr);
    addString "dest" (FlightPlanRequest.Destination fpr);
    addString "type" (FlightPlanRequest.Aircraft fpr);
    addString "airline" (FlightPlanRequest.Airline fpr);
    addString "fltnum" (FlightPlanRequest.FlightNumber fpr);
    addString "date" (FlightPlanRequest.Date fpr);
    addInt "deph" (FlightPlanRequest.DepartureHour fpr);
    addInt "depm" (FlightPlanRequest.DepartureMinute fpr);
    addString "route" (FlightPlanRequest.Route fpr);
    addInt "steh" (FlightPlanRequest.ScheduledHour fpr);
    addInt "stem" (FlightPlanRequest.ScheduledMinute fpr);
    addString "reg" (FlightPlanRequest.Registration fpr);
    addString "fin" (FlightPlanRequest.FinNumber fpr);
    addString "selcal" (FlightPlanRequest.SELCAL fpr);
    addString "callsign" (FlightPlanRequest.ATCCallsign fpr);
    addInt "pax" (FlightPlanRequest.Passengers fpr);
    addString "cpt" (FlightPlanRequest.CaptainName fpr);
    addString "dxname" (FlightPlanRequest.DispatcherName fpr);
    addString "pid" (FlightPlanRequest.PilotID fpr);
    addString "altn" (FlightPlanRequest.Alternate fpr);
    addString "fl" (FlightPlanRequest.Altitude fpr);
    addInt "altn_count" (FlightPlanRequest.AltnCount fpr);
    addString "altn_avoid" (FlightPlanRequest.AltnAvoid fpr);
    addString "altn_1_id" (FlightPlanRequest.Altn1ID fpr);
    addString "altn_1_rwy" (FlightPlanRequest.Altn1Runway fpr);
    addString "altn_1_route" (FlightPlanRequest.Altn1Route fpr);
    addString "altn_2_id" (FlightPlanRequest.Altn2ID fpr);
    addString "altn_2_rwy" (FlightPlanRequest.Altn2Runway fpr);
    addString "altn_2_route" (FlightPlanRequest.Altn2Route fpr);
    addString "altn_3_id" (FlightPlanRequest.Altn3ID fpr);
    addString "altn_3_rwy" (FlightPlanRequest.Altn3Runway fpr);
    addString "altn_3_route" (FlightPlanRequest.Altn3Route fpr);
    addString "altn_4_id" (FlightPlanRequest.Altn4ID fpr);
    addString "altn_4_rwy" (FlightPlanRequest.Altn4Runway fpr);
    addString "altn_4_route" (FlightPlanRequest.Altn4Route fpr);
    addString "fuelfactor" (FlightPlanRequest.FuelFactor fpr);
    addFloat "manualzfw" (FlightPlanRequest.ManualZFW fpr);
    addString "addedfuel" (FlightPlanRequest.AddedFuel fpr);
    addString "addedfuel_units" (FlightPlanRequest.AddedFuelUnits fpr);
    addString "contpct" (FlightPlanRequest.ContFuelPct fpr);
    addInt "resvrule" (FlightPlanRequest.ReserveFuel fpr);
    addFloat "cargo" (FlightPlanRequest.Cargo fpr);
    addInt "taxiout" (FlightPlanRequest.TaxiOut fpr);
    addInt "taxiin" (FlightPlanRequest.TaxiIn fpr);
    addString "origrwy" (FlightPlanRequest.OriginRunway fpr);
    addString "destrwy" (FlightPlanRequest.DestRunway fpr);
    addString "climb" (FlightPlanRequest.ClimbProfile fpr);
    addString "descent" (FlightPlanRequest.DescentProfile fpr);
    addString "cruise" (FlightPlanRequest.CruiseProfile fpr);
    addString "civalue" (FlightPlanRequest.CostIndex fpr);
    (* Aircraft data *)
    (fun values =>
       match FlightPlanRequest.AircraftData fpr with
       | Some ad => addString "acdata" (AircraftData_String ad) values
       | None => values
       end);
    addString "etopsrule" (FlightPlanRequest.ETOPSRule fpr);
    addString "manualrmk" (FlightPlanRequest.ManualRemarks fpr);
    addString "static_id" (FlightPlanRequest.StaticID fpr);
    addString "planformat" (FlightPlanRequest.PlanFormat fpr);
    addString "units" (FlightPlanRequest.Units fpr);
    addBool "navlog" (FlightPlanRequest.NavLog fpr);
    addBool "etops" (FlightPlanRequest.ETOPS fpr);
    addBool "stepclimbs" (FlightPlanRequest.StepClimbs fpr);
    addBool "tlr" (FlightPlanRequest.RunwayAnalysis fpr);
    addBool "notams" (FlightPlanRequest.NOTAMs fpr);
    addBool "firnot" (FlightPlanRequest.FIRNOTAMs fpr);
    addString "maps" (FlightPlanRequest.Maps fpr);
    addBool "omit_sids" (FlightPlanRequest.OmitSIDs fpr);
    addBool "omit_stars" (FlightPlanRequest.OmitSTARs fpr);
    addString "find_sidstar" (FlightPlanRequest.FindSIDSTAR fpr)
    ]
    values.

(** The polymorphic [static_id] field of a response. *)
Module StaticIDField.
Record t : Type := mk { Value : string }.
End StaticIDField.

(** [StaticIDField.UnmarshalJSON]: the receiver after the call, or the
    error (the receiver is then unchanged). *)
Definition UnmarshalJSON (data : string) : result StaticIDField.t :=
  (* Try to unmarshal as string first *)
  match go_json.Unmarshal_string data with
  | Ok str => Ok (StaticIDField.mk str)
  | Err _ =>
      (* If that fails, try as object (empty object means no static ID) *)
      match go_json.Unmarshal_map data with
      | Ok _ => Ok (StaticIDField.mk "")
      | Err _ =>
          (* If both fail, return error *)
          Err (errorString "static_id must be either string or object")
      end
  end.

(** [StaticIDField.MarshalJSON]. *)
Definition MarshalJSON (s : StaticIDField.t) : result string :=
  if String.eqb (StaticIDField.Value s) "" then Ok "{}"
  else go_json.Marshal_string (StaticIDField.Value s).

Definition ErrMissingOrigin : error :=
  errorString "origin airport (orig) is required".
Definition ErrMissingDestination : error :=
  errorString "destination airport (dest) is required".
Definition ErrMissingAircraft : error :=
  errorString "aircraft type (type) is required".

(** [FlightPlanRequest.Validate]; [None] is the nil error. *)
Definition Validate (fpr : FlightPlanRequest.t) : option error :=
  if String.eqb (FlightPlanRequest.Origin fpr) "" then Some ErrMissingOrigin
  else if String.eqb (FlightPlanRequest.Destination fpr) "" then Some ErrMissingDestination
  else if String.eqb (FlightPlanRequest.Aircraft fpr) "" then Some ErrMissingAircraft
  else None.

End types.

(** ** Package [client] *)

Module client.
Import types.

(** [Client.ValidateFlightPlanRequest]; [None] is the nil error. *)
Definition ValidateFlightPlanRequest (req : FlightPlanRequest.t) : option error :=
  if String.eqb (FlightPlanRequest.Origin req) "" then
    Some (errorString "origin airport (orig) is required")
  else if String.eqb (FlightPlanRequest.Destination req) "" then
    Some (errorString "destination airport (dest) is required")
  else if String.eqb (FlightPlanRequest.Aircraft req) "" then
    Some (errorString "aircraft type (type) is required")
  else if negb (len (FlightPlanRequest.Origin req) =? 4) then
    Some (errorString "origin airport code must be 4 characters (ICAO format)")
  else if negb (len (FlightPlanRequest.Destination req) =? 4) then
    Some (errorString "destination airport code must be 4 characters (ICAO format)")
  else if negb (FlightPlanRequest.DepartureHour req =? 0)
          && ((FlightPlanRequest.DepartureHour req <? 0)
              || (FlightPlanRequest.DepartureHour req >? 23)) then
    Some (errorString "departure hour must be between 0 and 23")
  else if negb (FlightPlanRequest.DepartureMinute req =? 0)
          && ((FlightPlanRequest.DepartureMinute req <? 0)
              || (FlightPlanRequest.DepartureMinute req >? 59)) then
    Some (errorString "departure minute must be between 0 and 59")
  else None.

Definition DefaultBaseURL : string := "https://www.simbrief.com".
Definition endpointXMLFetcher : string := "/api/xml.fetcher.php".
Definition endpointGenerate : string := "/system/dispatch.php".

(** [Client], without its HTTP transport. *)
Module Client.
Record t : Type := mk {
  APIKey : string;
  BaseURL : string
}.
End Client.

(** [NewClient]. *)
Definition NewClient (apiKey : string) : Client.t :=
  Client.mk apiKey DefaultBaseURL.

(** The parameters that [GenerateFlightPlanURL] encodes. *)
Definition GenerateFlightPlanValues `{GoTables} (c : Client.t)
    (req : FlightPlanRequest.t) : go_url.Values :=
  let values := ToURLValues req in
  (* Add API key if available *)
  if negb (String.eqb (Client.APIKey c) "")
  then go_url.Add values "api_key" (Client.APIKey c)
  else values.

(** [Client.GenerateFlightPlanURL]. *)
Definition GenerateFlightPlanURL `{GoTables} (c : Client.t)
    (req : FlightPlanRequest.t) : string :=
  Client.BaseURL c ++ endpointGenerate ++ "?"
    ++ go_url.Encode (GenerateFlightPlanValues c req).

(** The URL that [fetchFlightPlan] and [GetFlightPlanXML] request. *)
Definition fetch_URL (c : Client.t) (req : FetchRequest.t) : string :=
  Client.BaseURL c ++ endpointXMLFetcher ++ ToQueryParams req.

(** [FlightPlanBuilder] and the methods used below; a method returns the
    builder it was called on, updated. *)
Module FlightPlanBuilder.
Record t : Type := mk { request : FlightPlanRequest.t }.
End FlightPlanBuilder.

Definition NewFlightPlan (origin destination aircraft : string)
    : FlightPlanBuilder.t :=
  FlightPlanBuilder.mk (NewFlightPlanRequest origin destination aircraft).

Definition with_request (f : FlightPlanRequest.t -> FlightPlanRequest.t)
    (b : FlightPlanBuilder.t) : FlightPlanBuilder.t :=
  FlightPlanBuilder.mk (f (FlightPlanBuilder.request b)).

Definition Route (route : string) := with_request (FlightPlanRequest.set_Route route).
Definition Airline (airline : string) := with_request (FlightPlanRequest.set_Airline airline).
Definition FlightNumber (flightNumber : string) :=
  with_request (FlightPlanRequest.set_FlightNumber flightNumber).
Definition DepartureTime (hour minute : Z) :=
  with_request (fun r => FlightPlanRequest.set_DepartureMinute minute
                           (FlightPlanRequest.set_DepartureHour hour r)).
Definition Passengers (pax : Z) := with_request (FlightPlanRequest.set_Passengers pax).
Definition Cargo (cargo : float) := with_request (FlightPlanRequest.set_Cargo cargo).
Definition EnableNavLog := with_request (FlightPlanRequest.set_NavLog (Some true)).
Definition DisableNavLog := with_request (FlightPlanRequest.set_NavLog (Some false)).
Definition EnableETOPS := with_request (FlightPlanRequest.set_ETOPS (Some true)).
Definition EnableStepClimbs := with_request (FlightPlanRequest.set_StepClimbs (Some true)).
Definition CustomAircraftData (data : option AircraftData.t) :=
  with_request (FlightPlanRequest.set_AircraftData data).
Definition TaxiTimes (taxiOut taxiIn : Z) :=
  with_request (fun r => FlightPlanRequest.set_TaxiIn taxiIn
                           (FlightPlanRequest.set_TaxiOut taxiOut r)).
Definition Build (b : FlightPlanBuilder.t) : FlightPlanRequest.t :=
  FlightPlanBuilder.request b.

(** A Go slice value: [nil], or a (possibly empty) sequence. *)
Inductive slice (A : Type) : Type :=
| nil_slice
| slice_of (l : list A).
Arguments nil_slice {A}.
Arguments slice_of {A} l.

(** Arithmetic on [int] wraps around at 64 bits. *)
Definition wrap (z : Z) : Z := (z + 2 ^ 63) mod 2 ^ 64 - 2 ^ 63.

(** [RouteHelper.ParseRoute]. *)
Definition ParseRoute (route : string) : slice string :=
  let route := go_strings.TrimSpace route in
  if String.eqb route "" then slice_of []
  else
    let parts := go_strings.Fields route in
    slice_of
      (fold_left
         (fun waypoints part =>
            let part := go_strings.TrimSpace part in
            if negb (String.eqb part "") then (waypoints ++ [part])%list
            else waypoints)
         parts []).

(** [RouteHelper.FormatFlightLevel]. *)
Definition FormatFlightLevel (feet : Z) : string :=
  let fl := Z.quot feet 100 in
  "FL" ++ go_fmt.Sprintf_0d 3 fl.

(** [RouteHelper.ParseFlightLevel]. *)
Definition ParseFlightLevel `{GoTables} (flStr : string) : result Z :=
  let flStr := go_strings.ToUpper (go_strings.TrimSpace flStr) in
  if go_strings.HasPrefix flStr "FL" then
    let flStr := go_strings.TrimPrefix flStr "FL" in
    match go_strconv.Atoi flStr with
    | Err _ => Err (errorString ("invalid flight level format: " ++ flStr))
    | Ok fl => Ok (wrap (fl * 100))
    end
  else
    (* Try to parse as direct feet *)
    match go_strconv.Atoi flStr with
    | Err _ => Err (errorString ("invalid altitude format: " ++ flStr))
    | Ok feet => Ok feet
    end.

(** [TimeHelper.ParseTimeString]. *)
Definition ParseTimeString (timeStr : string) : result (Z * Z) :=
  match go_strings.Split timeStr ":" with
  | [p0; p1] =>
      match go_strconv.Atoi p0 with
      | Err _ => Err (errorString ("invalid hour: " ++ p0))
      | Ok hour =>
          match go_strconv.Atoi p1 with
          | Err _ => Err (errorString ("invalid minute: " ++ p1))
          | Ok minute =>
              if (hour <? 0) || (hour >? 23) then
                Err (errorString "hour must be between 0 and 23")
              else if (minute <? 0) || (minute >? 59) then
                Err (errorString "minute must be between 0 and 59")
              else Ok (hour, minute)
          end
      end
  | _ => Err (errorString "invalid time format, expected HH:MM")
  end.

(** [TimeHelper.FormatTimeString]. *)
Definition FormatTimeString (hour minute : Z) : string :=
  go_fmt.Sprintf_0d 2 hour ++ ":" ++ go_fmt.Sprintf_0d 2 minute.

(** [TimeHelper.ParseDuration]. *)
Definition ParseDuration (durationStr : string) : result Z :=
  match ParseTimeString durationStr with
  | Err err => Err err
  | Ok (hour, minute) => Ok (wrap (wrap (hour * 60) + minute))
  end.

(** [TimeHelper.FormatDuration]. *)
Definition FormatDuration (totalMinutes : Z) : string :=
  let hours := Z.quot totalMinutes 60 in
  let minutes := Z.rem totalMinutes 60 in
  go_fmt.Sprintf_0d 2 hours ++ ":" ++ go_fmt.Sprintf_0d 2 minutes.

(** The requests that [GetFlightPlanByUserID], [GetFlightPlanByUsername]
    and [GetFlightPlanByStaticID] hand to [fetchFlightPlan]. *)
Definition GetFlightPlanByUserID_request (userID : string) : FetchRequest.t :=
  FetchRequest.mk userID "" "" true.

Definition GetFlightPlanByUsername_request (username : string) : FetchRequest.t :=
  FetchRequest.mk "" username "" true.

Definition GetFlightPlanByStaticID_request (userID staticID : string)
    : FetchRequest.t :=
  FetchRequest.mk userID "" staticID true.

(** [Client.GetFlightPlanXML] up to the HTTP exchange: the request of the
    caller after [req.JSON = false], and the URL that is fetched. *)
Definition GetFlightPlanXML_URL (c : Client.t) (req : FetchRequest.t)
    : FetchRequest.t * string :=
  (* Force XML format *)
  let req := FetchRequest.mk (FetchRequest.UserID req) (FetchRequest.Username req)
               (FetchRequest.StaticID req) false in
  (req, Client.BaseURL c ++ endpointXMLFetcher ++ ToQueryParams req).

(** [Client.GetDirectEditURL]. *)
Definition GetDirectEditURL (c : Client.t) (staticID : string) : string :=
  Client.BaseURL c ++ "/system/dispatch.php?editflight=last&static_id="
    ++ go_url.QueryEscape staticID.

(** The other methods of [FlightPlanBuilder]. *)
Definition Alternate (alternate : string) :=
  with_request (FlightPlanRequest.set_Alternate alternate).
Definition Date (date : string) := with_request (FlightPlanRequest.set_Date date).
Definition Altitude (altitude : string) :=
  with_request (FlightPlanRequest.set_Altitude altitude).
Definition AltitudeFromFeet (feet : Z) :=
  with_request (FlightPlanRequest.set_Altitude (go_fmt.Sprintf_d feet)).
Definition AltitudeFromFlightLevel (fl : Z) :=
  with_request (FlightPlanRequest.set_Altitude ("FL" ++ go_fmt.Sprintf_0d 3 fl)).
Definition Units (units : types.Units) :=
  with_request (FlightPlanRequest.set_Units units).
Definition PlanFormat (format : types.PlanFormat) :=
  with_request (FlightPlanRequest.set_PlanFormat format).
Definition Registration (reg : string) :=
  with_request (FlightPlanRequest.set_Registration reg).
Definition CallSign (callsign : string) :=
  with_request (FlightPlanRequest.set_ATCCallsign callsign).
Definition Captain (name : string) :=
  with_request (FlightPlanRequest.set_CaptainName name).
Definition Dispatcher (name : string) :=
  with_request (FlightPlanRequest.set_DispatcherName name).
Definition StaticID (id : string) := with_request (FlightPlanRequest.set_StaticID id).
Definition Runways (departure arrival : string) :=
  with_request (fun r => FlightPlanRequest.set_DestRunway arrival
                           (FlightPlanRequest.set_OriginRunway departure r)).

(** [RouteHelper.ValidateICAOCode]: the loop ranges over the runes of
    [code] and returns false at the first one that is neither an
    upper-case letter nor a digit. *)
Definition ValidateICAOCode (code : string) : bool :=
  if negb (len code =? 4) then false
  else
    (* ICAO codes should be alphanumeric *)
    forallb (fun ch => let r := fst ch in in_range 65 r 90 || in_range 48 r 57)
      (go_utf8.chunks code).

End client.

(** * Specification-side definitions *)

Module spec.
Import types.

(** The request validator as the specification words it: a fixed list of
    checks, the first failing one being reported. *)
Definition out_of (lo hi v : Z) : bool := negb (in_range lo v hi).

Definition validation_rules : list ((FlightPlanRequest.t -> bool) * error) :=
  [ (fun r => String.eqb (FlightPlanRequest.Origin r) "",
     errorString "origin airport (orig) is required");
    (fun r => String.eqb (FlightPlanRequest.Destination r) "",
     errorString "destination airport (dest) is required");
    (fun r => String.eqb (FlightPlanRequest.Aircraft r) "",
     errorString "aircraft type (type) is required");
    (fun r => negb (len (FlightPlanRequest.Origin r) =? 4),
     errorString "origin airport code must be 4 characters (ICAO format)");
    (fun r => negb (len (FlightPlanRequest.Destination r) =? 4),
     errorString "destination airport code must be 4 characters (ICAO format)");
    (fun r => negb (FlightPlanRequest.DepartureHour r =? 0)
              && out_of 0 23 (FlightPlanRequest.DepartureHour r),
     errorString "departure hour must be between 0 and 23");
    (fun r => negb (FlightPlanRequest.DepartureMinute r =? 0)
              && out_of 0 59 (FlightPlanRequest.DepartureMinute r),
     errorString "departure minute must be between 0 and 59") ].

Fixpoint first_failure {A} (rules : list ((A -> bool) * error)) (a : A)
    : option error :=
  match rules with
  | [] => None
  | (fails, e) :: rules' => if fails a then Some e else first_failure rules' a
  end.

(** The route tokenizer as the specification words it. The runes of the
    input are white space and maximal runs of other runes; the tokens are
    the bytes of those runs, from left to right. *)
Definition starts_with_space (l : list (Z * string)) : Prop :=
  match l with
  | [] => True
  | ch :: _ => go_strings.space_chunk ch = true
  end.

Definition nonspace (ch : Z * string) : Prop := go_strings.space_chunk ch = false.

Inductive Tokens : list (Z * string) -> list string -> Prop :=
| Tokens_nil : Tokens [] []
| Tokens_space ch l ts :
    go_strings.space_chunk ch = true -> Tokens l ts -> Tokens (ch :: l) ts
| Tokens_word w l ts :
    w <> [] ->
    Forall nonspace w ->
    starts_with_space l ->
    Tokens l ts ->
    Tokens (w ++ l) (go_strings.concat_chunks w :: ts).

(** A list of chunks that decoding its own bytes gives back. *)
Definition stable (l : list (Z * string)) : Prop :=
  go_utf8.chunks (go_strings.concat_chunks l) = l.

(** The trimmed rune sequence. *)
Definition trim (l : list (Z * string)) : list (Z * string) :=
  rev (go_strings.drop_while go_strings.space_chunk
         (rev (go_strings.drop_while go_strings.space_chunk l))).

(** A word: a non-empty run of runes none of which is white space, and
    which decodes to itself. *)
Definition word (p : string) : Prop :=
  exists w, p = go_strings.concat_chunks w /\ w <> [] /\ Forall nonspace w /\ stable w.

(** What the flight-level round trip has to deliver at level [N]. *)
Definition flight_level_round_trip `{GoTables} (N : Z) : bool :=
  String.eqb (client.FormatFlightLevel (N * 100)) ("FL" ++ go_fmt.Sprintf_0d 3 N)
  && (String.length (go_fmt.Sprintf_0d 3 N) =? 3)%nat
  && match client.ParseFlightLevel (client.FormatFlightLevel (N * 100)) with
     | Ok feet => feet =? N * 100
     | Err _ => false
     end.

(** A [GoTables] for evaluating the model where no table is consulted:
    on ASCII text and on requests without finite non-zero floats. *)
Definition no_tables : GoTables :=
  {| unicode_ToUpper := fun r => r;
     FormatFloat_f := fun _ => "";
     json_float := fun _ => "" |}.

(** The request encoder as the specification words it: one entry per
    field, with its wire name and the value it is encoded to, if any. *)
Definition of_string (v : string) : option string :=
  if String.eqb v "" then None else Some v.

Definition of_int (v : Z) : option string :=
  if v =? 0 then None else Some (go_strconv.Itoa v).

Definition of_float `{GoTables} (v : float) : option string :=
  if PrimFloat.eqb v 0%float then None else Some (FormatFloat_f v).

Definition of_bool (v : option bool) : option string :=
  match v with
  | Some true => Some "1"
  | Some false => Some "0"
  | None => None
  end.

Definition encoder_table `{GoTables} (fpr : types.FlightPlanRequest.t)
    : list (string * option string) :=
  let AircraftData_String := types.AircraftData_String in
  [
    ("orig", of_string (types.FlightPlanRequest.Origin fpr));
    ("dest", of_string (types.FlightPlanRequest.Destination fpr));
    ("type", of_string (types.FlightPlanRequest.Aircraft fpr));
    ("airline", of_string (types.FlightPlanRequest.Airline fpr));
    ("fltnum", of_string (types.FlightPlanRequest.FlightNumber fpr));
    ("date", of_string (types.FlightPlanRequest.Date fpr));
    ("deph", of_int (types.FlightPlanRequest.DepartureHour fpr));
    ("depm", of_int (types.FlightPlanRequest.DepartureMinute fpr));
    ("route", of_string (types.FlightPlanRequest.Route fpr));
    ("steh", of_int (types.FlightPlanRequest.ScheduledHour fpr));
    ("stem", of_int (types.FlightPlanRequest.ScheduledMinute fpr));
    ("reg", of_string (types.FlightPlanRequest.Registration fpr));
    ("fin", of_string (types.FlightPlanRequest.FinNumber fpr));
    ("selcal", of_string (types.FlightPlanRequest.SELCAL fpr));
    ("callsign", of_string (types.FlightPlanRequest.ATCCallsign fpr));
    ("pax", of_int (types.FlightPlanRequest.Passengers fpr));
    ("cpt", of_string (types.FlightPlanRequest.CaptainName fpr));
    ("dxname", of_string (types.FlightPlanRequest.DispatcherName fpr));
    ("pid", of_string (types.FlightPlanRequest.PilotID fpr));
    ("altn", of_string (types.FlightPlanRequest.Alternate fpr));
    ("fl", of_string (types.FlightPlanRequest.Altitude fpr));
    ("altn_count", of_int (types.FlightPlanRequest.AltnCount fpr));
    ("altn_avoid", of_string (types.FlightPlanRequest.AltnAvoid fpr));
    ("altn_1_id", of_string (types.FlightPlanRequest.Altn1ID fpr));
    ("altn_1_rwy", of_string (types.FlightPlanRequest.Altn1Runway fpr));
    ("altn_1_route", of_string (types.FlightPlanRequest.Altn1Route fpr));
    ("altn_2_id", of_string (types.FlightPlanRequest.Altn2ID fpr));
    ("altn_2_rwy", of_string (types.FlightPlanRequest.Altn2Runway fpr));
    ("altn_2_route", of_string (types.FlightPlanRequest.Altn2Route fpr));
    ("altn_3_id", of_string (types.FlightPlanRequest.Altn3ID fpr));
    ("altn_3_rwy", of_string (types.FlightPlanRequest.Altn3Runway fpr));
    ("altn_3_route", of_string (types.FlightPlanRequest.Altn3Route fpr));
    ("altn_4_id", of_string (types.FlightPlanRequest.Altn4ID fpr));
    ("altn_4_rwy", of_string (types.FlightPlanRequest.Altn4Runway fpr));
    ("altn_4_route", of_string (types.FlightPlanRequest.Altn4Route fpr));
    ("fuelfactor", of_string (types.FlightPlanRequest.FuelFactor fpr));
    ("manualzfw", of_float (types.FlightPlanRequest.ManualZFW fpr));
    ("addedfuel", of_string (types.FlightPlanRequest.AddedFuel fpr));
    ("addedfuel_units", of_string (types.FlightPlanRequest.AddedFuelUnits fpr));
    ("contpct", of_string (types.FlightPlanRequest.ContFuelPct fpr));
    ("resvrule", of_int (types.FlightPlanRequest.ReserveFuel fpr));
    ("cargo", of_float (types.FlightPlanRequest.Cargo fpr));
    ("taxiout", of_int (types.FlightPlanRequest.TaxiOut fpr));
    ("taxiin", of_int (types.FlightPlanRequest.TaxiIn fpr));
    ("origrwy", of_string (types.FlightPlanRequest.OriginRunway fpr));
    ("destrwy", of_string (types.FlightPlanRequest.DestRunway fpr));
    ("climb", of_string (types.FlightPlanRequest.ClimbProfile fpr));
    ("descent", of_string (types.FlightPlanRequest.DescentProfile fpr));
    ("cruise", of_string (types.FlightPlanRequest.CruiseProfile fpr));
    ("civalue", of_string (types.FlightPlanRequest.CostIndex fpr));
    ("acdata", match types.FlightPlanRequest.AircraftData fpr with
               | Some ad => of_string (AircraftData_String ad)
               | None => None
               end);
    ("etopsrule", of_string (types.FlightPlanRequest.ETOPSRule fpr));
    ("manualrmk", of_string (types.FlightPlanRequest.ManualRemarks fpr));
    ("static_id", of_string (types.FlightPlanRequest.StaticID fpr));
    ("planformat", of_string (types.FlightPlanRequest.PlanFormat fpr));
    ("units", of_string (types.FlightPlanRequest.Units fpr));
    ("navlog", of_bool (types.FlightPlanRequest.NavLog fpr));
    ("etops", of_bool (types.FlightPlanRequest.ETOPS fpr));
    ("stepclimbs", of_bool (types.FlightPlanRequest.StepClimbs fpr));
    ("tlr", of_bool (types.FlightPlanRequest.RunwayAnalysis fpr));
    ("notams", of_bool (types.FlightPlanRequest.NOTAMs fpr));
    ("firnot", of_bool (types.FlightPlanRequest.FIRNOTAMs fpr));
    ("maps", of_string (types.FlightPlanRequest.Maps fpr));
    ("omit_sids", of_bool (types.FlightPlanRequest.OmitSIDs fpr));
    ("omit_stars", of_bool (types.FlightPlanRequest.OmitSTARs fpr));
    ("find_sidstar", of_string (types.FlightPlanRequest.FindSIDSTAR fpr))
  ].

Fixpoint assoc {A} (k : string) (l : list (string * A)) : option A :=
  match l with
  | [] => None
  | (k', a) :: l' => if String.eqb k k' then Some a else assoc k l'
  end.

(** The parameter found under the name [k], if any. *)
Definition wire_value `{GoTables} (fpr : types.FlightPlanRequest.t) (k : string)
    : option (list string) :=
  match assoc k (encoder_table fpr) with
  | Some (Some v) => Some [v]
  | _ => None
  end.

Definition add_entry (v : go_url.Values) (e : string * option string)
    : go_url.Values :=
  match snd e with
  | Some x => go_url.Add v (fst e) x
  | None => v
  end.

(** The wire names, in the order of the encoder. *)
Definition wire_names : list string := Eval vm_compute in
  map fst (@encoder_table no_tables (types.NewFlightPlanRequest "" "" "")).

Definition unhex (c : ascii) : Z :=
  let z := b2z c in
  if in_range 48 z 57 then z - 48
  else if in_range 97 z 102 then z - 97 + 10
  else if in_range 65 z 70 then z - 65 + 10
  else -1.

(** Reading a query string back. *)

(** [url.QueryUnescape]; [None] is an error. *)
Fixpoint QueryUnescape (s : string) : option string :=
  match s with
  | "" => Some ""
  | String c s' =>
      if Ascii.eqb c "%" then
        match s' with
        | String h1 (String h2 s'') =>
            if (0 <=? unhex h1) && (0 <=? unhex h2) then
              option_map (String (z2b (unhex h1 * 16 + unhex h2))) (QueryUnescape s'')
            else None
        | _ => None
        end
      else if Ascii.eqb c "+" then option_map (String " ") (QueryUnescape s')
      else option_map (String c) (QueryUnescape s')
  end.

(** [strings.Cut(s, "=")]: what precedes the first [=]. *)
Fixpoint before_eq (s : string) : string :=
  match s with
  | "" => ""
  | String c s' => if Ascii.eqb c "=" then "" else String c (before_eq s')
  end.

Fixpoint contains_byte (c : ascii) (s : string) : bool :=
  match s with
  | "" => false
  | String c' s' => Ascii.eqb c' c || contains_byte c s'
  end.

(** The parameter names that [url.ParseQuery] reads from a query string:
    the components between [&], without the empty ones, those with a
    semicolon and those whose name cannot be unescaped. *)
Definition query_names (q : string) : list string :=
  flat_map
    (fun comp =>
       if String.eqb comp "" || contains_byte ";" comp then []
       else match QueryUnescape (before_eq comp) with
            | Some k => [k]
            | None => []
            end)
    (go_strings.Split q "&").

(** The query of a URL path-and-query suffix: what follows a leading [?]. *)
Definition query_of (s : string) : string :=
  match s with
  | String c s' => if Ascii.eqb c "?" then s' else s
  | "" => ""
  end.

Fixpoint join (sep : string) (l : list string) : string :=
  match l with
  | [] => ""
  | [a] => a
  | a :: l' => a ++ sep ++ join sep l'
  end.

Definition pairs_of (v : go_url.Values) : list (string * string) :=
  flat_map (fun k => map (fun x => (k, x)) (default [] (v !! k))) (go_url.sorted_keys v).

Definition component (kx : string * string) : string :=
  go_url.QueryEscape (fst kx) ++ "=" ++ go_url.QueryEscape (snd kx).

(** One step of the inner loop of [Values.Encode]. *)
Definition add_component (buf comp : string) : string :=
  (if (0 <? len buf)%Z then buf ++ "&" else buf) ++ comp.

(** The inner loop of [Values.Encode], for the key [k]. *)
Definition encode_key (v : go_url.Values) (buf k : string) : string :=
  fold_left
    (fun buf x =>
       ((if (0 <? len buf)%Z then buf ++ "&" else buf)
          ++ go_url.QueryEscape k ++ "=" ++ go_url.QueryEscape x)%string)
    (default [] (v !! k)) buf.

(** Vocabulary for the JSON string coding. *)

(** No byte of [s] is an ASCII byte. *)
Definition bytes_high (s : string) : bool :=
  forallb (fun c => 0x80 <=? b2z c) (list_ascii_of_string s).

(** A chunk of a valid UTF-8 string, on its own. *)
Definition good_chunk (ch : Z * string) : Prop :=
  snd ch <> ""
  /\ go_utf8.DecodeRune (snd ch) = (fst ch, String.length (snd ch))
  /\ go_utf8.chunk_valid ch = true.

(** What [appendString] writes between the quotes, rune by rune. *)
Definition body (l : list (Z * string)) : string :=
  fold_right (fun ch acc => go_json.appendString_rune ch ++ acc) "" l.

(** Scanner states inside a top-level string literal. *)
Definition sIn : go_json.scanner := go_json.mkScanner go_json.S_InString false [] false.
Definition sEsc : go_json.scanner := go_json.mkScanner go_json.S_InStringEsc false [] false.
Definition sU (f : go_json.step_fn) : go_json.scanner := go_json.mkScanner f false [] false.
Definition sErr : go_json.scanner := go_json.mkScanner go_json.S_Error false [] true.
Definition sEnd : go_json.scanner := go_json.mkScanner go_json.S_EndValue false [] false.

Definition simple_escape (e : ascii) : bool :=
  Ascii.eqb e "b" || Ascii.eqb e "f" || Ascii.eqb e "n" || Ascii.eqb e "r"
  || Ascii.eqb e "t" || Ascii.eqb e "\" || Ascii.eqb e "/" || Ascii.eqb e dquote.

Definition in_literal (st : go_json.scanner) : Prop :=
  st = sIn \/ st = sU go_json.S_InStringEscU \/ st = sU go_json.S_InStringEscU1
  \/ st = sU go_json.S_InStringEscU12 \/ st = sU go_json.S_InStringEscU123.

(** States from which a top-level scanner never gets back into a string. *)
Definition dead (s : go_json.scanner) : Prop :=
  go_json.parseState s = []
  /\ (go_json.step s = go_json.S_EndValue \/ go_json.step s = go_json.S_EndTop \/ go_json.step s = go_json.S_Error).

Inductive json_kind : Type :=
| JObject | JArray | JString | JNumber | JBool | JNull.

(** The kind of the JSON value that [data] holds; [None] when [data] is
    not valid JSON. *)
Definition kind_of (data : string) : option json_kind :=
  if go_json.checkValid data then
    match go_json.skip_space data with
    | String c _ =>
        Some (if Ascii.eqb c "{" then JObject
              else if Ascii.eqb c "[" then JArray
              else if Ascii.eqb c dquote then JString
              else if Ascii.eqb c "t" || Ascii.eqb c "f" then JBool
              else if Ascii.eqb c "n" then JNull
              else JNumber)
    | "" => None
    end
  else None.

(** Every number of [data] fits a [float64]. *)
Definition numbers_fit (data : string) : bool :=
  forallb go_json.convertNumber_ok (go_json.number_literals data).

(** The decoding of the static ID as the specification states it: every
    JSON object is accepted as the empty string, and decoding fails
    exactly on what is neither a JSON string nor a JSON object. *)
Definition static_id_decode_claim : Prop :=
  forall data,
    (kind_of data = Some JObject ->
     types.UnmarshalJSON data = Ok (types.StaticIDField.mk ""))
    /\ (is_ok (types.UnmarshalJSON data) = false <->
        kind_of data <> Some JString /\ kind_of data <> Some JObject).

(** The round trip of the static ID as the specification states it. *)
Definition static_id_round_trip_claim : Prop :=
  forall s, exists data,
    types.MarshalJSON (types.StaticIDField.mk s) = Ok data
    /\ types.UnmarshalJSON data = Ok (types.StaticIDField.mk s).

Definition static_id_error : error :=
  errorString "static_id must be either string or object".

(** Sample inputs. *)
Definition q : string := String dquote "".
Definition object_a_1 : string := "{" ++ q ++ "a" ++ q ++ ":1}".
Definition object_a_1e999 : string := "{" ++ q ++ "a" ++ q ++ ":1e999}".

(** An aircraft override whose operating empty weight is not a number,
    and a request that carries it. *)
Definition unserializable_aircraft : types.AircraftData.t :=
  types.AircraftData.mk "" "" "" "" "" "" nan 0%float 0%float 0%float 0%float
    "" "" 0 "" "" "".

Definition request_with_unserializable_aircraft : types.FlightPlanRequest.t :=
  client.Build
    (client.CustomAircraftData (Some unserializable_aircraft)
       (client.NewFlightPlan "KJFK" "KLAX" "B738")).

(** A request that departs at midnight sharp. *)
Definition request_at_midnight : types.FlightPlanRequest.t :=
  client.Build (client.DepartureTime 0 0 (client.NewFlightPlan "KJFK" "KLAX" "B738")).

(** ** Vocabulary of the further properties *)

(** The bytes of a numeral, possibly after the letters [FL]. *)
Definition level_byte (c : ascii) : bool :=
  go_strconv.is_digit c || Ascii.eqb c "-" || Ascii.eqb c "F" || Ascii.eqb c "L".

(** An upper-case ASCII letter or a digit. *)
Definition icao_byte (c : ascii) : bool :=
  in_range 65 (b2z c) 90 || in_range 48 (b2z c) 57.

(** A [float64] that is neither NaN nor infinite. *)
Definition finite (v : float) : bool :=
  negb (PrimFloat.is_infinity v || PrimFloat.is_nan v).

(** A field that [json.Marshal] writes, or skips, without error. *)
Definition field_ok (f : go_json.field) : bool :=
  match f with
  | go_json.ffloat _ v => finite v
  | _ => true
  end.

Definition weights_finite (ad : AircraftData.t) : bool :=
  finite (AircraftData.OEW ad) && finite (AircraftData.MZFW ad)
  && finite (AircraftData.MTOW ad) && finite (AircraftData.MLW ad)
  && finite (AircraftData.MaxFuel ad).

(** [strings.Cut(s, "=")]: what follows the first [=]. *)
Fixpoint after_eq (s : string) : string :=
  match s with
  | "" => ""
  | String c s' => if Ascii.eqb c "=" then s' else after_eq s'
  end.

(** One turn of the loop of [url.ParseQuery], on the component [comp] of
    the query: the values read so far and whether an error was met. *)
Definition parse_component (acc : go_url.Values * bool) (comp : string)
    : go_url.Values * bool :=
  if contains_byte ";" comp then (fst acc, true)
  else if String.eqb comp "" then acc
  else
    match QueryUnescape (before_eq comp), QueryUnescape (after_eq comp) with
    | Some key, Some value => (go_url.Add (fst acc) key value, snd acc)
    | _, _ => (fst acc, true)
    end.

(** [url.ParseQuery]: the values that a query string holds, and whether
    the error is non-nil. The loop cuts the query at each [&]. *)
Definition ParseQuery (query : string) : go_url.Values * bool :=
  fold_left parse_component (go_strings.Split query "&") (∅, false).

(** The query parameters of a fetch request, in the order of
    [Values.Encode]. *)
Definition fetch_components (fr : FetchRequest.t) : list string :=
  ((if FetchRequest.JSON fr then ["json=1"] else [])
   ++ (if String.eqb (FetchRequest.StaticID fr) "" then []
       else [("static_id=" ++ go_url.QueryEscape (FetchRequest.StaticID fr))%string])
   ++ (if String.eqb (FetchRequest.UserID fr) "" then []
       else [("userid=" ++ go_url.QueryEscape (FetchRequest.UserID fr))%string])
   ++ (if String.eqb (FetchRequest.Username fr) "" then []
       else [("username=" ++ go_url.QueryEscape (FetchRequest.Username fr))%string]))%list.

(** What decoding gives back for one rune of the source: its bytes, or
    the encoding of U+FFFD for an invalid byte. *)
Definition coerce_chunk (ch : Z * string) : string :=
  if go_utf8.chunk_valid ch then snd ch else go_utf8.EncodeRune go_utf8.RuneError.

Definition coerce_chunks (l : list (Z * string)) : string :=
  fold_right (fun ch acc => coerce_chunk ch ++ acc) "" l.

(** A string with each of its invalid bytes replaced by U+FFFD. *)
Definition coerce (s : string) : string := coerce_chunks (go_utf8.chunks s).

(** The rune read from a byte that starts no well-formed encoding. *)
Definition bad_chunk (ch : Z * string) : Prop :=
  exists c, ch = (go_utf8.RuneError, String c "") /\ 0x80 <= b2z c.

Definition repair (ch : Z * string) : Z * string :=
  if go_utf8.chunk_valid ch then ch
  else (go_utf8.RuneError, go_utf8.EncodeRune go_utf8.RuneError).

(** The way-points that a slice holds. *)
Definition waypoints (s : client.slice string) : list string :=
  match s with
  | client.nil_slice => []
  | client.slice_of l => l
  end.

(** The calls that a program can chain on a builder, between
    [NewFlightPlan] and [Build]. ([DateFromTime] is left out: it formats
    a [time.Time], and assigns [Date] as [call_Date] does.) *)
Inductive builder_call : Type :=
| call_Route (route : string)
| call_Airline (airline : string)
| call_FlightNumber (flightNumber : string)
| call_Alternate (alternate : string)
| call_DepartureTime (hour minute : Z)
| call_Date (date : string)
| call_Altitude (altitude : string)
| call_AltitudeFromFeet (feet : Z)
| call_AltitudeFromFlightLevel (fl : Z)
| call_Passengers (pax : Z)
| call_Cargo (cargo : float)
| call_Units (units : types.Units)
| call_PlanFormat (format : types.PlanFormat)
| call_Registration (reg : string)
| call_CallSign (callsign : string)
| call_Captain (name : string)
| call_Dispatcher (name : string)
| call_StaticID (id : string)
| call_EnableNavLog
| call_DisableNavLog
| call_EnableETOPS
| call_EnableStepClimbs
| call_CustomAircraftData (data : option AircraftData.t)
| call_TaxiTimes (taxiOut taxiIn : Z)
| call_Runways (departure arrival : string).

Definition do_call (c : builder_call) : client.FlightPlanBuilder.t -> client.FlightPlanBuilder.t :=
  match c with
  | call_Route route => client.Route route
  | call_Airline airline => client.Airline airline
  | call_FlightNumber flightNumber => client.FlightNumber flightNumber
  | call_Alternate alternate => client.Alternate alternate
  | call_DepartureTime hour minute => client.DepartureTime hour minute
  | call_Date date => client.Date date
  | call_Altitude altitude => client.Altitude altitude
  | call_AltitudeFromFeet feet => client.AltitudeFromFeet feet
  | call_AltitudeFromFlightLevel fl => client.AltitudeFromFlightLevel fl
  | call_Passengers pax => client.Passengers pax
  | call_Cargo cargo => client.Cargo cargo
  | call_Units units => client.Units units
  | call_PlanFormat format => client.PlanFormat format
  | call_Registration reg => client.Registration reg
  | call_CallSign callsign => client.CallSign callsign
  | call_Captain name => client.Captain name
  | call_Dispatcher name => client.Dispatcher name
  | call_StaticID id => client.StaticID id
  | call_EnableNavLog => client.EnableNavLog
  | call_DisableNavLog => client.DisableNavLog
  | call_EnableETOPS => client.EnableETOPS
  | call_EnableStepClimbs => client.EnableStepClimbs
  | call_CustomAircraftData data => client.CustomAircraftData data
  | call_TaxiTimes taxiOut taxiIn => client.TaxiTimes taxiOut taxiIn
  | call_Runways departure arrival => client.Runways departure arrival
  end.

(** The builder after the calls [calls], made from left to right. *)
Definition chain (calls : list builder_call) (b : client.FlightPlanBuilder.t)
    : client.FlightPlanBuilder.t :=
  fold_left (fun b c => do_call c b) calls b.

(** The fields that identify the flight. *)
Definition required (r : FlightPlanRequest.t) : string * string * string :=
  (FlightPlanRequest.Origin r, FlightPlanRequest.Destination r,
   FlightPlanRequest.Aircraft r).

(** The fields that no method of the builder assigns. *)
Definition unassigned (r : FlightPlanRequest.t) :=
  (types.FlightPlanRequest.ScheduledHour r,
   types.FlightPlanRequest.ScheduledMinute r,
   types.FlightPlanRequest.FinNumber r, types.FlightPlanRequest.SELCAL r,
   types.FlightPlanRequest.PilotID r, types.FlightPlanRequest.AltnCount r,
   types.FlightPlanRequest.AltnAvoid r, types.FlightPlanRequest.Altn1ID r,
   types.FlightPlanRequest.Altn1Runway r, types.FlightPlanRequest.Altn1Route
   r, types.FlightPlanRequest.Altn2ID r, types.FlightPlanRequest.Altn2Runway
   r, types.FlightPlanRequest.Altn2Route r, types.FlightPlanRequest.Altn3ID
   r, types.FlightPlanRequest.Altn3Runway r,
   types.FlightPlanRequest.Altn3Route r, types.FlightPlanRequest.Altn4ID r,
   types.FlightPlanRequest.Altn4Runway r, types.FlightPlanRequest.Altn4Route
   r, types.FlightPlanRequest.FuelFactor r,
   types.FlightPlanRequest.ManualZFW r, types.FlightPlanRequest.AddedFuel r,
   types.FlightPlanRequest.AddedFuelUnits r,
   types.FlightPlanRequest.ContFuelPct r,
   types.FlightPlanRequest.ReserveFuel r,
   types.FlightPlanRequest.ClimbProfile r,
   types.FlightPlanRequest.DescentProfile r,
   types.FlightPlanRequest.CruiseProfile r,
   types.FlightPlanRequest.CostIndex r, types.FlightPlanRequest.ETOPSRule r,
   types.FlightPlanRequest.ManualRemarks r,
   types.FlightPlanRequest.RunwayAnalysis r, types.FlightPlanRequest.NOTAMs
   r, types.FlightPlanRequest.FIRNOTAMs r, types.FlightPlanRequest.Maps r,
   types.FlightPlanRequest.OmitSIDs r, types.FlightPlanRequest.OmitSTARs r,
   types.FlightPlanRequest.FindSIDSTAR r).

(** The wire names of the fields that the builder can assign. *)
Definition builder_names : list string :=
  [ "orig"; "dest"; "type"; "route"; "airline"; "fltnum"; "altn"; "deph";
    "depm"; "date"; "fl"; "pax"; "cargo"; "units"; "planformat"; "reg";
    "callsign"; "cpt"; "dxname"; "static_id"; "navlog"; "etops";
    "stepclimbs"; "acdata"; "taxiout"; "taxiin"; "origrwy"; "destrwy" ].

End spec.

(** ** The builder and its request as shared objects *)

Module shared.
Import types.

(** The requests allocated so far; a pointer [*FlightPlanRequest] is the
    index of its target. *)
Abbreviation ptr := nat.
Abbreviation store := (list FlightPlanRequest.t).

Definition alloc (r : FlightPlanRequest.t) (h : store) : ptr * store :=
  (length h, (h ++ [r])%list).

Definition load (p : ptr) (h : store) : option FlightPlanRequest.t := h !! p.

(** An assignment through the pointer [p]. *)
Definition assign (p : ptr) (f : FlightPlanRequest.t -> FlightPlanRequest.t)
    (h : store) : store :=
  alter f p h.

(** [FlightPlanBuilder]: its only field is a pointer to the request. *)
Record builder : Type := mk_builder { request : ptr }.

(** [NewFlightPlan] allocates the request of the builder. *)
Definition NewFlightPlan (origin destination aircraft : string) (h : store)
    : builder * store :=
  let '(p, h) := alloc (NewFlightPlanRequest origin destination aircraft) h in
  (mk_builder p, h).

(** A method of the builder assigns through [b.request] and returns [b];
    what it assigns is what the method does to the request. *)
Definition do_call (c : spec.builder_call) (b : builder) (h : store)
    : builder * store :=
  (b, assign (request b)
        (fun r => client.Build (spec.do_call c (client.FlightPlanBuilder.mk r))) h).

Definition chain (calls : list spec.builder_call) (b : builder) (h : store)
    : builder * store :=
  fold_left (fun bh c => do_call c (fst bh) (snd bh)) calls (b, h).

(** [Build] returns the pointer itself. *)
Definition Build (b : builder) : ptr := request b.

End shared.

(** * Properties *)

(** ** Strings, runes and chunks *)

Section Runes.
Import go_utf8.

Lemma b2z_range c : 0 <= b2z c < 256.
Proof.
  unfold b2z. pose proof (N_ascii_bounded c). lia.
Qed.

Lemma z2b_b2z c : z2b (b2z c) = c.
Proof.
  unfold z2b, b2z. rewrite N2Z.id. apply ascii_N_embedding.
Qed.

Lemma b2z_z2b z : 0 <= z < 256 -> b2z (z2b z) = z.
Proof.
  intros Hz. unfold z2b, b2z. rewrite N_ascii_embedding by lia. lia.
Qed.

Lemma append_cons c a b : (String c a ++ b)%string = String c (a ++ b).
Proof. reflexivity. Qed.

Lemma append_nil_l a : ("" ++ a)%string = a.
Proof. reflexivity. Qed.

Lemma append_nil_r a : (a ++ "")%string = a.
Proof. induction a as [|c a IH]; [reflexivity|]. now rewrite append_cons, IH. Qed.

Lemma append_assoc a b c : ((a ++ b) ++ c)%string = (a ++ (b ++ c))%string.
Proof. induction a as [|x a IH]; [reflexivity|]. now rewrite !append_cons, IH. Qed.

Lemma length_append a b :
  String.length (a ++ b) = (String.length a + String.length b)%nat.
Proof. induction a as [|x a IH]; [reflexivity|]. rewrite append_cons. simpl. now rewrite IH. Qed.

Lemma take_drop n s : (take n s ++ drop n s)%string = s.
Proof.
  revert s. induction n as [|n IH]; intros [|c s]; simpl; try reflexivity.
  rewrite append_cons. f_equal. apply IH.
Qed.

Lemma length_drop n s : String.length (drop n s) = (String.length s - n)%nat.
Proof.
  revert s. induction n as [|n IH]; intros [|c s]; simpl; auto.
Qed.

Lemma length_take n s : String.length (take n s) = Nat.min n (String.length s).
Proof.
  revert s. induction n as [|n IH]; intros [|c s]; simpl; auto.
Qed.

Lemma first_multi s0 sz lo hi :
  first s0 = multi sz lo hi -> sz = 2%nat \/ sz = 3%nat \/ sz = 4%nat.
Proof.
  unfold first.
  repeat match goal with
         | |- context [if ?b then _ else _] => destruct b
         end; intros [= <- <- <-] || discriminate; auto.
Qed.

(** The width returned for a non-empty string is between 1 and 4 and does
    not exceed the length of the string. *)
Lemma DecodeRune_size s r n :
  s <> "" -> DecodeRune s = (r, n) ->
  (1 <= n <= 4)%nat /\ (n <= String.length s)%nat.
Proof.
  intros Hs. unfold DecodeRune.
  destruct s as [|c0 s]; [congruence|]. clear Hs.
  simpl String.length.
  replace (S (String.length s) <? 1)%nat with false
    by (symmetry; apply Nat.ltb_ge; lia).
  destruct (first (at_ (String c0 s) 0)) as [| |sz lo hi] eqn:Hf;
    try (intros [= <- <-]; lia).
  apply first_multi in Hf.
  destruct (Nat.ltb_spec (S (String.length s)) sz); [intros [= <- <-]; lia|].
  repeat match goal with
         | |- context [if ?b then _ else _] => destruct b eqn:?
         end; intros [= <- <-]; try lia.
  all: repeat match goal with
         | Hx : (_ <=? _)%nat = _ |- _ => first [apply Nat.leb_le in Hx | apply Nat.leb_gt in Hx]
         end.
  all: lia.
Qed.

Lemma chunks_unfold s r n :
  s <> "" -> DecodeRune s = (r, n) ->
  chunks s = (r, take n s) :: chunks (drop n s).
Proof.
  intros Hs Hd.
  destruct (DecodeRune_size s r n Hs Hd) as [Hn Hlen].
  destruct s as [|c0 s]; [congruence|].
  cbn [chunks]. rewrite Hd.
  destruct n as [|[|[|[|[|n]]]]]; try lia; try reflexivity.
  - destruct s as [|c1 s]; [simpl in Hlen; lia|]. reflexivity.
  - destruct s as [|c1 [|c2 s]]; try (simpl in Hlen; lia). reflexivity.
  - destruct s as [|c1 [|c2 [|c3 s]]]; try (simpl in Hlen; lia). reflexivity.
Qed.

Lemma chunks_ind (P : string -> Prop) :
  P "" ->
  (forall s r n, s <> "" -> DecodeRune s = (r, n) -> P (drop n s) -> P s) ->
  forall s, P s.
Proof.
  intros H0 Hstep s.
  remember (String.length s) as k eqn:Hk.
  revert s Hk. induction k as [k IH] using lt_wf_ind. intros s Hk.
  destruct s as [|c s]; [exact H0|].
  destruct (DecodeRune (String c s)) as [r n] eqn:Hd.
  assert (Hs : String c s <> "") by discriminate.
  destruct (DecodeRune_size _ _ _ Hs Hd) as [Hn Hlen].
  apply (Hstep _ r n Hs Hd).
  apply (IH (String.length (drop n (String c s)))); [|reflexivity].
  rewrite length_drop. subst k. lia.
Qed.

(** Decoding looks at no byte beyond the ones it consumes: if the rune
    read from [a ++ b] lies within [a], it is also the rune read from [a]. *)
Lemma DecodeRune_app a b r n :
  a <> "" -> DecodeRune (a ++ b) = (r, n) -> (n <= String.length a)%nat ->
  DecodeRune a = (r, n).
Proof.
  intros Ha. unfold DecodeRune.
  rewrite !length_append.
  destruct a as [|c0 a]; [congruence|]. clear Ha.
  rewrite append_cons. cbn [at_ String.get String.length].
  replace (S (String.length a) + String.length b <? 1)%nat with false
    by (symmetry; apply Nat.ltb_ge; lia).
  replace (S (String.length a) <? 1)%nat with false
    by (symmetry; apply Nat.ltb_ge; lia).
  destruct (first (b2z c0)) as [| |sz lo hi] eqn:Hf; try (intros; assumption).
  apply first_multi in Hf.
  destruct a as [|c1 [|c2 [|c3 a]]];
    rewrite ?append_cons, ?append_nil_l; cbn [at_ String.get String.length];
    destruct Hf as [-> | [-> | ->]]; cbn [Nat.ltb Nat.leb Nat.add];
    repeat match goal with
      | |- context [(?x <? ?y)%nat] =>
          destruct (Nat.ltb_spec x y); try lia
      end;
    repeat match goal with
      | |- context [if ?c then _ else _] => destruct c
      end;
    intros [= <- <-]; cbn [String.length]; intros; try reflexivity; try lia.
Qed.
End Runes.

Section Chunks.
Import go_utf8 go_strings spec.

Lemma concat_chunks_app l1 l2 :
  concat_chunks (l1 ++ l2) = (concat_chunks l1 ++ concat_chunks l2)%string.
Proof.
  induction l1 as [|ch l1 IH]; [reflexivity|].
  simpl. now rewrite IH, append_assoc.
Qed.

Lemma concat_chunks_chunks s : concat_chunks (chunks s) = s.
Proof.
  induction s as [|s r n Hs Hd IH] using chunks_ind; [reflexivity|].
  rewrite (chunks_unfold s r n Hs Hd). simpl. rewrite IH. apply take_drop.
Qed.

Lemma stable_chunks s : stable (chunks s).
Proof. unfold stable. now rewrite concat_chunks_chunks. Qed.

Lemma take_length_app a b : take (String.length a) (a ++ b) = a.
Proof.
  induction a as [|c a IH]; [now destruct b|].
  rewrite append_cons. simpl. now rewrite IH.
Qed.

Lemma drop_length_app a b : drop (String.length a) (a ++ b) = b.
Proof.
  induction a as [|c a IH]; [now destruct b|].
  rewrite append_cons. simpl. now rewrite IH.
Qed.

Lemma append_inv_head a b c : (a ++ b)%string = (a ++ c)%string -> b = c.
Proof.
  induction a as [|x a IH]; [auto|].
  rewrite !append_cons. intros [= Heq]. auto.
Qed.

Lemma stable_cons_inv ch l :
  stable (ch :: l) ->
  stable l /\ snd ch <> ""
  /\ DecodeRune (snd ch ++ concat_chunks l) = (fst ch, String.length (snd ch)).
Proof.
  unfold stable. simpl. intros Hst.
  destruct (snd ch ++ concat_chunks l)%string as [|c0 s0] eqn:Hs; [discriminate|].
  destruct (DecodeRune (String c0 s0)) as [r n] eqn:Hd.
  assert (Hne : String c0 s0 <> "") by discriminate.
  destruct (DecodeRune_size _ _ _ Hne Hd) as [Hn Hlen].
  rewrite (chunks_unfold _ r n Hne Hd) in Hst.
  injection Hst as Hch Hl.
  destruct ch as [r' bs]. simpl in *. injection Hch as -> Hbs.
  assert (Hlenbs : String.length bs = n).
  { rewrite <- Hbs, length_take. cbn [String.length] in *. lia. }
  assert (Hrest : drop n (String c0 s0) = concat_chunks l).
  { rewrite <- Hs, <- Hlenbs. apply drop_length_app. }
  rewrite Hrest in Hl.
  split; [exact Hl|]. split.
  - intros ->. simpl in Hlenbs. lia.
  - now rewrite Hlenbs.
Qed.

Lemma stable_app_r l1 l2 : stable (l1 ++ l2) -> stable l2.
Proof.
  induction l1 as [|ch l1 IH]; [auto|].
  intros Hst. apply stable_cons_inv in Hst as [Hst _]. auto.
Qed.

Lemma stable_app_l l1 l2 : stable (l1 ++ l2) -> stable l1.
Proof.
  induction l1 as [|ch l1 IH]; [reflexivity|].
  intros Hst. simpl in Hst.
  destruct (stable_cons_inv _ _ Hst) as (Hst' & Hne & Hd).
  specialize (IH Hst').
  rewrite concat_chunks_app, <- append_assoc in Hd.
  apply DecodeRune_app in Hd.
  2:{ destruct (snd ch); [congruence | discriminate]. }
  2:{ rewrite length_append. lia. }
  unfold stable. simpl.
  assert (Hne' : (snd ch ++ concat_chunks l1)%string <> "").
  { destruct (snd ch); [congruence | discriminate]. }
  rewrite (chunks_unfold _ _ _ Hne' Hd).
  rewrite take_length_app, drop_length_app, IH.
  now destruct ch.
Qed.

Lemma stable_nonempty l ch : stable l -> In ch l -> snd ch <> "".
Proof.
  induction l as [|ch' l IH]; [easy|].
  intros Hst [-> | Hin].
  - now apply stable_cons_inv in Hst.
  - apply stable_cons_inv in Hst as [Hst _]. auto.
Qed.

Lemma stable_concat_nil l : stable l -> concat_chunks l = "" -> l = [].
Proof.
  destruct l as [|ch l]; [auto|].
  intros Hst Hc. apply stable_cons_inv in Hst as (_ & Hne & _).
  simpl in Hc. destruct (snd ch); [congruence | discriminate].
Qed.

(** [drop_while] *)
Lemma drop_while_split {A} (f : A -> bool) l :
  exists pre, l = (pre ++ drop_while f l)%list /\ forallb f pre = true.
Proof.
  induction l as [|x l (pre & Hl & Hpre)]; [now exists []|].
  simpl. destruct (f x) eqn:Hx.
  - exists (x :: pre). simpl. rewrite Hx. split; [now f_equal | auto].
  - now exists [].
Qed.

Lemma drop_while_head {A} (f : A -> bool) l x l' :
  drop_while f l = x :: l' -> f x = false.
Proof.
  induction l as [|y l IH]; [discriminate|].
  simpl. destruct (f y) eqn:Hy; [auto|]. now intros [= -> ->].
Qed.

Lemma drop_while_all {A} (f : A -> bool) l :
  forallb f l = true -> drop_while f l = [].
Proof.
  induction l as [|x l IH]; [auto|].
  simpl. destruct (f x); [auto | discriminate].
Qed.

Lemma drop_while_nil_inv {A} (f : A -> bool) l :
  drop_while f l = [] -> forallb f l = true.
Proof.
  induction l as [|x l IH]; [auto|].
  simpl. destruct (f x); [auto | discriminate].
Qed.

Lemma drop_while_none {A} (f : A -> bool) x l :
  f x = false -> drop_while f (x :: l) = x :: l.
Proof. intros Hx. simpl. now rewrite Hx. Qed.

Lemma trim_split l :
  exists pre post,
    l = (pre ++ trim l ++ post)%list
    /\ forallb space_chunk pre = true /\ forallb space_chunk post = true.
Proof.
  unfold trim.
  destruct (drop_while_split space_chunk l) as (pre & Hl & Hpre).
  destruct (drop_while_split space_chunk (rev (drop_while space_chunk l)))
    as (post & Hr & Hpost).
  exists pre, (rev post). repeat split; auto.
  - rewrite Hl at 1. f_equal.
    rewrite <- rev_app_distr, <- Hr. now rewrite rev_involutive.
  - rewrite forallb_forall in *. intros x Hx. apply Hpost. now apply in_rev.
Qed.

Lemma stable_trim l : stable l -> stable (trim l).
Proof.
  intros Hst.
  destruct (trim_split l) as (pre & post & Hl & _ & _).
  rewrite Hl in Hst. apply stable_app_r in Hst. now apply stable_app_l in Hst.
Qed.

Lemma TrimSpace_chunks s : chunks (TrimSpace s) = trim (chunks s).
Proof.
  unfold TrimSpace. apply stable_trim, stable_chunks.
Qed.
End Chunks.

Section Fields.
Import go_utf8 go_strings client spec.

Lemma fields_loop_spaces_l pre l :
  forallb space_chunk pre = true ->
  fields_loop None (pre ++ l) = fields_loop None l.
Proof.
  induction pre as [|ch pre IH]; [auto|].
  simpl. destruct (space_chunk ch); [auto | discriminate].
Qed.

Lemma fields_loop_spaces_r cur l post :
  forallb space_chunk post = true ->
  fields_loop cur (l ++ post) = fields_loop cur l.
Proof.
  intros Hpost. revert cur.
  induction l as [|ch l IH]; intros cur.
  - simpl. revert cur. induction post as [|ch post IH]; intros cur; [reflexivity|].
    simpl in *. destruct (space_chunk ch); [|discriminate].
    destruct cur; rewrite (IH Hpost None); reflexivity.
  - simpl. destruct (space_chunk ch), cur; now rewrite ?IH.
Qed.

Lemma fields_loop_trim l : fields_loop None (trim l) = fields_loop None l.
Proof.
  destruct (trim_split l) as (pre & post & Hl & Hpre & Hpost).
  rewrite Hl at 2.
  now rewrite fields_loop_spaces_l, fields_loop_spaces_r.
Qed.

Lemma fields_loop_all_spaces l :
  forallb space_chunk l = true -> fields_loop None l = [].
Proof.
  intros Hl. rewrite <- (app_nil_r l). now rewrite fields_loop_spaces_l.
Qed.

Lemma trim_nil_inv l : trim l = [] -> forallb space_chunk l = true.
Proof.
  intros Ht.
  destruct (trim_split l) as (pre & post & Hl & Hpre & Hpost).
  rewrite Ht in Hl. rewrite Hl. simpl.
  rewrite forallb_app. now rewrite Hpre, Hpost.
Qed.

Lemma trim_all_spaces l : forallb space_chunk l = true -> trim l = [].
Proof.
  intros Hl. unfold trim. now rewrite (drop_while_all _ _ Hl).
Qed.

Lemma fields_loop_words l :
  (stable l -> Forall word (fields_loop None l))
  /\ (forall w, w <> [] -> Forall nonspace w -> stable (w ++ l) ->
      Forall word (fields_loop (Some (concat_chunks w)) l)).
Proof.
  induction l as [|ch l [IHn IHs]].
  - split; [constructor|].
    intros w Hw Hns Hst. rewrite app_nil_r in Hst.
    constructor; [|constructor]. now exists w.
  - split.
    + intros Hst. simpl.
      destruct (space_chunk ch) eqn:Hch.
      * apply IHn. now apply (stable_app_r [ch]).
      * replace (snd ch) with (concat_chunks [ch]) by apply append_nil_r.
        apply IHs; [discriminate | repeat constructor; auto | exact Hst].
    + intros w Hw Hns Hst. simpl.
      destruct (space_chunk ch) eqn:Hch.
      * constructor.
        -- exists w. repeat split; auto. now apply stable_app_l in Hst.
        -- apply IHn. apply stable_app_r in Hst. now apply (stable_app_r [ch]).
      * replace (concat_chunks w ++ snd ch)%string with (concat_chunks (w ++ [ch])).
        2:{ rewrite concat_chunks_app. simpl. now rewrite append_nil_r. }
        apply IHs.
        -- now destruct w.
        -- apply Forall_app. split; [auto | repeat constructor; auto].
        -- now rewrite <- app_assoc.
Qed.

Lemma trim_word w : w <> [] -> Forall nonspace w -> trim w = w.
Proof.
  intros Hw Hns. unfold trim.
  destruct w as [|ch w]; [congruence|].
  rewrite drop_while_none by now inversion Hns.
  destruct (rev (ch :: w)) as [|x l] eqn:Hrev.
  { apply (f_equal (@List.length _)) in Hrev. rewrite length_rev in Hrev. discriminate. }
  rewrite drop_while_none.
  - now rewrite <- Hrev, rev_involutive.
  - rewrite List.Forall_forall in Hns. apply Hns. apply in_rev. rewrite Hrev. now left.
Qed.

Lemma word_TrimSpace p : word p -> TrimSpace p = p /\ p <> "".
Proof.
  intros (w & -> & Hw & Hns & Hst). split.
  - unfold TrimSpace. rewrite Hst. fold (trim w). now rewrite trim_word.
  - intros Hc. now apply stable_concat_nil in Hc.
Qed.

Lemma fold_left_keep (parts acc : list string) :
  Forall word parts ->
  fold_left
    (fun waypoints part =>
       let part := TrimSpace part in
       if negb (String.eqb part "") then (waypoints ++ [part])%list else waypoints)
    parts acc = (acc ++ parts)%list.
Proof.
  intros Hparts. revert acc.
  induction Hparts as [|p parts Hp _ IH]; intros acc; simpl.
  - now rewrite app_nil_r.
  - destruct (word_TrimSpace p Hp) as [-> Hne].
    apply String.eqb_neq in Hne. rewrite Hne. simpl.
    rewrite IH. now rewrite <- app_assoc.
Qed.

Lemma ParseRoute_Fields route : ParseRoute route = slice_of (Fields route).
Proof.
  unfold ParseRoute.
  destruct (String.eqb_spec (TrimSpace route) "") as [He|Hne].
  - f_equal. symmetry. unfold Fields.
    apply fields_loop_all_spaces, trim_nil_inv.
    apply stable_concat_nil; [apply stable_trim, stable_chunks | exact He].
  - f_equal.
    assert (HF : Fields (TrimSpace route) = Fields route).
    { unfold Fields. rewrite TrimSpace_chunks. apply fields_loop_trim. }
    rewrite HF. rewrite fold_left_keep; [reflexivity|].
    apply fields_loop_words, stable_chunks.
Qed.
End Fields.

Section TokensProofs.
Import go_utf8 go_strings client spec.

Lemma fields_loop_Tokens l :
  Tokens l (fields_loop None l)
  /\ (forall w, w <> [] -> Forall nonspace w ->
      Tokens (w ++ l) (fields_loop (Some (concat_chunks w)) l)).
Proof.
  induction l as [|ch l [IHn IHs]].
  - split; [constructor|].
    intros w Hw Hns. simpl. apply Tokens_word; auto; [exact I | constructor].
  - split.
    + simpl. destruct (space_chunk ch) eqn:Hch.
      * now apply Tokens_space.
      * replace (snd ch) with (concat_chunks [ch]) by apply append_nil_r.
        apply (IHs [ch]); [discriminate | repeat constructor; auto].
    + intros w Hw Hns. simpl.
      destruct (space_chunk ch) eqn:Hch.
      * apply Tokens_word; auto. now apply Tokens_space.
      * replace (concat_chunks w ++ snd ch)%string with (concat_chunks (w ++ [ch])).
        2:{ rewrite concat_chunks_app. simpl. now rewrite append_nil_r. }
        replace (w ++ ch :: l)%list with ((w ++ [ch]) ++ l)%list
          by now rewrite <- app_assoc.
        apply IHs.
        -- now destruct w.
        -- apply Forall_app. split; [auto | repeat constructor; auto].
Qed.

Lemma word_split_unique (w w' l l' : list (Z * string)) :
  Forall nonspace w -> Forall nonspace w' ->
  starts_with_space l -> starts_with_space l' ->
  (w ++ l)%list = (w' ++ l')%list -> w = w' /\ l = l'.
Proof.
  intros Hw. revert w'.
  induction Hw as [|ch w Hch Hw IH]; intros w' Hw' Hl Hl' Heq.
  - destruct Hw' as [|ch' w' Hch' Hw']; [auto|].
    simpl in Heq. subst l. simpl in Hl. unfold nonspace in Hch'. congruence.
  - destruct Hw' as [|ch' w' Hch' Hw'].
    + simpl in Heq. subst l'. simpl in Hl'. unfold nonspace in Hch. congruence.
    + simpl in Heq. injection Heq as -> Heq.
      destruct (IH w' Hw' Hl Hl' Heq) as [-> ->]. auto.
Qed.

(** The tokens of a rune sequence are unique. *)
Lemma Tokens_functional l ts1 ts2 : Tokens l ts1 -> Tokens l ts2 -> ts1 = ts2.
Proof.
  intros H1. revert ts2.
  induction H1 as [|ch l ts Hch H1 IH|w l ts Hw Hns Hl H1 IH]; intros ts2 H2.
  - inversion H2 as [| |w' l' ts' Hw' Hns' Hl' H2' Heq]; [reflexivity|].
    destruct w'; [congruence | discriminate].
  - inversion H2 as [|ch' l' ts' Hch' H2' Heq|w' l' ts' Hw' Hns' Hl' H2' Heq]; subst.
    + auto.
    + destruct w' as [|x w']; [congruence|].
      injection Heq as -> _. inversion Hns'. unfold nonspace in *. congruence.
  - inversion H2 as [Heq|ch' l' ts' Hch' H2' Heq|w' l' ts' Hw' Hns' Hl' H2' Heq]; subst.
    + destruct w; [congruence | discriminate].
    + destruct w as [|x w]; [congruence|].
      injection Heq as -> _. inversion Hns. unfold nonspace in *. congruence.
    + destruct (word_split_unique w' w l' l Hns' Hns Hl' Hl Heq) as [-> ->].
      f_equal. auto.
Qed.

(** C7. The route tokenizer returns the white-space-delimited tokens of the
    route in their original order: its result is a non-nil slice holding
    the tokens of the rune sequence of the route, that is [strings.Fields]
    of the route (the trimming and the filter of the code change nothing).
    A route of white space only, or empty, gives the empty non-nil slice. *)
Theorem ParseRoute_tokens (route : string) :
  ParseRoute route = slice_of (Fields route)
  /\ Tokens (chunks route) (Fields route)
  /\ (forallb space_chunk (chunks route) = true -> ParseRoute route = slice_of [])
  /\ ParseRoute "  KJFK   HAPIE    J174   COATE   KLAX  "
     = slice_of ["KJFK"; "HAPIE"; "J174"; "COATE"; "KLAX"]
  /\ ParseRoute "" = slice_of [].
Proof.
  split; [apply ParseRoute_Fields|].
  split; [apply fields_loop_Tokens|].
  split; [|split; reflexivity].
  intros Hsp. rewrite ParseRoute_Fields. f_equal.
  now apply fields_loop_all_spaces.
Qed.
End TokensProofs.

Lemma ParseRoute_tokens_witness :
  client.ParseRoute (String " " (String (z2b 9) (go_utf8.EncodeRune 0x3000)))
  = client.slice_of [].
Proof.
  apply (proj1 (proj2 (proj2 (ParseRoute_tokens _)))). reflexivity.
Defined.

(** ** The request encoder *)

Section Encoder.
Import types go_url spec.
Context `{GoTables}.

Lemma Add_lookup (v : Values) (key value k : string) :
  Add v key value !! k
  = if decide (key = k) then Some (default [] (v !! key) ++ [value])%list
    else v !! k.
Proof. unfold Add. apply lookup_insert. Qed.

Lemma addString_entry key value v :
  addString key value v = add_entry v (key, of_string value).
Proof.
  unfold addString, add_entry, of_string. simpl.
  now destruct (String.eqb value "").
Qed.

Lemma addInt_entry key value v :
  addInt key value v = add_entry v (key, of_int value).
Proof.
  unfold addInt, add_entry, of_int. simpl. now destruct (value =? 0).
Qed.

Lemma addFloat_entry key value v :
  addFloat key value v = add_entry v (key, of_float value).
Proof.
  unfold addFloat, add_entry, of_float. simpl.
  now destruct (PrimFloat.eqb value 0).
Qed.

Lemma addBool_entry key value v :
  addBool key value v = add_entry v (key, of_bool value).
Proof.
  unfold addBool, add_entry, of_bool. simpl. now destruct value as [[]|].
Qed.

Lemma ToURLValues_table fpr :
  ToURLValues fpr = fold_left add_entry (encoder_table fpr) ∅.
Proof.
  unfold ToURLValues, run, encoder_table. cbn [fold_left].
  rewrite !addString_entry, !addInt_entry, !addFloat_entry, !addBool_entry.
  destruct (FlightPlanRequest.AircraftData fpr);
    rewrite ?addString_entry; reflexivity.
Qed.

Lemma assoc_not_in {A} k (l : list (string * A)) :
  ~ In k (map fst l) -> assoc k l = None.
Proof.
  induction l as [|[k' a] l IH]; [auto|].
  simpl. intros Hn. destruct (String.eqb_spec k k'); [subst; tauto|]. apply IH. tauto.
Qed.

Lemma fold_add_entry_lookup (table : list (string * option string))
    (v : Values) (k : string) :
  List.NoDup (map fst table) ->
  (forall k', In k' (map fst table) -> v !! k' = None) ->
  fold_left add_entry table v !! k
  = match assoc k table with
    | Some (Some x) => Some [x]
    | Some None => None
    | None => v !! k
    end.
Proof.
  revert v. induction table as [|[k0 o] table IH]; intros v Hnd Hfresh.
  - reflexivity.
  - inversion Hnd as [|? ? Hk0 Hnd']; subst.
    cbn [fold_left]. rewrite IH; auto.
    + cbn [assoc].
      destruct (String.eqb_spec k k0) as [->|Hne].
      * rewrite (assoc_not_in _ _ Hk0).
        unfold add_entry. simpl. destruct o as [x|].
        -- rewrite Add_lookup. rewrite decide_True by reflexivity.
           rewrite (Hfresh k0) by now left. reflexivity.
        -- apply Hfresh. now left.
      * destruct (assoc k table) as [[x|]|]; try reflexivity.
        unfold add_entry. simpl. destruct o as [x|]; [|reflexivity].
        rewrite Add_lookup. now rewrite decide_False by congruence.
    + intros k' Hk'. unfold add_entry. simpl. destruct o as [x|].
      * rewrite Add_lookup. rewrite decide_False by (intros ->; contradiction).
        apply Hfresh. now right.
      * apply Hfresh. now right.
Qed.

Lemma encoder_table_names fpr : map fst (encoder_table fpr) = wire_names.
Proof. reflexivity. Qed.

Lemma wire_names_NoDup : List.NoDup wire_names.
Proof.
  apply NoDup_ListNoDup.
  apply (bool_decide_unpack (NoDup wire_names)). vm_compute. exact I.
Qed.

(** What the encoder puts under every name. *)
Lemma ToURLValues_lookup fpr k : ToURLValues fpr !! k = wire_value fpr k.
Proof.
  rewrite ToURLValues_table. unfold wire_value.
  rewrite fold_add_entry_lookup.
  - destruct (assoc k (encoder_table fpr)) as [[x|]|]; reflexivity.
  - rewrite encoder_table_names. apply wire_names_NoDup.
  - intros. apply lookup_empty.
Qed.

(** C1. The encoder puts under every wire name what the table of the
    specification says, one value at most, and nothing under any other
    name: a string field when it is not empty, an integer field when it is
    not zero, as its decimal string, a float field when it is not zero, a
    boolean pointer when it is not nil, as 1 or 0. It departs from the
    claim for the aircraft data: a non-nil pointer is dropped when
    [json.Marshal] fails, which it does on a weight that is NaN or
    infinite, because [AircraftData.String] discards the error. A departure
    at hour 0 and minute 0 leaves no parameter. *)
Theorem ToURLValues_drops_unserializable_aircraft_data :
  (forall fpr k, ToURLValues fpr !! k = wire_value fpr k)
  /\ FlightPlanRequest.AircraftData request_with_unserializable_aircraft
     = Some unserializable_aircraft
  /\ go_json.Marshal_struct (AircraftData_fields unserializable_aircraft)
     = Err UnsupportedValueError
  /\ AircraftData_String unserializable_aircraft = ""
  /\ ToURLValues request_with_unserializable_aircraft !! "acdata" = None
  /\ ToURLValues request_at_midnight !! "deph" = None
  /\ ToURLValues request_at_midnight !! "depm" = None
  /\ ToURLValues request_at_midnight !! "orig" = Some ["KJFK"].
Proof.
  split; [apply ToURLValues_lookup|].
  rewrite !ToURLValues_lookup. repeat split.
Qed.
End Encoder.

(** ** Query strings and the API key *)

Section Query.
Import go_url go_strings spec.

Lemma fold_left_flat_map {A B C} (f : A -> B -> A) (g : C -> list B) l a :
  fold_left f (flat_map g l) a = fold_left (fun a c => fold_left f (g c) a) l a.
Proof.
  revert a. induction l as [|c l IH]; intros a; [reflexivity|].
  simpl. now rewrite fold_left_app, IH.
Qed.

Lemma encode_key_components v buf k :
  encode_key v buf k
  = fold_left add_component
      (map component (map (fun x => (k, x)) (default [] (v !! k)))) buf.
Proof.
  unfold encode_key.
  induction (default [] (v !! k)) as [|x vs IH] in buf |- *; [reflexivity|].
  cbn [fold_left map]. now rewrite <- IH.
Qed.

Lemma encode_keys_components v keys buf :
  fold_left (encode_key v) keys buf
  = fold_left add_component
      (map component
         (flat_map (fun k => map (fun x => (k, x)) (default [] (v !! k))) keys))
      buf.
Proof.
  induction keys as [|k keys IH] in buf |- *; [reflexivity|].
  cbn [fold_left flat_map]. rewrite map_app, fold_left_app, IH.
  now rewrite encode_key_components.
Qed.

Lemma Encode_components v :
  Encode v = fold_left add_component (map component (pairs_of v)) "".
Proof. apply encode_keys_components. Qed.

Lemma len_pos_nonempty s : (0 <? len s) = negb (String.eqb s "").
Proof. destruct s; reflexivity. Qed.

Lemma fold_add_component comps buf :
  Forall (fun c => c <> "") comps ->
  fold_left add_component comps buf
  = if String.eqb buf "" then join "&" comps
    else match comps with
         | [] => buf
         | _ => buf ++ "&" ++ join "&" comps
         end.
Proof.
  intros Hne. induction Hne as [|c comps Hc Hne IH] in buf |- *.
  - simpl. now destruct (String.eqb_spec buf "").
  - cbn [fold_left]. rewrite IH.
    assert (Hadd : add_component buf c <> "").
    { unfold add_component. destruct (0 <? len buf), buf, c; try discriminate; congruence. }
    apply String.eqb_neq in Hadd. rewrite Hadd.
    unfold add_component. rewrite len_pos_nonempty.
    destruct (String.eqb_spec buf "") as [->|Hb]; simpl negb; cbv iota.
    + destruct comps; reflexivity.
    + destruct comps as [|c' comps]; cbn [join]; now rewrite ?append_assoc.
Qed.

Lemma Split_no_sep a :
  contains_byte "&" a = false -> Split a "&" = [a].
Proof.
  induction a as [|c a IH]; [reflexivity|].
  cbn [contains_byte Split]. intros Hc. apply orb_false_elim in Hc as [Hc Ha].
  rewrite Hc, (IH Ha). reflexivity.
Qed.

Lemma Split_app_sep a rest :
  contains_byte "&" a = false ->
  Split (a ++ "&" ++ rest) "&" = a :: Split rest "&".
Proof.
  induction a as [|c a IH]; [reflexivity|].
  cbn [contains_byte]. intros Hc. apply orb_false_elim in Hc as [Hc Ha].
  rewrite append_cons. cbn [Split]. rewrite Hc, (IH Ha). reflexivity.
Qed.

Lemma Split_join comps :
  comps <> [] ->
  Forall (fun c => contains_byte "&" c = false) comps ->
  Split (join "&" comps) "&" = comps.
Proof.
  intros Hne Hall. induction Hall as [|c comps Hc Hall IH]; [congruence|].
  destruct comps as [|c' comps].
  - now apply Split_no_sep.
  - change (join "&" (c :: c' :: comps)) with (c ++ "&" ++ join "&" (c' :: comps)).
    rewrite Split_app_sep by assumption. f_equal. now apply IH.
Qed.

Lemma contains_byte_app c a b :
  contains_byte c (a ++ b) = contains_byte c a || contains_byte c b.
Proof.
  induction a as [|x a IH]; [reflexivity|].
  rewrite append_cons. cbn [contains_byte]. now rewrite IH, orb_assoc.
Qed.

Lemma QueryEscape_cons_amp c s :
  contains_byte "&" (QueryEscape (String c s)) = contains_byte "&" (QueryEscape s).
Proof. destruct c as [[] [] [] [] [] [] [] []]; reflexivity. Qed.

Lemma QueryEscape_cons_eq c s :
  contains_byte "=" (QueryEscape (String c s)) = contains_byte "=" (QueryEscape s).
Proof. destruct c as [[] [] [] [] [] [] [] []]; reflexivity. Qed.

Lemma QueryEscape_cons_semi c s :
  contains_byte ";" (QueryEscape (String c s)) = contains_byte ";" (QueryEscape s).
Proof. destruct c as [[] [] [] [] [] [] [] []]; reflexivity. Qed.

(** An escaped string contains none of the separators of a query. *)
Lemma QueryEscape_no_separator s :
  contains_byte "&" (QueryEscape s) = false
  /\ contains_byte "=" (QueryEscape s) = false
  /\ contains_byte ";" (QueryEscape s) = false.
Proof.
  induction s as [|c s (Ha & He & Hs)]; [repeat split|].
  now rewrite QueryEscape_cons_amp, QueryEscape_cons_eq, QueryEscape_cons_semi.
Qed.

Lemma QueryUnescape_cons c s :
  QueryUnescape (QueryEscape (String c s))
  = option_map (String c) (QueryUnescape (QueryEscape s)).
Proof. destruct c as [[] [] [] [] [] [] [] []]; reflexivity. Qed.

Lemma QueryUnescape_QueryEscape s : QueryUnescape (QueryEscape s) = Some s.
Proof.
  induction s as [|c s IH]; [reflexivity|].
  now rewrite QueryUnescape_cons, IH.
Qed.

Lemma before_eq_app a rest :
  contains_byte "=" a = false -> before_eq (a ++ "=" ++ rest) = a.
Proof.
  induction a as [|c a IH]; [reflexivity|].
  cbn [contains_byte]. intros Hc. apply orb_false_elim in Hc as [Hc Ha].
  rewrite append_cons. cbn [before_eq]. now rewrite Hc, (IH Ha).
Qed.

Lemma component_name kx :
  component kx <> ""
  /\ contains_byte "&" (component kx) = false
  /\ contains_byte ";" (component kx) = false
  /\ QueryUnescape (before_eq (component kx)) = Some (fst kx).
Proof.
  unfold component.
  destruct (QueryEscape_no_separator (fst kx)) as (Ha & He & Hs).
  destruct (QueryEscape_no_separator (snd kx)) as (Ha' & He' & Hs').
  repeat split.
  - destruct (QueryEscape (fst kx)); discriminate.
  - rewrite !contains_byte_app, Ha, Ha'. reflexivity.
  - rewrite !contains_byte_app, Hs, Hs'. reflexivity.
  - rewrite before_eq_app by assumption. apply QueryUnescape_QueryEscape.
Qed.

(** Reading back what [Encode] wrote gives the names of the pairs. *)
Lemma query_names_Encode v : query_names (Encode v) = map fst (pairs_of v).
Proof.
  rewrite Encode_components.
  rewrite fold_add_component.
  2:{ apply Forall_map, Forall_forall. intros kx _. apply component_name. }
  cbn [String.eqb].
  unfold query_names.
  destruct (pairs_of v) as [|kx l] eqn:Hp; [reflexivity|].
  rewrite Split_join.
  - rewrite <- Hp. clear Hp. induction (pairs_of v) as [|kx' l' IH]; [reflexivity|].
    cbn [map flat_map]. rewrite IH.
    destruct (component_name kx') as (Hne & _ & Hs & Hk).
    apply String.eqb_neq in Hne. rewrite Hne, Hs, Hk. reflexivity.
  - discriminate.
  - apply Forall_map, Forall_forall. intros kx' _. apply component_name.
Qed.

Lemma sorted_keys_In (v : Values) k : In k (sorted_keys v) <-> is_Some (v !! k).
Proof.
  unfold sorted_keys.
  rewrite <- list_elem_of_In.
  rewrite (merge_sort_Permutation string_le (map fst (map_to_list v))).
  rewrite list_elem_of_In, in_map_iff. split.
  - intros ([k' x] & <- & Hin). apply list_elem_of_In, elem_of_map_to_list in Hin.
    simpl. eauto.
  - intros [x Hx]. exists (k, x). split; [reflexivity|].
    now apply list_elem_of_In, elem_of_map_to_list.
Qed.

(** A name is read back from the encoded values exactly when the values
    hold at least one string under it. *)
Lemma query_names_Encode_In (v : Values) k :
  In k (query_names (Encode v)) <-> exists x l, v !! k = Some (x :: l).
Proof.
  rewrite query_names_Encode. unfold pairs_of.
  rewrite in_map_iff. split.
  - intros ([k' x] & <- & Hin). simpl.
    apply in_flat_map in Hin as (k'' & Hk & Hin).
    apply in_map_iff in Hin as (x' & [= <- <-] & Hx).
    destruct (v !! k'') as [[|y l]|]; simpl in Hx; try contradiction. eauto.
  - intros (x & l & Hv). exists (k, x). split; [reflexivity|].
    apply in_flat_map. exists k. split.
    + apply sorted_keys_In. rewrite Hv. eauto.
    + rewrite Hv. simpl. now left.
Qed.
End Query.

Section ApiKey.
Import types client go_url spec.
Context `{GoTables}.

Lemma Add_lookup_ne (v : Values) (key value k : string) :
  key <> k -> Add v key value !! k = v !! k.
Proof. intros Hne. unfold Add. now apply lookup_insert_ne. Qed.

Lemma Add_lookup_eq (v : Values) (key value : string) :
  Add v key value !! key = Some (default [] (v !! key) ++ [value])%list.
Proof. unfold Add. apply lookup_insert_eq. Qed.

Lemma GenerateFlightPlanValues_api_key (c : Client.t) (req : FlightPlanRequest.t) :
  GenerateFlightPlanValues c req !! "api_key"
  = if String.eqb (Client.APIKey c) "" then None else Some [Client.APIKey c].
Proof.
  unfold GenerateFlightPlanValues.
  destruct (String.eqb (Client.APIKey c) ""); simpl negb; cbv iota.
  - now rewrite ToURLValues_lookup.
  - rewrite Add_lookup_eq. now rewrite ToURLValues_lookup.
Qed.

Lemma ToQueryParams_names (fr : FetchRequest.t) :
  ~ In "api_key" (query_names (query_of (ToQueryParams fr))).
Proof.
  unfold ToQueryParams.
  match goal with
  | |- context [bool_decide (?v = ∅)] =>
      assert (Hv : v !! "api_key" = None); [|destruct (bool_decide (v = ∅))]
  end.
  - repeat match goal with
           | |- context [if ?b then _ else _] => destruct b
           end;
      rewrite ?Add_lookup_ne by discriminate; apply lookup_empty.
  - simpl. tauto.
  - match goal with
    | |- context [query_of ("?" ++ Encode ?v)] =>
        change (query_of ("?" ++ Encode v)) with (Encode v)
    end.
    rewrite query_names_Encode_In. intros (x & l & Hx). congruence.
Qed.

(** C8. The API credential is a parameter of the generation URL only. The
    generation URL is the base URL, the endpoint and the encoded values,
    and the names read back from that query contain [api_key] exactly when
    the key of the client is not empty (its value is then the key). The
    query that [ToQueryParams] builds for the fetch endpoint never
    contains [api_key], whatever the client. *)
Theorem api_key_only_on_generation (c : Client.t) (req : FlightPlanRequest.t)
    (fr : FetchRequest.t) :
  GenerateFlightPlanURL c req
  = Client.BaseURL c ++ endpointGenerate ++ "?"
      ++ Encode (GenerateFlightPlanValues c req)
  /\ (In "api_key" (query_names (Encode (GenerateFlightPlanValues c req)))
      <-> Client.APIKey c <> "")
  /\ (Client.APIKey c <> "" ->
      GenerateFlightPlanValues c req !! "api_key" = Some [Client.APIKey c])
  /\ fetch_URL c fr = Client.BaseURL c ++ endpointXMLFetcher ++ ToQueryParams fr
  /\ ~ In "api_key" (query_names (query_of (ToQueryParams fr))).
Proof.
  split; [reflexivity|]. split; [|split; [|split]].
  - rewrite query_names_Encode_In, GenerateFlightPlanValues_api_key.
    destruct (String.eqb_spec (Client.APIKey c) "") as [->|Hne].
    + split; [intros (x & l & Hx); discriminate | congruence].
    + split; [auto | eauto].
  - intros Hne. rewrite GenerateFlightPlanValues_api_key.
    apply String.eqb_neq in Hne. now rewrite Hne.
  - reflexivity.
  - apply ToQueryParams_names.
Qed.
End ApiKey.

Lemma api_key_only_on_generation_witness :
  @client.GenerateFlightPlanValues spec.no_tables (client.NewClient "test-api-key")
    (types.NewFlightPlanRequest "KJFK" "KLAX" "B738") !! "api_key"
  = Some ["test-api-key"].
Proof.
  apply (proj1 (proj2 (proj2 (@api_key_only_on_generation spec.no_tables
           (client.NewClient "test-api-key")
           (types.NewFlightPlanRequest "KJFK" "KLAX" "B738")
           (types.FetchRequest.mk "123456" "" "" true))))).
  discriminate.
Defined.

(** ** UTF-8 and JSON strings *)

Section RuneCoding.
Import go_utf8 spec.

Ltac dlia := Z.div_mod_to_equations; lia.

Lemma land_disjoint q k y : 0 <= k -> 0 <= y < 2 ^ k -> Z.land (q * 2 ^ k) y = 0.
Proof.
  intros Hk Hy. apply Z.bits_inj'. intros n Hn.
  rewrite Z.land_spec, Z.bits_0.
  destruct (Z.lt_ge_cases n k) as [Hlt|Hge].
  - now rewrite Z.mul_pow2_bits_low.
  - rewrite andb_comm.
    destruct (Z.eq_dec y 0) as [->|Hy0]; [now rewrite Z.bits_0|].
    rewrite Z.bits_above_log2; [reflexivity | lia |].
    assert (2 ^ k <= 2 ^ n) by (apply Z.pow_le_mono_r; lia).
    apply Z.log2_lt_pow2; lia.
Qed.

Lemma lor_add q k y : 0 <= k -> 0 <= y < 2 ^ k -> Z.lor (q * 2 ^ k) y = q * 2 ^ k + y.
Proof.
  intros Hk Hy.
  pose proof (Z.add_lor_land (q * 2 ^ k) y) as Hadd.
  rewrite land_disjoint in Hadd by assumption. lia.
Qed.

Lemma land_maskx x : Z.land x maskx = x mod 64.
Proof. change maskx with (Z.ones 6). now rewrite Z.land_ones. Qed.

Lemma land_mask2 x : Z.land x mask2 = x mod 32.
Proof. change mask2 with (Z.ones 5). now rewrite Z.land_ones. Qed.

Lemma land_mask3 x : Z.land x mask3 = x mod 16.
Proof. change mask3 with (Z.ones 4). now rewrite Z.land_ones. Qed.

Lemma land_mask4 x : Z.land x mask4 = x mod 8.
Proof. change mask4 with (Z.ones 3). now rewrite Z.land_ones. Qed.

Lemma decode2_val s0 s1 :
  Z.lor (Z.shiftl (Z.land s0 mask2) 6) (Z.land s1 maskx)
  = (s0 mod 32) * 64 + s1 mod 64.
Proof.
  rewrite land_mask2, land_maskx, Z.shiftl_mul_pow2 by lia.
  apply (lor_add _ 6); [lia|]. apply Z.mod_pos_bound. lia.
Qed.

Lemma decode3_val s0 s1 s2 :
  Z.lor (Z.lor (Z.shiftl (Z.land s0 mask3) 12) (Z.shiftl (Z.land s1 maskx) 6))
        (Z.land s2 maskx)
  = (s0 mod 16) * 4096 + (s1 mod 64) * 64 + s2 mod 64.
Proof.
  rewrite land_mask3, !land_maskx, !Z.shiftl_mul_pow2 by lia.
  pose proof (Z.mod_pos_bound s1 64 ltac:(lia)).
  pose proof (Z.mod_pos_bound s2 64 ltac:(lia)).
  rewrite (lor_add _ 12) by lia.
  replace (s0 mod 16 * 2 ^ 12 + s1 mod 64 * 2 ^ 6)
    with ((s0 mod 16 * 64 + s1 mod 64) * 2 ^ 6) by lia.
  rewrite (lor_add _ 6) by lia. lia.
Qed.

Lemma decode4_val s0 s1 s2 s3 :
  Z.lor (Z.lor (Z.lor (Z.shiftl (Z.land s0 mask4) 18)
                      (Z.shiftl (Z.land s1 maskx) 12))
               (Z.shiftl (Z.land s2 maskx) 6))
        (Z.land s3 maskx)
  = (s0 mod 8) * 262144 + (s1 mod 64) * 4096 + (s2 mod 64) * 64 + s3 mod 64.
Proof.
  rewrite land_mask4, !land_maskx, !Z.shiftl_mul_pow2 by lia.
  pose proof (Z.mod_pos_bound s1 64 ltac:(lia)).
  pose proof (Z.mod_pos_bound s2 64 ltac:(lia)).
  pose proof (Z.mod_pos_bound s3 64 ltac:(lia)).
  rewrite (lor_add _ 18) by lia.
  replace (s0 mod 8 * 2 ^ 18 + s1 mod 64 * 2 ^ 12)
    with ((s0 mod 8 * 64 + s1 mod 64) * 2 ^ 12) by lia.
  rewrite (lor_add _ 12) by lia.
  replace ((s0 mod 8 * 64 + s1 mod 64) * 2 ^ 12 + s2 mod 64 * 2 ^ 6)
    with (((s0 mod 8 * 64 + s1 mod 64) * 64 + s2 mod 64) * 2 ^ 6) by lia.
  rewrite (lor_add _ 6) by lia. lia.
Qed.

Lemma enc_cont x : Z.lor 0x80 (Z.land x maskx) = 128 + x mod 64.
Proof.
  rewrite land_maskx. change 0x80 with (1 * 2 ^ 7).
  pose proof (Z.mod_pos_bound x 64 ltac:(lia)).
  rewrite lor_add; lia.
Qed.

Lemma enc_lead2 r : 0 <= r < 2048 -> Z.lor 0xC0 (Z.shiftr r 6) = 192 + r / 64.
Proof.
  intros Hr. rewrite Z.shiftr_div_pow2 by lia. change 0xC0 with (6 * 2 ^ 5).
  change (2 ^ 6) with 64.
  rewrite lor_add; [lia | lia |].
  split; [apply Z.div_pos; lia | apply Z.div_lt_upper_bound; lia].
Qed.

Lemma enc_lead3 r : 0 <= r < 65536 -> Z.lor 0xE0 (Z.shiftr r 12) = 224 + r / 4096.
Proof.
  intros Hr. rewrite Z.shiftr_div_pow2 by lia. change 0xE0 with (14 * 2 ^ 4).
  change (2 ^ 12) with 4096.
  rewrite lor_add; [lia | lia |].
  split; [apply Z.div_pos; lia | apply Z.div_lt_upper_bound; lia].
Qed.

Lemma enc_lead4 r : 0 <= r < 2097152 -> Z.lor 0xF0 (Z.shiftr r 18) = 240 + r / 262144.
Proof.
  intros Hr. rewrite Z.shiftr_div_pow2 by lia. change 0xF0 with (30 * 2 ^ 3).
  change (2 ^ 18) with 262144.
  rewrite lor_add; [lia | lia |].
  split; [apply Z.div_pos; lia | apply Z.div_lt_upper_bound; lia].
Qed.

Lemma shiftr_6 r : Z.shiftr r 6 = r / 64.
Proof. now rewrite Z.shiftr_div_pow2. Qed.

Lemma shiftr_12 r : Z.shiftr r 12 = r / 4096.
Proof. now rewrite Z.shiftr_div_pow2. Qed.

Lemma z2b_eq x c : x = b2z c -> z2b x = c.
Proof. intros ->. apply z2b_b2z. Qed.

Lemma first_multi_spec s0 sz lo hi :
  first s0 = multi sz lo hi ->
  0x80 <= lo /\ hi <= 0xBF
  /\ ((sz = 2%nat /\ 0xC2 <= s0 <= 0xDF)
      \/ (sz = 3%nat /\ 0xE0 <= s0 <= 0xEF
          /\ (s0 = 0xE0 -> lo = 0xA0) /\ (s0 = 0xED -> hi = 0x9F))
      \/ (sz = 4%nat /\ 0xF0 <= s0 <= 0xF4
          /\ (s0 = 0xF0 -> lo = 0x90) /\ (s0 = 0xF4 -> hi = 0x8F))).
Proof.
  unfold first, locb, hicb.
  repeat match goal with
         | |- context [if ?x <? ?y then _ else _] => destruct (Z.ltb_spec x y)
         | |- context [if ?x =? ?y then _ else _] => destruct (Z.eqb_spec x y)
         end; intros [= <- <- <-] || discriminate; lia.
Qed.

(** Encoding the rune decoded from a well-formed sequence gives the
    sequence back; a sequence of several bytes has no ASCII byte and does
    not encode an ASCII rune. *)

Lemma EncodeRune_DecodeRune s r n :
  s <> "" -> DecodeRune s = (r, n) -> chunk_valid (r, take n s) = true ->
  EncodeRune r = take n s
  /\ (0x80 <= at_ s 0 -> bytes_high (take n s) = true /\ 0x80 <= r).
Proof.
  intros Hs. destruct s as [|c0 s]; [congruence|]. clear Hs.
  unfold DecodeRune. cbn [at_ String.get String.length].
  replace (S (String.length s) <? 1)%nat with false
    by (symmetry; apply Nat.ltb_ge; lia).
  pose proof (b2z_range c0) as Hc0.
  destruct (first (b2z c0)) as [| |sz lo hi] eqn:Hf.
  - (* ASCII *)
    intros [= <- <-] _. unfold first in Hf.
    destruct (Z.ltb_spec (b2z c0) 0x80); [|repeat match type of Hf with
      | context [if ?b then _ else _] => destruct b end; discriminate].
    split; [|lia].
    unfold EncodeRune.
    destruct (Z.leb_spec 0 (b2z c0)); [|lia].
    destruct (Z.leb_spec (b2z c0) 0x7F); [|lia].
    simpl. now rewrite z2b_b2z.
  - intros [= <- <-]. discriminate.
  - apply first_multi_spec in Hf as (Hlo & Hhi & Hf).
    unfold locb, hicb, chunk_valid.
    destruct s as [|c1 s].
    { destruct Hf as [[-> _]|[[-> _]|[-> _]]]; cbn; intros [= <- <-]; discriminate. }
    pose proof (b2z_range c1) as Hc1.
    cbn [at_ String.get String.length].
    destruct (Z.ltb_spec (b2z c1) lo);
      [destruct (S (S (String.length s)) <? sz)%nat; intros [= <- <-]; discriminate|].
    destruct (Z.ltb_spec hi (b2z c1));
      [destruct (S (S (String.length s)) <? sz)%nat; intros [= <- <-]; discriminate|].
    cbn [orb].
    destruct Hf as [[-> Hs0]|[(-> & Hs0 & HE0 & HED)|(-> & Hs0 & HF0 & HF4)]].
    + (* two bytes *)
      cbn. rewrite decode2_val. intros [= <- <-] _.
      split.
      * unfold EncodeRune.
        destruct (Z.leb_spec 0 (b2z c0 mod 32 * 64 + b2z c1 mod 64)); [|dlia].
        destruct (Z.leb_spec (b2z c0 mod 32 * 64 + b2z c1 mod 64) 0x7F); [dlia|].
        destruct (Z.leb_spec (b2z c0 mod 32 * 64 + b2z c1 mod 64) 0x7FF); [|dlia].
        cbn [andb]. rewrite enc_lead2, enc_cont by dlia.
        cbn [take]. f_equal; [|f_equal]; apply z2b_eq; dlia.
      * intros _. split; [|dlia]. unfold bytes_high. cbn.
        destruct (Z.leb_spec 128 (b2z c0)); [|dlia].
        destruct (Z.leb_spec 128 (b2z c1)); [reflexivity|dlia].
    + (* three bytes *)
      destruct s as [|c2 s]; [cbn; intros [= <- <-]; discriminate|].
      pose proof (b2z_range c2) as Hc2.
      cbn [at_ String.get String.length Nat.ltb Nat.leb].
      destruct (Z.ltb_spec (b2z c2) 128); [intros [= <- <-]; discriminate|].
      destruct (Z.ltb_spec 191 (b2z c2)); [intros [= <- <-]; discriminate|].
      cbn [orb]. rewrite decode3_val. intros [= <- <-] _.
      set (r := b2z c0 mod 16 * 4096 + b2z c1 mod 64 * 64 + b2z c2 mod 64).
      assert (Hr : 0x800 <= r <= 0xFFFF /\ ~ 0xD800 <= r <= 0xDFFF) by (subst r; dlia).
      split.
      * unfold EncodeRune, in_range, MaxRune, surrogateMin, surrogateMax.
        destruct (Z.leb_spec 0 r); [|dlia].
        destruct (Z.leb_spec r 0x7F); [dlia|].
        destruct (Z.leb_spec r 0x7FF); [dlia|].
        destruct (Z.ltb_spec r 0); [dlia|].
        destruct (Z.ltb_spec 0x10FFFF r); [dlia|].
        destruct (Z.leb_spec 0xD800 r), (Z.leb_spec r 0xDFFF); try dlia;
          destruct (Z.leb_spec r 0xFFFF); try dlia; cbn [andb orb];
          unfold encode3; rewrite enc_lead3, shiftr_6, !enc_cont by dlia;
          cbn [take]; (f_equal; [|f_equal; [|f_equal]]); apply z2b_eq; subst r; dlia.
      * intros _. split; [|dlia]. unfold bytes_high. cbn.
        destruct (Z.leb_spec 128 (b2z c0)); [|dlia].
        destruct (Z.leb_spec 128 (b2z c1)); [|dlia].
        destruct (Z.leb_spec 128 (b2z c2)); [reflexivity|dlia].
    + (* four bytes *)
      destruct s as [|c2 [|c3 s]]; try (cbn; intros [= <- <-]; discriminate).
      pose proof (b2z_range c2) as Hc2. pose proof (b2z_range c3) as Hc3.
      cbn [at_ String.get String.length Nat.ltb Nat.leb].
      destruct (Z.ltb_spec (b2z c2) 128); [intros [= <- <-]; discriminate|].
      destruct (Z.ltb_spec 191 (b2z c2)); [intros [= <- <-]; discriminate|].
      destruct (Z.ltb_spec (b2z c3) 128); [intros [= <- <-]; discriminate|].
      destruct (Z.ltb_spec 191 (b2z c3)); [intros [= <- <-]; discriminate|].
      cbn [orb]. rewrite decode4_val. intros [= <- <-] _.
      set (r := b2z c0 mod 8 * 262144 + b2z c1 mod 64 * 4096
                + b2z c2 mod 64 * 64 + b2z c3 mod 64).
      assert (Hr : 0x10000 <= r <= 0x10FFFF) by (subst r; dlia).
      split.
      * unfold EncodeRune, in_range, MaxRune, surrogateMin, surrogateMax.
        destruct (Z.leb_spec 0 r); [|dlia].
        destruct (Z.leb_spec r 0x7F); [dlia|].
        destruct (Z.leb_spec r 0x7FF); [dlia|].
        destruct (Z.ltb_spec r 0); [dlia|].
        destruct (Z.ltb_spec 0x10FFFF r); [dlia|].
        destruct (Z.leb_spec 0xD800 r), (Z.leb_spec r 0xDFFF); try dlia;
          destruct (Z.leb_spec r 0xFFFF); try dlia; cbn [andb orb];
          rewrite enc_lead4, shiftr_6, shiftr_12, !enc_cont by dlia;
          cbn [take]; (f_equal; [|f_equal; [|f_equal; [|f_equal]]]);
          apply z2b_eq; subst r; dlia.
      * intros _. split; [|dlia]. unfold bytes_high. cbn.
        destruct (Z.leb_spec 128 (b2z c0)); [|dlia].
        destruct (Z.leb_spec 128 (b2z c1)); [|dlia].
        destruct (Z.leb_spec 128 (b2z c2)); [|dlia].
        destruct (Z.leb_spec 128 (b2z c3)); [reflexivity|dlia].
Qed.
End RuneCoding.

Section StringCoding.
Import go_utf8 go_json go_strings spec.

(** A well-formed sequence decodes the same whatever follows it. *)
Lemma DecodeRune_extend a b r n :
  a <> "" ->
  DecodeRune a = (r, n) -> n = String.length a -> chunk_valid (r, a) = true ->
  DecodeRune (a ++ b) = (r, n).
Proof.
  intros Ha. unfold DecodeRune, chunk_valid. rewrite !length_append.
  destruct a as [|c0 a]; [congruence|]. clear Ha.
  rewrite append_cons. cbn [at_ String.get String.length fst snd].
  replace (S (String.length a) + String.length b <? 1)%nat with false
    by (symmetry; apply Nat.ltb_ge; lia).
  replace (S (String.length a) <? 1)%nat with false
    by (symmetry; apply Nat.ltb_ge; lia).
  destruct (first (b2z c0)) as [| |sz lo hi] eqn:Hf; try (intros; assumption).
  apply first_multi in Hf.
  destruct a as [|c1 [|c2 [|c3 a]]];
    rewrite ?append_cons, ?append_nil_l; cbn [at_ String.get String.length];
    destruct Hf as [-> | [-> | ->]]; cbn [Nat.ltb Nat.leb Nat.add];
    repeat match goal with
      | |- context [(?x <? ?y)%nat] =>
          destruct (Nat.ltb_spec x y); try lia
      end;
    repeat match goal with
      | |- context [if ?c then _ else _] => destruct c
      end;
    intros [= <- <-]; cbn [String.length]; intros; try reflexivity; try lia;
    try discriminate.
Qed.

Lemma stable_good l :
  stable l -> forallb chunk_valid l = true -> Forall good_chunk l.
Proof.
  induction l as [|ch l IH]; [constructor|].
  intros Hst Hv. cbn [forallb] in Hv. apply andb_prop in Hv as [Hch Hv].
  destruct (stable_cons_inv _ _ Hst) as (Hst' & Hne & Hd).
  constructor; [|auto].
  repeat split; auto.
  eapply DecodeRune_app; eauto.
Qed.

Lemma ValidString_good s : ValidString s = true -> Forall good_chunk (chunks s).
Proof. intros Hv. apply stable_good; [apply stable_chunks | exact Hv]. Qed.

Lemma take_all s : take (String.length s) s = s.
Proof. induction s as [|c s IH]; [reflexivity|]. simpl. now rewrite IH. Qed.

Lemma good_chunk_cases ch :
  good_chunk ch ->
  (exists c, ch = (b2z c, String c "") /\ b2z c < 0x80)
  \/ (0x80 <= at_ (snd ch) 0 /\ bytes_high (snd ch) = true
      /\ EncodeRune (fst ch) = snd ch /\ 0x80 <= fst ch).
Proof.
  intros (Hne & Hd & Hv). destruct ch as [r bs]. cbn [fst snd] in *.
  destruct (Z.lt_ge_cases (at_ bs 0) 0x80) as [Hlt|Hge].
  - left. destruct bs as [|c bs]; [congruence|].
    cbn [at_ String.get] in Hlt.
    unfold DecodeRune in Hd. cbn [at_ String.get String.length] in Hd.
    replace (S (String.length bs) <? 1)%nat with false in Hd
      by (symmetry; apply Nat.ltb_ge; lia).
    unfold first in Hd. destruct (Z.ltb_spec (b2z c) 0x80); [|lia].
    injection Hd as <- Hlen. exists c. split; [|assumption].
    destruct bs; [reflexivity | discriminate].
  - right.
    pose proof (EncodeRune_DecodeRune bs r (String.length bs) Hne Hd) as Hrt.
    rewrite take_all in Hrt. destruct (Hrt Hv) as [He Hh].
    destruct (Hh ltac:(lia)). auto.
Qed.

(** *** An ASCII byte *)

Lemma ascii_unquote c X :
  b2z c < 0x80 ->
  unquote_loop (appendString_rune (b2z c, String c "") ++ X)
  = option_app (String c "") (unquote_loop X).
Proof.
  destruct c as [[] [] [] [] [] [] [] []]; intros Hc;
    try (vm_compute in Hc; discriminate Hc); reflexivity.
Qed.

Lemma ascii_rescan c X :
  b2z c < 0x80 ->
  rescan_string (appendString_rune (b2z c, String c "") ++ X)
  = appendString_rune (b2z c, String c "") ++ rescan_string X.
Proof.
  destruct c as [[] [] [] [] [] [] [] []]; intros Hc;
    try (vm_compute in Hc; discriminate Hc); reflexivity.
Qed.

Lemma ascii_scan c e p X :
  b2z c < 0x80 ->
  scan (mkScanner S_InString e p false)
       (appendString_rune (b2z c, String c "") ++ X)
  = scan (mkScanner S_InString e p false) X.
Proof.
  destruct c as [[] [] [] [] [] [] [] []]; intros Hc;
    try (vm_compute in Hc; discriminate Hc); reflexivity.
Qed.

(** *** A sequence of several bytes *)

Lemma high_byte_plain c :
  0x80 <= b2z c ->
  Ascii.eqb c dquote = false /\ Ascii.eqb c "\" = false
  /\ (b2z c <? 0x20) = false /\ (b2z c <? RuneSelf) = false.
Proof.
  intros Hc. repeat split.
  - destruct (Ascii.eqb_spec c dquote) as [->|]; [vm_compute in Hc; congruence | reflexivity].
  - destruct (Ascii.eqb_spec c "\") as [->|]; [vm_compute in Hc; congruence | reflexivity].
  - apply Z.ltb_ge. lia.
  - apply Z.ltb_ge. unfold RuneSelf. lia.
Qed.

Lemma bytes_high_cons c s :
  bytes_high (String c s) = true -> 0x80 <= b2z c /\ bytes_high s = true.
Proof.
  unfold bytes_high. cbn [list_ascii_of_string forallb].
  intros Hb. apply andb_prop in Hb as [Hc Hs]. split; [lia | assumption].
Qed.

Lemma high_rescan bs X :
  bytes_high bs = true -> rescan_string (bs ++ X) = bs ++ rescan_string X.
Proof.
  induction bs as [|c bs IH]; [reflexivity|].
  intros Hb. apply bytes_high_cons in Hb as [Hc Hb].
  destruct (high_byte_plain c Hc) as (Hq & Hbs & _).
  rewrite !append_cons. cbn [rescan_string]. now rewrite Hq, Hbs, (IH Hb).
Qed.

Lemma high_scan bs e p X :
  bytes_high bs = true ->
  scan (mkScanner S_InString e p false) (bs ++ X)
  = scan (mkScanner S_InString e p false) X.
Proof.
  induction bs as [|c bs IH]; [reflexivity|].
  intros Hb. apply bytes_high_cons in Hb as [Hc Hb].
  destruct (high_byte_plain c Hc) as (Hq & Hbs & Hlt & _).
  rewrite append_cons. cbn [scan]. rewrite <- (IH Hb). f_equal.
  unfold step_byte, stateInString. cbn [step]. now rewrite Hq, Hbs, Hlt.
Qed.

(** The loop of [unquoteBytes] on a byte outside ASCII: the rune read
    there is encoded, and the loop goes on behind it. *)
Lemma high_unquote s r n :
  0x80 <= at_ s 0 -> s <> "" -> DecodeRune s = (r, n) ->
  unquote_loop s = option_app (EncodeRune r) (unquote_loop (drop n s)).
Proof.
  intros Hc Hs Hd.
  destruct (DecodeRune_size s r n Hs Hd) as [Hn Hlen].
  destruct s as [|c s]; [congruence|].
  cbn [at_ String.get] in Hc.
  destruct (high_byte_plain c Hc) as (Hq & Hbs & Hlt & Hself).
  cbn [unquote_loop]. rewrite Hbs, Hq, Hlt, Hself. cbn [orb]. rewrite Hd.
  destruct n as [|[|[|[|[|n]]]]]; try lia; try reflexivity.
  - destruct s as [|c1 s]; [simpl in Hlen; lia|]. reflexivity.
  - destruct s as [|c1 [|c2 s]]; try (simpl in Hlen; lia). reflexivity.
  - destruct s as [|c1 [|c2 [|c3 s]]]; try (simpl in Hlen; lia). reflexivity.
Qed.

(** *** One rune of the source *)

Lemma rune_cases ch :
  good_chunk ch ->
  (exists c, ch = (b2z c, String c "") /\ b2z c < 0x80)
  \/ (bytes_high (snd ch) = true /\ EncodeRune (fst ch) = snd ch
      /\ (appendString_rune ch = snd ch
          \/ (fst ch = 0x2028 /\ appendString_rune ch = "\u202" ++ "8")
          \/ (fst ch = 0x2029 /\ appendString_rune ch = "\u202" ++ "9"))).
Proof.
  intros Hg. destruct (good_chunk_cases ch Hg) as [Ha|(H0 & Hb & He & Hr)]; [now left|].
  right. repeat split; auto.
  destruct Hg as (_ & _ & Hv).
  unfold appendString_rune.
  destruct (Z.ltb_spec (at_ (snd ch) 0) RuneSelf) as [Hlt|_];
    [unfold RuneSelf in Hlt; lia|].
  unfold chunk_valid in Hv. apply negb_true_iff in Hv. rewrite Hv.
  destruct (Z.eqb_spec (fst ch) 0x2028) as [->|_]; [right; left; auto|].
  destruct (Z.eqb_spec (fst ch) 0x2029) as [->|_]; [right; right; auto|].
  now left.
Qed.

Lemma rune_unquote ch X :
  good_chunk ch ->
  unquote_loop (appendString_rune ch ++ X) = option_app (snd ch) (unquote_loop X).
Proof.
  intros Hg. destruct (rune_cases ch Hg) as [(c & -> & Hc)|(Hb & He & Hout)].
  - now apply ascii_unquote.
  - destruct Hout as [-> | [[Hr ->] | [Hr ->]]].
    + destruct Hg as (Hne & Hd & Hv).
      assert (Hd' : DecodeRune (snd ch ++ X) = (fst ch, String.length (snd ch))).
      { apply DecodeRune_extend; auto. }
      rewrite (high_unquote (snd ch ++ X) (fst ch) (String.length (snd ch)));
        [ now rewrite He, drop_length_app | | | exact Hd' ].
      * destruct (snd ch) as [|c bs]; [congruence|].
        apply bytes_high_cons in Hb as [Hc _]. rewrite append_cons. exact Hc.
      * destruct (snd ch); [congruence | discriminate].
    + rewrite <- He, Hr. reflexivity.
    + rewrite <- He, Hr. reflexivity.
Qed.

Lemma rune_rescan ch X :
  good_chunk ch ->
  rescan_string (appendString_rune ch ++ X) = appendString_rune ch ++ rescan_string X.
Proof.
  intros Hg. destruct (rune_cases ch Hg) as [(c & -> & Hc)|(Hb & He & Hout)].
  - now apply ascii_rescan.
  - destruct Hout as [-> | [[Hr ->] | [Hr ->]]]; [now apply high_rescan| |]; reflexivity.
Qed.

Lemma rune_scan ch e p X :
  good_chunk ch ->
  scan (mkScanner S_InString e p false) (appendString_rune ch ++ X)
  = scan (mkScanner S_InString e p false) X.
Proof.
  intros Hg. destruct (rune_cases ch Hg) as [(c & -> & Hc)|(Hb & He & Hout)].
  - now apply ascii_scan.
  - destruct Hout as [-> | [[Hr ->] | [Hr ->]]]; [now apply high_scan| |]; reflexivity.
Qed.

(** *** The whole string *)

Lemma body_unquote l :
  Forall good_chunk l -> unquote_loop (body l) = Some (concat_chunks l).
Proof.
  induction 1 as [|ch l Hg _ IH]; [reflexivity|].
  cbn [body fold_right]. fold (body l). rewrite rune_unquote, IH by assumption.
  reflexivity.
Qed.

Lemma body_rescan l tail :
  Forall good_chunk l ->
  rescan_string (body l ++ String dquote tail) = body l ++ String dquote "".
Proof.
  induction 1 as [|ch l Hg _ IH].
  - cbn. reflexivity.
  - cbn [body fold_right]. fold (body l).
    rewrite append_assoc, rune_rescan, IH by assumption.
    now rewrite append_assoc.
Qed.

Lemma body_scan l e p X :
  Forall good_chunk l ->
  scan (mkScanner S_InString e p false) (body l ++ X)
  = scan (mkScanner S_InString e p false) X.
Proof.
  induction 1 as [|ch l Hg _ IH]; [reflexivity|].
  cbn [body fold_right]. fold (body l).
  rewrite append_assoc, rune_scan by assumption. exact IH.
Qed.

Lemma last_byte_app s c : last_byte (s ++ String c "") = Some c.
Proof.
  induction s as [|x s IH]; [reflexivity|].
  rewrite append_cons. cbn [last_byte]. rewrite IH.
  destruct (s ++ String c "") eqn:Hs; [destruct s; discriminate | reflexivity].
Qed.

Lemma remove_last_app s c : remove_last (s ++ String c "") = s.
Proof.
  induction s as [|x s IH]; [reflexivity|].
  rewrite append_cons. cbn [remove_last]. rewrite IH.
  destruct (s ++ String c "") eqn:Hs; [destruct s; discriminate | reflexivity].
Qed.

(** Decoding what [json.Marshal] writes for a valid UTF-8 string gives the
    string back. *)
Lemma Unmarshal_string_appendString s :
  ValidString s = true -> Unmarshal_string (appendString s) = Ok s.
Proof.
  intros Hv. apply ValidString_good in Hv.
  unfold Unmarshal_string, appendString, appendString_body. fold (body (chunks s)).
  assert (Hvalid : checkValid (String dquote (body (chunks s) ++ String dquote "")) = true).
  { unfold checkValid. cbn [scan]. 
    change (step_byte reset dquote) with (mkScanner S_InString false [] false).
    rewrite body_scan by assumption. reflexivity. }
  rewrite Hvalid. cbn [negb skip_space].
  change (isSpace dquote) with false. cbv iota.
  change (Ascii.eqb dquote dquote) with true. cbv iota.
  rewrite body_rescan by assumption.
  unfold unquoteBytes.
  replace (len (String dquote (body (chunks s) ++ String dquote "")) <? 2) with false.
  2:{ symmetry. apply Z.ltb_ge. unfold len. cbn [String.length].
      rewrite length_append. cbn [String.length]. lia. }
  change (Ascii.eqb dquote dquote) with true.
  cbn [last_byte]. 
  destruct (body (chunks s) ++ String dquote "") eqn:Hb.
  { destruct (body (chunks s)); discriminate. }
  rewrite <- Hb. rewrite last_byte_app, remove_last_app.
  change (Ascii.eqb dquote dquote) with true. cbn [negb orb].
  rewrite body_unquote by assumption. now rewrite concat_chunks_chunks.
Qed.
End StringCoding.

Section StringLiterals.
Import go_utf8 go_json go_strings spec.

Lemma dead_step s c : dead s -> dead (step_byte s c).
Proof.
  intros [Hp Hs]. destruct s as [st e p r]. cbn [parseState step] in *. subst p.
  unfold dead, step_byte. cbn [step].
  destruct Hs as [-> | [-> | ->]]; cbn [step];
    unfold stateEndValue, stateEndTop, error_; cbn [parseState step];
    destruct (isSpace c); cbn; auto.
Qed.

Lemma dead_scan s X : dead s -> dead (scan s X).
Proof.
  revert s. induction X as [|c X IH]; intros s Hs; [assumption|].
  cbn [scan]. apply IH. now apply dead_step.
Qed.

Lemma dead_not_sIn s X : dead s -> scan s X <> sIn.
Proof.
  intros Hs Heq. pose proof (dead_scan s X Hs) as [_ Hd]. rewrite Heq in Hd.
  cbn in Hd. destruct Hd as [Hd|[Hd|Hd]]; discriminate.
Qed.

Lemma scan_app s a b : scan s (a ++ b) = scan (scan s a) b.
Proof.
  revert s. induction a as [|c a IH]; intros s; [reflexivity|].
  rewrite append_cons. cbn [scan]. apply IH.
Qed.

Lemma is_hex_hexval h : is_hex h = true <-> 0 <= hexval h.
Proof.
  unfold is_hex, hexval, in_range. pose proof (b2z_range h).
  repeat match goal with
         | |- context [?x <=? ?y] => destruct (Z.leb_spec x y)
         end; cbn; split; intros; try discriminate; try reflexivity; lia.
Qed.

Lemma scan_high s n r :
  0x80 <= at_ s 0 -> s <> "" -> DecodeRune s = (r, n) ->
  scan sIn s = scan sIn (drop n s).
Proof.
  intros Hc Hs Hd.
  rewrite <- (take_drop n s) at 1.
  apply high_scan.
  destruct (chunk_valid (r, take n s)) eqn:Hv.
  - now apply (EncodeRune_DecodeRune s r n Hs Hd Hv).
  - unfold chunk_valid in Hv. cbn [fst snd] in Hv.
    apply negb_false_iff, andb_prop in Hv as [_ Hlen].
    apply Nat.eqb_eq in Hlen.
    destruct (DecodeRune_size s r n Hs Hd) as [Hn Hle].
    rewrite length_take in Hlen.
    assert (n = 1%nat) as -> by lia.
    destruct s as [|c s]; [congruence|].
    cbn [at_ String.get] in Hc. unfold bytes_high. cbn.
    destruct (Z.leb_spec 128 (b2z c)); [reflexivity | lia].
Qed.

Lemma scan_sIn_cons c X :
  scan sIn (String c X)
  = if Ascii.eqb c dquote then scan sEnd X
    else if Ascii.eqb c "\" then scan sEsc X
    else if b2z c <? 0x20 then scan sErr X
    else scan sIn X.
Proof.
  cbn [scan]. unfold step_byte, stateInString. cbn [step sIn].
  destruct (Ascii.eqb c dquote); [reflexivity|].
  destruct (Ascii.eqb c "\"); [reflexivity|].
  destruct (b2z c <? 0x20); reflexivity.
Qed.

Lemma scan_sEsc_cons e X :
  scan sEsc (String e X)
  = if simple_escape e then scan sIn X
    else if Ascii.eqb e "u" then scan (sU S_InStringEscU) X
    else scan sErr X.
Proof.
  cbn [scan]. unfold step_byte, stateInStringEsc, simple_escape. cbn [step sEsc].
  destruct (_ || _); [reflexivity|].
  destruct (Ascii.eqb e "u"); reflexivity.
Qed.

Lemma scan_sU_cons f next h X :
  step_byte (sU f) h = stateHex next (sU f) h ->
  scan (sU f) (String h X)
  = if is_hex h then scan (sU next) X else scan sErr X.
Proof.
  intros Hstep. cbn [scan]. rewrite Hstep. unfold stateHex.
  destruct (is_hex h); reflexivity.
Qed.

Lemma scan_sErr X : scan sErr X = sErr.
Proof. induction X as [|c X IH]; [reflexivity|]. cbn [scan]. exact IH. Qed.

Lemma scan_sEnd X : scan sEnd X <> sIn.
Proof. apply dead_not_sIn. split; [reflexivity | now left]. Qed.

Lemma scan_u4 h1 h2 h3 h4 X :
  scan (sU S_InStringEscU) (String h1 (String h2 (String h3 (String h4 X))))
  = if is_hex h1 && is_hex h2 && is_hex h3 && is_hex h4 then scan sIn X else sErr.
Proof.
  rewrite (scan_sU_cons _ S_InStringEscU1) by reflexivity.
  destruct (is_hex h1); [|apply scan_sErr].
  rewrite (scan_sU_cons _ S_InStringEscU12) by reflexivity.
  destruct (is_hex h2); [|apply scan_sErr].
  rewrite (scan_sU_cons _ S_InStringEscU123) by reflexivity.
  destruct (is_hex h3); [|apply scan_sErr].
  rewrite (scan_sU_cons _ S_InString) by reflexivity.
  destruct (is_hex h4); [reflexivity | apply scan_sErr].
Qed.

Lemma scan_u_short X :
  (String.length X < 4)%nat -> scan (sU S_InStringEscU) X <> sIn.
Proof.
  intros Hlen.
  destruct X as [|h1 [|h2 [|h3 [|h4 X]]]]; try (cbn in Hlen; lia); try discriminate.
  - rewrite (scan_sU_cons _ S_InStringEscU1) by reflexivity.
    destruct (is_hex h1); discriminate.
  - rewrite (scan_sU_cons _ S_InStringEscU1) by reflexivity.
    destruct (is_hex h1); [|discriminate].
    rewrite (scan_sU_cons _ S_InStringEscU12) by reflexivity.
    destruct (is_hex h2); discriminate.
  - rewrite (scan_sU_cons _ S_InStringEscU1) by reflexivity.
    destruct (is_hex h1); [|discriminate].
    rewrite (scan_sU_cons _ S_InStringEscU12) by reflexivity.
    destruct (is_hex h2); [|discriminate].
    rewrite (scan_sU_cons _ S_InStringEscU123) by reflexivity.
    destruct (is_hex h3); discriminate.
Qed.

Lemma getu4_spec b u h1 h2 h3 h4 X :
  0 <= getu4 (String b (String u (String h1 (String h2 (String h3 (String h4 X)))))) ->
  b = "\"%char /\ u = "u"%char
  /\ is_hex h1 = true /\ is_hex h2 = true /\ is_hex h3 = true /\ is_hex h4 = true.
Proof.
  unfold getu4.
  destruct (Ascii.eqb_spec b "\"); [|cbn; lia].
  destruct (Ascii.eqb_spec u "u"); [|cbn; lia].
  cbn [negb orb].
  destruct (Z.ltb_spec (hexval h1) 0); [cbn; lia|].
  destruct (Z.ltb_spec (hexval h2) 0); [cbn; lia|].
  destruct (Z.ltb_spec (hexval h3) 0); [cbn; lia|].
  destruct (Z.ltb_spec (hexval h4) 0); [cbn; lia|].
  intros _. rewrite !is_hex_hexval. repeat split; assumption.
Qed.

Lemma getu4_hex h1 h2 h3 h4 X :
  is_hex h1 = true -> is_hex h2 = true -> is_hex h3 = true -> is_hex h4 = true ->
  (getu4 (String "\" (String "u" (String h1 (String h2 (String h3 (String h4 X)))))) <? 0)
  = false.
Proof.
  rewrite !is_hex_hexval. intros H1 H2 H3 H4. unfold getu4.
  change (Ascii.eqb "\" "\") with true. change (Ascii.eqb "u" "u") with true.
  cbn [negb orb].
  destruct (Z.ltb_spec (hexval h1) 0); [lia|].
  destruct (Z.ltb_spec (hexval h2) 0); [lia|].
  destruct (Z.ltb_spec (hexval h3) 0); [lia|].
  destruct (Z.ltb_spec (hexval h4) 0); [lia|].
  cbn [orb]. apply Z.ltb_ge. lia.
Qed.

Lemma utf16_DecodeRune_valid r1 r2 :
  utf16_DecodeRune r1 r2 <> RuneError -> 0 <= r2.
Proof.
  unfold utf16_DecodeRune.
  destruct (Z.leb_spec 0xD800 r1), (Z.ltb_spec r1 0xDC00),
    (Z.leb_spec 0xDC00 r2), (Z.ltb_spec r2 0xE000); cbn [andb]; try congruence.
  lia.
Qed.

(** The body of a string literal that the scanner accepts is unquoted
    without error. *)
Lemma unquote_loop_total inner :
  scan sIn inner = sIn -> exists s, unquote_loop inner = Some s.
Proof.
  remember (String.length inner) as k eqn:Hk.
  revert inner Hk. induction k as [k IH] using lt_wf_ind. intros inner Hk Hscan.
  assert (IH' : forall rest, (String.length rest < k)%nat -> scan sIn rest = sIn ->
                  forall pre, exists s, option_app pre (unquote_loop rest) = Some s).
  { intros rest Hlt Hr pre. destruct (IH _ Hlt rest eq_refl Hr) as [s ->].
    cbn. eauto. }
  clear IH.
  destruct inner as [|c r1]; [eexists; reflexivity|].
  cbn [String.length] in Hk.
  destruct (Z.lt_ge_cases (b2z c) 0x80) as [Hlow|Hhigh].
  2:{ (* outside ASCII *)
    destruct (DecodeRune (String c r1)) as [r n] eqn:Hd.
    assert (Hne : String c r1 <> "") by discriminate.
    destruct (DecodeRune_size _ _ _ Hne Hd) as [Hn Hle].
    rewrite (high_unquote _ r n) by (cbn; auto).
    apply IH'.
    - rewrite length_drop. cbn [String.length]. lia.
    - rewrite <- (scan_high _ n r); auto. }
  rewrite scan_sIn_cons in Hscan. cbn [unquote_loop].
  destruct (Ascii.eqb_spec c "\") as [->|Hnb].
  - (* an escape *)
    change (Ascii.eqb "\" dquote) with false in Hscan. cbv iota in Hscan.
    destruct r1 as [|e r2]; [discriminate Hscan|].
    cbn [String.length] in Hk.
    rewrite scan_sEsc_cons in Hscan. unfold simple_escape in Hscan.
    destruct (Ascii.eqb e dquote) eqn:E1.
    { rewrite !orb_true_r in Hscan. cbn [orb]. apply IH'; [lia | assumption]. }
    destruct (Ascii.eqb e "\") eqn:E2.
    { rewrite ?orb_true_r, ?orb_true_l in Hscan. cbn [orb]. apply IH'; [lia | assumption]. }
    destruct (Ascii.eqb e "/") eqn:E3.
    { rewrite ?orb_true_r, ?orb_true_l in Hscan. cbn [orb]. apply IH'; [lia | assumption]. }
    rewrite !orb_false_r in Hscan.
    destruct (Ascii.eqb_spec e "'") as [->|_]; [rewrite scan_sErr in Hscan; discriminate|].
    cbn [orb].
    destruct (Ascii.eqb e "b") eqn:E4; [apply IH'; [lia | assumption]|].
    destruct (Ascii.eqb e "f") eqn:E5; [apply IH'; [lia | assumption]|].
    destruct (Ascii.eqb e "n") eqn:E6; [apply IH'; [lia | assumption]|].
    destruct (Ascii.eqb e "r") eqn:E7; [apply IH'; [lia | assumption]|].
    destruct (Ascii.eqb e "t") eqn:E8; [apply IH'; [lia | assumption]|].
    cbn [orb] in Hscan.
    destruct (Ascii.eqb_spec e "u") as [->|_];
      [|rewrite scan_sErr in Hscan; discriminate].
    (* \uXXXX *)
    destruct (Nat.lt_ge_cases (String.length r2) 4) as [Hshort|Hlong].
    { now apply scan_u_short in Hscan. }
    destruct r2 as [|h1 [|h2 [|h3 [|h4 r6]]]]; try (cbn in Hlong; lia).
    cbn [String.length] in Hk.
    rewrite scan_u4 in Hscan.
    destruct (is_hex h1) eqn:Hh1; [|discriminate].
    destruct (is_hex h2) eqn:Hh2; [|discriminate].
    destruct (is_hex h3) eqn:Hh3; [|discriminate].
    destruct (is_hex h4) eqn:Hh4; [|discriminate].
    cbn [andb] in Hscan.
    rewrite getu4_hex by assumption.
    destruct (IsSurrogate _); [|apply IH'; [lia | assumption]].
    destruct r6 as [|b [|u [|g1 [|g2 [|g3 [|g4 r12]]]]]];
      try (apply IH'; [cbn [String.length] in *; lia | assumption]).
    match goal with
    | |- context [negb (?d =? RuneError)] =>
        destruct (Z.eqb_spec d RuneError) as [_|Hdec]
    end; cbn [negb]; [apply IH'; [cbn [String.length] in *; lia | assumption]|].
    apply utf16_DecodeRune_valid, getu4_spec in Hdec
      as (-> & -> & Hg1 & Hg2 & Hg3 & Hg4).
    apply IH'; [cbn [String.length] in *; lia|].
    rewrite scan_sIn_cons in Hscan.
    change (Ascii.eqb "\" dquote) with false in Hscan.
    change (Ascii.eqb "\" "\") with true in Hscan. cbv iota in Hscan.
    rewrite scan_sEsc_cons in Hscan.
    change (simple_escape "u") with false in Hscan.
    change (Ascii.eqb "u" "u") with true in Hscan. cbv iota in Hscan.
    rewrite scan_u4, Hg1, Hg2, Hg3, Hg4 in Hscan. exact Hscan.
  - destruct (Ascii.eqb c dquote); [now apply scan_sEnd in Hscan|].
    destruct (b2z c <? 0x20); [rewrite scan_sErr in Hscan; discriminate|].
    cbn [orb].
    destruct (Z.ltb_spec (b2z c) RuneSelf); [|unfold RuneSelf in *; lia].
    apply IH'; [lia | assumption].
Qed.

Lemma is_hex_plain h :
  is_hex h = true -> Ascii.eqb h "\" = false /\ Ascii.eqb h dquote = false.
Proof.
  intros Hh. split.
  - destruct (Ascii.eqb_spec h "\") as [->|]; [discriminate | reflexivity].
  - destruct (Ascii.eqb_spec h dquote) as [->|]; [discriminate | reflexivity].
Qed.

(** A literal that the scanner reads to its end is a body, accepted as
    such, followed by the closing quote. *)
Lemma literal_split st rest :
  in_literal st -> eof (scan st rest) = true ->
  exists inner,
    rescan_string rest = inner ++ String dquote "" /\ scan st inner = sIn.
Proof.
  remember (String.length rest) as k eqn:Hk.
  revert st rest Hk. induction k as [k IH] using lt_wf_ind.
  intros st rest Hk Hst Heof.
  destruct rest as [|c rest].
  { destruct Hst as [->|[->|[->|[->| ->]]]]; discriminate. }
  cbn [String.length] in Hk.
  destruct Hst as [->|Hst].
  - rewrite scan_sIn_cons in Heof. cbn [rescan_string].
    destruct (Ascii.eqb_spec c "\") as [->|Hnb].
    + change (Ascii.eqb "\" dquote) with false in Heof. cbv iota in Heof.
      destruct rest as [|e rest]; [discriminate|].
      cbn [String.length] in Hk.
      rewrite scan_sEsc_cons in Heof.
      destruct (simple_escape e) eqn:He.
      * destruct (IH (String.length rest) ltac:(lia) sIn rest eq_refl
                    ltac:(now left) Heof) as (inner & Hr & Hs).
        exists (String "\" (String e inner)). rewrite Hr. split; [reflexivity|].
        rewrite scan_sIn_cons. change (Ascii.eqb "\" dquote) with false.
        change (Ascii.eqb "\" "\") with true. cbv iota.
        now rewrite scan_sEsc_cons, He.
      * destruct (Ascii.eqb_spec e "u") as [->|_];
          [|rewrite scan_sErr in Heof; discriminate].
        destruct (IH (String.length rest) ltac:(lia) (sU S_InStringEscU) rest eq_refl
                    ltac:(right; now left) Heof) as (inner & Hr & Hs).
        exists (String "\" (String "u" inner)). rewrite Hr. split; [reflexivity|].
        rewrite scan_sIn_cons. change (Ascii.eqb "\" dquote) with false.
        change (Ascii.eqb "\" "\") with true. cbv iota.
        rewrite scan_sEsc_cons. exact Hs.
    + destruct (Ascii.eqb c dquote) eqn:Hq.
      * apply Ascii.eqb_eq in Hq as ->. exists "". split; reflexivity.
      * destruct (b2z c <? 0x20) eqn:Hlt; [rewrite scan_sErr in Heof; discriminate|].
        destruct (IH (String.length rest) ltac:(lia) sIn rest eq_refl
                    ltac:(now left) Heof) as (inner & Hr & Hs).
        exists (String c inner). rewrite Hr. split; [reflexivity|].
        rewrite scan_sIn_cons, Hq, Hlt.
        destruct (Ascii.eqb_spec c "\"); [contradiction | exact Hs].
  - assert (Hstep : exists f next,
               st = sU f /\ step_byte (sU f) c = stateHex next (sU f) c
               /\ in_literal (sU next)).
    { destruct Hst as [->|[->|[->| ->]]].
      - exists S_InStringEscU, S_InStringEscU1. repeat split. right; right; now left.
      - exists S_InStringEscU1, S_InStringEscU12. repeat split. right; right; right; now left.
      - exists S_InStringEscU12, S_InStringEscU123. repeat split. right; right; right; now right.
      - exists S_InStringEscU123, S_InString. repeat split. now left. }
    destruct Hstep as (f & next & -> & Hstep & Hnext).
    rewrite (scan_sU_cons f next) in Heof by assumption.
    destruct (is_hex c) eqn:Hc; [|rewrite scan_sErr in Heof; discriminate].
    destruct (is_hex_plain c Hc) as [Hb Hq].
    destruct (IH (String.length rest) ltac:(lia) (sU next) rest eq_refl Hnext Heof)
      as (inner & Hr & Hs).
    exists (String c inner). cbn [rescan_string]. rewrite Hb, Hq, Hr.
    split; [reflexivity|].
    now rewrite (scan_sU_cons f next), Hc by assumption.
Qed.

Lemma scan_skip_space data : scan reset data = scan reset (skip_space data).
Proof.
  induction data as [|c data IH]; [reflexivity|].
  cbn [skip_space]. destruct (isSpace c) eqn:Hc; [|reflexivity].
  cbn [scan]. rewrite <- IH. f_equal.
  unfold step_byte, stateBeginValue. cbn [step reset]. now rewrite Hc.
Qed.

Lemma unquoteBytes_quoted inner :
  unquoteBytes (String dquote (inner ++ String dquote "")) = unquote_loop inner.
Proof.
  unfold unquoteBytes.
  replace (len (String dquote (inner ++ String dquote "")) <? 2) with false.
  2:{ symmetry. apply Z.ltb_ge. unfold len. cbn [String.length].
      rewrite length_append. cbn [String.length]. lia. }
  change (Ascii.eqb dquote dquote) with true.
  cbn [last_byte].
  destruct (inner ++ String dquote "") eqn:Hb.
  { destruct inner; discriminate. }
  rewrite <- Hb. rewrite last_byte_app, remove_last_app.
  change (Ascii.eqb dquote dquote) with true. reflexivity.
Qed.

(** Valid JSON that starts with a quote decodes into a string. *)
Lemma valid_string_literal data rest :
  checkValid data = true -> skip_space data = String dquote rest ->
  exists s, unquoteBytes (String dquote (rescan_string rest)) = Some s.
Proof.
  unfold checkValid. intros Hv Hsk.
  rewrite scan_skip_space, Hsk in Hv. cbn [scan] in Hv.
  change (step_byte reset dquote) with sIn in Hv.
  destruct (literal_split sIn rest ltac:(now left) Hv) as (inner & -> & Hs).
  rewrite unquoteBytes_quoted. now apply unquote_loop_total.
Qed.
End StringLiterals.

(** ** The static ID field *)

Section StaticID.
Import go_utf8 go_json go_strings types spec.

Lemma Unmarshal_string_kind data :
  match kind_of data with
  | Some JString => exists s, Unmarshal_string data = Ok s
  | Some JNull => Unmarshal_string data = Ok ""
  | _ => is_ok (Unmarshal_string data) = false
  end.
Proof.
  unfold kind_of, Unmarshal_string.
  destruct (checkValid data) eqn:Hv; [|reflexivity]. cbn [negb].
  destruct (skip_space data) as [|c rest] eqn:Hsk; [reflexivity|].
  destruct (Ascii.eqb_spec c "{") as [->|_]; [reflexivity|].
  destruct (Ascii.eqb_spec c "[") as [->|_]; [reflexivity|].
  destruct (Ascii.eqb_spec c dquote) as [->|_].
  { destruct (valid_string_literal data rest Hv Hsk) as [s ->]. eauto. }
  destruct (Ascii.eqb_spec c "t") as [->|_]; [reflexivity|].
  destruct (Ascii.eqb_spec c "f") as [->|_]; [reflexivity|].
  cbn [orb].
  destruct (Ascii.eqb_spec c "n") as [->|_]; reflexivity.
Qed.

Lemma Unmarshal_map_kind data :
  match kind_of data with
  | Some JObject => is_ok (Unmarshal_map data) = numbers_fit data
  | Some JNull => is_ok (Unmarshal_map data) = true
  | _ => is_ok (Unmarshal_map data) = false
  end.
Proof.
  unfold kind_of, Unmarshal_map, numbers_fit.
  destruct (checkValid data) eqn:Hv; [|reflexivity]. cbn [negb].
  destruct (skip_space data) as [|c rest] eqn:Hsk; [reflexivity|].
  destruct (Ascii.eqb_spec c "{") as [->|_].
  { change (Ascii.eqb "{" "{") with true. cbv iota.
    now destruct (forallb convertNumber_ok (number_literals data)). }
  destruct (Ascii.eqb_spec c "[") as [->|_]; [reflexivity|].
  destruct (Ascii.eqb_spec c dquote) as [->|_]; [reflexivity|].
  destruct (Ascii.eqb_spec c "t") as [->|_]; [reflexivity|].
  destruct (Ascii.eqb_spec c "f") as [->|_]; [reflexivity|].
  cbn [orb].
  destruct (Ascii.eqb_spec c "n") as [->|Hn]; reflexivity.
Qed.

Lemma UnmarshalJSON_kind data :
  match kind_of data with
  | Some JString =>
      exists s, Unmarshal_string data = Ok s
                /\ UnmarshalJSON data = Ok (StaticIDField.mk s)
  | Some JNull => UnmarshalJSON data = Ok (StaticIDField.mk "")
  | Some JObject =>
      UnmarshalJSON data
      = if numbers_fit data then Ok (StaticIDField.mk "") else Err static_id_error
  | _ => UnmarshalJSON data = Err static_id_error
  end.
Proof.
  pose proof (Unmarshal_string_kind data) as Hs.
  pose proof (Unmarshal_map_kind data) as Hm.
  unfold UnmarshalJSON.
  destruct (kind_of data) as [[]|].
  - destruct (Unmarshal_string data); [discriminate|].
    destruct (Unmarshal_map data); cbn in Hm; rewrite <- Hm; reflexivity.
  - destruct (Unmarshal_string data); [discriminate|].
    destruct (Unmarshal_map data); [discriminate | reflexivity].
  - destruct Hs as [s Hs]. rewrite Hs. eauto.
  - destruct (Unmarshal_string data); [discriminate|].
    destruct (Unmarshal_map data); [discriminate | reflexivity].
  - destruct (Unmarshal_string data); [discriminate|].
    destruct (Unmarshal_map data); [discriminate | reflexivity].
  - now rewrite Hs.
  - destruct (Unmarshal_string data); [discriminate|].
    destruct (Unmarshal_map data); [discriminate | reflexivity].
Qed.

(** C9, amended. [StaticIDField.UnmarshalJSON] decodes a JSON string to
    its value, and JSON null and every JSON object whose numbers fit a
    [float64] to the empty string; an object with keys is accepted. It
    fails exactly on input that is not valid JSON, on arrays, numbers and
    booleans, and on objects holding a number that does not fit. *)
Theorem UnmarshalJSON_accepts (data : string) :
  match kind_of data with
  | Some JString =>
      exists s, Unmarshal_string data = Ok s
                /\ UnmarshalJSON data = Ok (StaticIDField.mk s)
  | Some JNull => UnmarshalJSON data = Ok (StaticIDField.mk "")
  | Some JObject =>
      UnmarshalJSON data
      = if numbers_fit data then Ok (StaticIDField.mk "") else Err static_id_error
  | Some JArray | Some JNumber | Some JBool | None =>
      UnmarshalJSON data = Err static_id_error
  end
  /\ (is_ok (UnmarshalJSON data) = false <->
      kind_of data = None \/ kind_of data = Some JArray
      \/ kind_of data = Some JNumber \/ kind_of data = Some JBool
      \/ (kind_of data = Some JObject /\ numbers_fit data = false))
  /\ (kind_of object_a_1 = Some JObject
      /\ UnmarshalJSON object_a_1 = Ok (StaticIDField.mk ""))
  /\ (kind_of "null" = Some JNull
      /\ UnmarshalJSON "null" = Ok (StaticIDField.mk ""))
  /\ (kind_of object_a_1e999 = Some JObject
      /\ UnmarshalJSON object_a_1e999 = Err static_id_error).
Proof.
  split; [apply UnmarshalJSON_kind|].
  split; [|repeat split; vm_compute; reflexivity].
  pose proof (UnmarshalJSON_kind data) as Hk.
  destruct (kind_of data) as [[]|].
  - rewrite Hk. destruct (numbers_fit data); cbn; split; intros H;
      try discriminate; auto 10.
    + destruct H as [H|[H|[H|[H|[_ H]]]]]; discriminate.
  - rewrite Hk. cbn. split; auto.
  - destruct Hk as (s & _ & ->). cbn. split; [discriminate|].
    intros [H|[H|[H|[H|[H _]]]]]; discriminate.
  - rewrite Hk. cbn. split; auto.
  - rewrite Hk. cbn. split; auto 10.
  - rewrite Hk. cbn. split; [discriminate|].
    intros [H|[H|[H|[H|[H _]]]]]; discriminate.
  - rewrite Hk. cbn. split; auto.
Qed.

(** C9 as stated fails: [null] is neither a JSON string nor a JSON object,
    and decoding it succeeds. *)
Lemma UnmarshalJSON_accepts_null : ~ static_id_decode_claim.
Proof.
  intros Hclaim.
  destruct (Hclaim "null") as [_ [_ Hfail]].
  assert (Hk : kind_of "null" = Some JNull) by (vm_compute; reflexivity).
  rewrite Hk in Hfail.
  discriminate Hfail. split; discriminate.
Qed.

(** C2, amended. Decoding tries the raw value as a string, then as an
    object standing for the empty string, and fails when both fail;
    encoding writes the empty object for the empty string and the JSON
    string otherwise. For every string [s] that is valid UTF-8, decoding
    the encoding of [s] gives [s] back. *)
Theorem StaticIDField_round_trip (s data : string) :
  UnmarshalJSON data
  = match Unmarshal_string data with
    | Ok str => Ok (StaticIDField.mk str)
    | Err _ =>
        match Unmarshal_map data with
        | Ok _ => Ok (StaticIDField.mk "")
        | Err _ => Err static_id_error
        end
    end
  /\ MarshalJSON (StaticIDField.mk s)
     = (if String.eqb s "" then Ok "{}" else Ok (appendString s))
  /\ (ValidString s = true ->
      exists d, MarshalJSON (StaticIDField.mk s) = Ok d
                /\ UnmarshalJSON d = Ok (StaticIDField.mk s)).
Proof.
  split; [reflexivity|]. split; [reflexivity|].
  intros Hv. unfold MarshalJSON. cbn [StaticIDField.Value].
  destruct (String.eqb_spec s "") as [->|Hne].
  - exists "{}". split; [reflexivity | vm_compute; reflexivity].
  - exists (appendString s). split; [reflexivity|].
    unfold UnmarshalJSON. now rewrite Unmarshal_string_appendString.
Qed.

(** C2 as stated fails: the string of the single byte 0xFF is encoded as
    the replacement character and does not come back. *)
Lemma StaticIDField_round_trip_invalid_utf8 : ~ static_id_round_trip_claim.
Proof.
  intros Hclaim. destruct (Hclaim (String (z2b 255) "")) as (d & Hm & Hu).
  injection Hm as <-. vm_compute in Hu. discriminate Hu.
Qed.
End StaticID.

Lemma StaticIDField_round_trip_witness :
  exists d, types.MarshalJSON (types.StaticIDField.mk "ABC_12345") = Ok d
            /\ types.UnmarshalJSON d = Ok (types.StaticIDField.mk "ABC_12345").
Proof.
  apply (proj2 (proj2 (StaticIDField_round_trip "ABC_12345" ""))). reflexivity.
Defined.

(** ** Request validation *)

Section Validation.
Import types client spec.

Lemma out_of_spec lo hi v : out_of lo hi v = (v <? lo) || (v >? hi).
Proof.
  unfold out_of, in_range.
  destruct (Z.leb_spec lo v), (Z.leb_spec v hi), (Z.ltb_spec v lo);
    rewrite ?Z.gtb_ltb; destruct (Z.ltb_spec hi v); simpl; try reflexivity; lia.
Qed.

(** C3. The client-side validator returns the first failure of the seven
    checks, taken in the fixed order origin missing, destination missing,
    aircraft missing, origin length, destination length, departure hour,
    departure minute (the last two only for a non-zero value), and success
    when none fails. A request without origin and without destination
    reports the origin error, which is not the destination error. Lengths
    are counted in bytes, as [len] does. *)
Theorem ValidateFlightPlanRequest_first_failure (req : FlightPlanRequest.t) :
  ValidateFlightPlanRequest req = first_failure validation_rules req
  /\ (FlightPlanRequest.Origin req = "" ->
      FlightPlanRequest.Destination req = "" ->
      ValidateFlightPlanRequest req
        = Some (errorString "origin airport (orig) is required")
      /\ ValidateFlightPlanRequest req
        <> Some (errorString "destination airport (dest) is required")).
Proof.
  split.
  - unfold ValidateFlightPlanRequest, validation_rules, first_failure.
    rewrite !out_of_spec.
    repeat match goal with
           | |- (if ?b then _ else _) = (if ?b then _ else _) =>
               destruct b; [reflexivity|]
           end.
    reflexivity.
  - intros Ho _. unfold ValidateFlightPlanRequest. rewrite Ho. simpl.
    split; [reflexivity | discriminate].
Qed.

Lemma ValidateFlightPlanRequest_first_failure_witness :
  ValidateFlightPlanRequest (NewFlightPlanRequest "" "" "B738")
    = Some (errorString "origin airport (orig) is required")
  /\ ValidateFlightPlanRequest (NewFlightPlanRequest "" "" "B738")
    <> Some (errorString "destination airport (dest) is required").
Proof.
  apply (proj2 (ValidateFlightPlanRequest_first_failure
                  (NewFlightPlanRequest "" "" "B738"))); reflexivity.
Defined.

(** C10. [FlightPlanRequest.Validate] checks only that origin,
    destination and aircraft are non-empty: it returns nil exactly for the
    requests that have all three. It accepts requests that
    [Client.ValidateFlightPlanRequest] rejects for the length of an
    airport code or for the departure hour or minute. *)
Theorem Validate_required_fields_only (req : FlightPlanRequest.t) :
  (FlightPlanRequest.Origin req <> "" ->
   FlightPlanRequest.Destination req <> "" ->
   FlightPlanRequest.Aircraft req <> "" ->
   Validate req = None)
  /\ (Validate req = None ->
      FlightPlanRequest.Origin req <> ""
      /\ FlightPlanRequest.Destination req <> ""
      /\ FlightPlanRequest.Aircraft req <> "")
  /\ (let r := NewFlightPlanRequest "JFK" "KLAX" "B738" in
      Validate r = None /\ ValidateFlightPlanRequest r
        = Some (errorString "origin airport code must be 4 characters (ICAO format)"))
  /\ (let r := NewFlightPlanRequest "KJFK" "LAX" "B738" in
      Validate r = None /\ ValidateFlightPlanRequest r
        = Some (errorString "destination airport code must be 4 characters (ICAO format)"))
  /\ (let r := Build (DepartureTime 25 0 (NewFlightPlan "KJFK" "KLAX" "B738")) in
      Validate r = None /\ ValidateFlightPlanRequest r
        = Some (errorString "departure hour must be between 0 and 23"))
  /\ (let r := Build (DepartureTime 10 60 (NewFlightPlan "KJFK" "KLAX" "B738")) in
      Validate r = None /\ ValidateFlightPlanRequest r
        = Some (errorString "departure minute must be between 0 and 59")).
Proof.
  unfold Validate.
  split; [|split; [|repeat split]].
  - intros Ho Hd Ha.
    apply String.eqb_neq in Ho, Hd, Ha. rewrite Ho, Hd, Ha. reflexivity.
  - destruct (String.eqb_spec (FlightPlanRequest.Origin req) ""); [discriminate|].
    destruct (String.eqb_spec (FlightPlanRequest.Destination req) ""); [discriminate|].
    destruct (String.eqb_spec (FlightPlanRequest.Aircraft req) ""); [discriminate|].
    auto.
Qed.

Lemma Validate_required_fields_only_witness :
  Validate (NewFlightPlanRequest "JFK" "KLAX" "B738") = None.
Proof.
  apply (proj1 (Validate_required_fields_only
                  (NewFlightPlanRequest "JFK" "KLAX" "B738"))); discriminate.
Defined.

End Validation.

(** ** Time and duration strings *)

Section TimeStrings.
Import client.

Lemma wrap_small z : - 2 ^ 63 <= z < 2 ^ 63 -> wrap z = z.
Proof.
  intros Hz. unfold wrap.
  rewrite Z.mod_small; lia.
Qed.

Lemma ParseTimeString_Ok_inv timeStr hour minute :
  ParseTimeString timeStr = Ok (hour, minute) ->
  exists p0 p1,
    go_strings.Split timeStr ":" = [p0; p1]
    /\ go_strconv.Atoi p0 = Ok hour /\ go_strconv.Atoi p1 = Ok minute
    /\ 0 <= hour <= 23 /\ 0 <= minute <= 59.
Proof.
  unfold ParseTimeString.
  destruct (go_strings.Split timeStr ":") as [|p0 [|p1 [|p2 l]]]; try discriminate.
  destruct (go_strconv.Atoi p0) as [h|] eqn:Hh; try discriminate.
  destruct (go_strconv.Atoi p1) as [m|] eqn:Hm; try discriminate.
  destruct (Z.ltb_spec h 0); simpl; try discriminate.
  rewrite Z.gtb_ltb.
  destruct (Z.ltb_spec 23 h); simpl; try discriminate.
  destruct (Z.ltb_spec m 0); simpl; try discriminate.
  rewrite Z.gtb_ltb.
  destruct (Z.ltb_spec 59 m); simpl; try discriminate.
  intros [= <- <-]. exists p0, p1. repeat split; auto; lia.
Qed.

(** C6. The time-string parser returns [(hour, minute)] exactly when the
    string splits on [:] into two parts, both parts are accepted by
    [strconv.Atoi], with values [hour] in [0, 23] and [minute] in [0, 59].
    [25:30] fails with the hour-range error, [14:60] with the minute-range
    error, [14:30] yields (14, 30). *)
Theorem ParseTimeString_spec (timeStr : string) (hour minute : Z) :
  (ParseTimeString timeStr = Ok (hour, minute) <->
   exists p0 p1,
     go_strings.Split timeStr ":" = [p0; p1]
     /\ go_strconv.Atoi p0 = Ok hour /\ go_strconv.Atoi p1 = Ok minute
     /\ 0 <= hour <= 23 /\ 0 <= minute <= 59)
  /\ ParseTimeString "25:30" = Err (errorString "hour must be between 0 and 23")
  /\ ParseTimeString "14:60" = Err (errorString "minute must be between 0 and 59")
  /\ ParseTimeString "14:30" = Ok (14, 30).
Proof.
  split; [|repeat split].
  split.
  - apply ParseTimeString_Ok_inv.
  - intros (p0 & p1 & Hs & Hh & Hm & Hhr & Hmr).
    unfold ParseTimeString. rewrite Hs, Hh, Hm.
    destruct (Z.ltb_spec hour 0); [lia|].
    rewrite Z.gtb_ltb.
    destruct (Z.ltb_spec 23 hour); [lia|].
    destruct (Z.ltb_spec minute 0); [lia|].
    rewrite Z.gtb_ltb.
    destruct (Z.ltb_spec 59 minute); [lia|].
    reflexivity.
Qed.

Lemma ParseTimeString_spec_witness : ParseTimeString "23:59" = Ok (23, 59).
Proof.
  apply (proj1 (ParseTimeString_spec "23:59" 23 59)).
  exists "23", "59". repeat split; try reflexivity; lia.
Defined.

(** The parser never fails for a reason other than the four the code
    names, and the reason is decided in the order of the code. *)
Lemma ParseTimeString_failure timeStr e :
  ParseTimeString timeStr = Err e ->
  (List.length (go_strings.Split timeStr ":") <> 2%nat
   /\ e = errorString "invalid time format, expected HH:MM")
  \/ (exists p0 p1, go_strings.Split timeStr ":" = [p0; p1]
        /\ ((is_ok (go_strconv.Atoi p0) = false /\ e = errorString ("invalid hour: " ++ p0))
            \/ (is_ok (go_strconv.Atoi p0) = true
                /\ is_ok (go_strconv.Atoi p1) = false
                /\ e = errorString ("invalid minute: " ++ p1))
            \/ (exists h m, go_strconv.Atoi p0 = Ok h /\ go_strconv.Atoi p1 = Ok m
                  /\ ((~ 0 <= h <= 23 /\ e = errorString "hour must be between 0 and 23")
                      \/ (0 <= h <= 23 /\ ~ 0 <= m <= 59
                          /\ e = errorString "minute must be between 0 and 59"))))).
Proof.
  unfold ParseTimeString.
  destruct (go_strings.Split timeStr ":") as [|p0 [|p1 [|p2 l]]];
    try (intros [= <-]; left; split; [simpl; lia | reflexivity]).
  intros He. right. exists p0, p1. split; [reflexivity|].
  destruct (go_strconv.Atoi p0) as [h|] eqn:Hh.
  2:{ injection He as <-. left. auto. }
  destruct (go_strconv.Atoi p1) as [m|] eqn:Hm.
  2:{ injection He as <-. right. left. auto. }
  right. right. exists h, m. repeat split; auto.
  rewrite !Z.gtb_ltb in He.
  destruct (Z.ltb_spec h 0); simpl in He.
  { injection He as <-. left. split; [lia | reflexivity]. }
  destruct (Z.ltb_spec 23 h); simpl in He.
  { injection He as <-. left. split; [lia | reflexivity]. }
  destruct (Z.ltb_spec m 0); simpl in He.
  { injection He as <-. right. repeat split; try lia. }
  destruct (Z.ltb_spec 59 m); simpl in He.
  { injection He as <-. right. repeat split; try lia. }
  discriminate.
Qed.

(** Every duration that [ParseDuration] accepts is shorter than a day. *)
Lemma ParseDuration_Ok_inv durationStr total :
  ParseDuration durationStr = Ok total ->
  exists hour minute,
    ParseTimeString durationStr = Ok (hour, minute)
    /\ 0 <= hour <= 23 /\ 0 <= minute <= 59
    /\ total = hour * 60 + minute.
Proof.
  unfold ParseDuration.
  destruct (ParseTimeString durationStr) as [[h m]|] eqn:Hp; [|discriminate].
  intros [= <-].
  destruct (ParseTimeString_Ok_inv _ _ _ Hp) as (p0 & p1 & _ & _ & _ & Hh & Hm).
  exists h, m. repeat split; try lia.
  rewrite (wrap_small (h * 60)) by lia.
  apply wrap_small. lia.
Qed.

(** C4. [ParseDuration] goes through [ParseTimeString] and inherits its
    wall-clock check of the hour: the duration string [25:00] is rejected
    with the hour-range error, although [FormatDuration] writes 1500
    minutes as [25:00]. *)
Theorem ParseDuration_rejects_over_23_hours :
  ParseDuration "25:00" = Err (errorString "hour must be between 0 and 23")
  /\ FormatDuration 1500 = "25:00"
  /\ ParseDuration (FormatDuration 1500)
     = Err (errorString "hour must be between 0 and 23")
  /\ ParseDuration "23:59" = Ok 1439.
Proof. repeat split. Qed.

End TimeStrings.

(** ** Flight levels *)

Section FlightLevels.
Import client spec.
Context `{GoTables}.

Lemma forallb_range (P : Z -> bool) (n : nat) :
  forallb P (map Z.of_nat (seq 0 n)) = true ->
  forall z, 0 <= z < Z.of_nat n -> P z = true.
Proof.
  intros Hall z Hz.
  rewrite forallb_forall in Hall. apply Hall.
  apply in_map_iff. exists (Z.to_nat z). split; [lia|].
  apply in_seq. lia.
Qed.

Lemma flight_level_round_trip_all :
  forallb flight_level_round_trip (map Z.of_nat (seq 0 1000)) = true.
Proof. vm_compute. reflexivity. Qed.

Lemma FormatFlightLevel_quot feet :
  FormatFlightLevel feet = FormatFlightLevel (Z.quot feet 100 * 100).
Proof.
  unfold FormatFlightLevel. now rewrite Z.quot_mul by lia.
Qed.

(** C5. For every flight level [N] in [0, 999], and every altitude [feet]
    whose integer quotient by 100 is [N] (in particular [N * 100]), the
    formatter returns [FL] followed by [N] padded with zeros to three
    digits, and the parser reads that text back as [N * 100] feet. *)
Theorem ParseFlightLevel_FormatFlightLevel (N feet : Z) :
  0 <= N <= 999 ->
  Z.quot feet 100 = N ->
  FormatFlightLevel feet = "FL" ++ go_fmt.Sprintf_0d 3 N
  /\ String.length (go_fmt.Sprintf_0d 3 N) = 3%nat
  /\ ParseFlightLevel (FormatFlightLevel feet) = Ok (N * 100).
Proof.
  intros HN Hq.
  rewrite FormatFlightLevel_quot, Hq.
  pose proof (forallb_range _ _ flight_level_round_trip_all N ltac:(lia)) as Hrt.
  unfold flight_level_round_trip in Hrt.
  apply andb_prop in Hrt as [Hrt Hparse].
  apply andb_prop in Hrt as [Hfmt Hlen].
  apply String.eqb_eq in Hfmt. apply Nat.eqb_eq in Hlen.
  repeat split; auto.
  destruct (ParseFlightLevel (FormatFlightLevel (N * 100))); [|discriminate].
  apply Z.eqb_eq in Hparse. now subst.
Qed.

End FlightLevels.

Lemma ParseFlightLevel_FormatFlightLevel_witness :
  client.FormatFlightLevel 34050 = "FL340"
  /\ String.length (go_fmt.Sprintf_0d 3 340) = 3%nat
  /\ @client.ParseFlightLevel spec.no_tables (client.FormatFlightLevel 34050) = Ok 34000.
Proof.
  apply (@ParseFlightLevel_FormatFlightLevel spec.no_tables 340 34050);
    [lia | reflexivity].
Defined.

(** * Further properties *)

(** ** Integers and their decimal text *)

Section Integers.
Import go_strconv go_fmt.

(** The digits of a positive number, read back by the fast loop. *)
Lemma fast_loop_uint_acc (d : Decimal.uint) (acc : positive) :
  Atoi_fast_loop (Z.pos acc) (NilEmpty.string_of_uint d)
  = Ok (Z.pos (Pos.of_uint_acc d acc)).
Proof.
  revert acc. induction d; intros acc; cbn [NilEmpty.string_of_uint Atoi_fast_loop Pos.of_uint_acc];
    [reflexivity|..];
    (change (is_digit _) with true; cbv iota;
     match goal with
     | |- Atoi_fast_loop ?n _ = _ =>
         match goal with
         | |- _ = Ok (Z.pos (Pos.of_uint_acc _ ?a)) =>
             replace n with (Z.pos a) by (vm_compute (b2z _); lia)
         end
     end; apply IHd).
Qed.

Lemma fast_loop_uint (d : Decimal.uint) :
  Atoi_fast_loop 0 (NilEmpty.string_of_uint d) = Ok (Z.of_N (Pos.of_uint d)).
Proof.
  induction d; cbn [NilEmpty.string_of_uint Atoi_fast_loop Pos.of_uint];
    [reflexivity|..];
    change (is_digit _) with true; cbv iota;
    [exact IHd|..];
    (match goal with
     | |- Atoi_fast_loop ?n _ = Ok (Z.of_N (N.pos (Pos.of_uint_acc _ ?a))) =>
         change n with (Z.pos a)
     end; apply fast_loop_uint_acc).
Qed.

Lemma Itoa_pos (p : positive) :
  Itoa (Z.pos p) = NilEmpty.string_of_uint (Pos.to_uint p).
Proof.
  unfold Itoa. cbn [Z.to_int NilZero.string_of_int NilZero.string_of_uint].
  pose proof (Unsigned.to_uint_nonnil p).
  destruct (Pos.to_uint p); try reflexivity. congruence.
Qed.

Lemma Itoa_neg (p : positive) : Itoa (Z.neg p) = String "-" (Itoa (Z.pos p)).
Proof.
  rewrite Itoa_pos.
  unfold Itoa. cbn [Z.to_int NilZero.string_of_int NilZero.string_of_uint].
  pose proof (Unsigned.to_uint_nonnil p).
  destruct (Pos.to_uint p); try reflexivity. congruence.
Qed.

(** The digits that [Itoa] writes for a natural number are read back by
    the digit loop. *)
Lemma fast_loop_Itoa (n : Z) : 0 <= n -> Atoi_fast_loop 0 (Itoa n) = Ok n.
Proof.
  intros Hn. destruct n as [|p|p]; [reflexivity| |lia].
  rewrite Itoa_pos, fast_loop_uint, DecimalPos.Unsigned.of_to. reflexivity.
Qed.

Lemma fast_loop_zeros (k : nat) (s : string) :
  Atoi_fast_loop 0 (zeros k ++ s) = Atoi_fast_loop 0 s.
Proof.
  induction k as [|k IH]; [reflexivity|].
  cbn [zeros]. rewrite append_cons. cbn [Atoi_fast_loop].
  change (is_digit "0") with true. cbv iota. exact IH.
Qed.

(** The fast loop never yields a negative number from a natural one, and
    only grows. *)
Lemma fast_loop_mono (s : string) (n v : Z) :
  0 <= n -> Atoi_fast_loop n s = Ok v -> n <= v.
Proof.
  revert n. induction s as [|c s IH]; intros n Hn; cbn [Atoi_fast_loop].
  - intros [= <-]. lia.
  - destruct (is_digit c) eqn:Hd; [|discriminate].
    intros Hv. apply IH in Hv.
    + unfold is_digit, in_range in Hd. lia.
    + unfold is_digit, in_range in Hd. lia.
Qed.

(** The checked loop of [ParseUint] agrees with the fast loop as long as
    the value fits 64 bits. *)
Lemma ParseUint_loop_fast (s : string) (n v : Z) :
  0 <= n -> Atoi_fast_loop n s = Ok v -> v <= maxUint64 ->
  ParseUint_loop n s = Ok v.
Proof.
  revert n. induction s as [|c s IH]; intros n Hn; cbn [Atoi_fast_loop ParseUint_loop].
  - auto.
  - destruct (is_digit c) eqn:Hd; [|discriminate].
    intros Hv Hmax.
    assert (Hc : 0 <= b2z c - 48 <= 9) by (unfold is_digit, in_range in Hd; lia).
    assert (Hle : n * 10 + (b2z c - 48) <= v)
      by (apply (fast_loop_mono s); [lia | exact Hv]).
    unfold cutoff10, maxUint64 in *.
    change (2 ^ 64 - 1) with 18446744073709551615 in *.
    change (18446744073709551615 / 10 + 1) with 1844674407370955162.
    destruct (Z.geb_spec n 1844674407370955162); [lia|].
    cbv zeta.
    destruct (Z.gtb_spec (n * 10 + (b2z c - 48)) 18446744073709551615); [lia|].
    apply IH; auto. lia.
Qed.

Lemma fast_loop_head (c : ascii) (s : string) (n v : Z) :
  Atoi_fast_loop n (String c s) = Ok v -> is_digit c = true.
Proof.
  cbn [Atoi_fast_loop]. destruct (is_digit c); [reflexivity | discriminate].
Qed.

Lemma digit_not_sign (c : ascii) :
  is_digit c = true -> Ascii.eqb c "-" = false /\ Ascii.eqb c "+" = false.
Proof.
  intros Hd. split; destruct (Ascii.eqb_spec c "-"), (Ascii.eqb_spec c "+");
    subst; try reflexivity; discriminate Hd.
Qed.

(** [Atoi] on a non-empty string of digits. *)
Lemma Atoi_digits (s : string) (v : Z) :
  s <> "" -> Atoi_fast_loop 0 s = Ok v -> v < 2 ^ 63 -> Atoi s = Ok v.
Proof.
  intros Hne Hv Hlt.
  destruct s as [|c s]; [congruence|].
  pose proof (fast_loop_head _ _ _ _ Hv) as Hd.
  destruct (digit_not_sign _ Hd) as [Hm Hp].
  unfold Atoi.
  destruct ((0 <? len (String c s)) && (len (String c s) <? 19)).
  - rewrite Hm, Hp. cbn [orb andb]. rewrite Hv. reflexivity.
  - unfold ParseInt. rewrite Hm, Hp. cbn [orb andb negb].
    unfold ParseUint. cbn [String.eqb].
    rewrite (ParseUint_loop_fast _ 0 v); auto; try lia.
    + unfold intSize. change (2 ^ (64 - 1)) with (2 ^ 63).
      destruct (Z.geb_spec v (2 ^ 63)); [lia | reflexivity].
    + unfold maxUint64. lia.
Qed.

(** [Atoi] on a minus sign followed by digits. *)
Lemma Atoi_minus_digits (s : string) (v : Z) :
  s <> "" -> Atoi_fast_loop 0 s = Ok v -> v <= 2 ^ 63 ->
  Atoi (String "-" s) = Ok (- v).
Proof.
  intros Hne Hv Hle.
  unfold Atoi.
  destruct ((0 <? len (String "-" s)) && (len (String "-" s) <? 19)).
  - cbn [Ascii.eqb Bool.eqb orb andb].
    replace (len s <? 1) with false.
    + rewrite Hv. reflexivity.
    + symmetry. apply Z.ltb_ge. unfold len. destruct s; [congruence|].
      cbn [String.length]. lia.
  - unfold ParseInt. cbn [Ascii.eqb Bool.eqb orb andb negb].
    unfold ParseUint.
    destruct s as [|c s]; [congruence|]. cbn [String.eqb].
    assert (Hpos : 0 <= v) by (apply (fast_loop_mono (String c s)); [lia | exact Hv]).
    rewrite (ParseUint_loop_fast _ 0 v); auto; try lia.
    + unfold intSize. change (2 ^ (64 - 1)) with (2 ^ 63).
      destruct (Z.gtb_spec v (2 ^ 63)); [lia | reflexivity].
    + unfold maxUint64. lia.
Qed.

Lemma Itoa_nonempty (n : Z) : 0 <= n -> Itoa n <> "".
Proof.
  intros Hn Hs. pose proof (fast_loop_Itoa n Hn) as H.
  destruct n as [|p|p]; [discriminate Hs| |lia].
  rewrite Hs in H. discriminate H.
Qed.

(** [strconv.Atoi] reads back what [strconv.Itoa] writes. *)
Lemma Atoi_Itoa (n : Z) : - 2 ^ 63 <= n < 2 ^ 63 -> Atoi (Itoa n) = Ok n.
Proof.
  intros Hn. destruct n as [|p|p].
  - reflexivity.
  - apply Atoi_digits; [apply Itoa_nonempty; lia | apply fast_loop_Itoa; lia | lia].
  - rewrite Itoa_neg.
    change (Z.neg p) with (- Z.pos p).
    apply Atoi_minus_digits; [apply Itoa_nonempty; lia | apply fast_loop_Itoa; lia | lia].
Qed.

(** [strconv.Atoi] reads back what the verb [%0Wd] writes. *)
Lemma Atoi_Sprintf_0d (W : nat) (n : Z) :
  - 2 ^ 63 <= n < 2 ^ 63 -> Atoi (Sprintf_0d W n) = Ok n.
Proof.
  intros Hn. unfold Sprintf_0d.
  assert (Hne : forall k, zeros k ++ Itoa (Z.abs n) <> "").
  { intros k Hs. pose proof (Itoa_nonempty (Z.abs n) ltac:(lia)).
    destruct k; [rewrite append_nil_l in Hs; congruence|].
    cbn [zeros] in Hs. rewrite append_cons in Hs. discriminate. }
  destruct (Z.ltb_spec n 0).
  - replace n with (- Z.abs n) at 3 by lia.
    apply Atoi_minus_digits; auto; [|lia].
    rewrite fast_loop_zeros. apply fast_loop_Itoa. lia.
  - replace n with (Z.abs n) at 3 by lia.
    apply Atoi_digits; auto; [|lia].
    rewrite fast_loop_zeros. apply fast_loop_Itoa. lia.
Qed.

End Integers.

Section Numerals.
Import go_strconv go_fmt go_strings spec.

Lemma fast_loop_digits (s : string) (n v : Z) :
  Atoi_fast_loop n s = Ok v -> forallb is_digit (list_ascii_of_string s) = true.
Proof.
  revert n. induction s as [|c s IH]; intros n; cbn [Atoi_fast_loop list_ascii_of_string forallb].
  - reflexivity.
  - destruct (is_digit c); [|discriminate]. intros Hv. simpl. eauto.
Qed.

(** What [%0Wd] writes: an optional minus sign, then digits that read as
    the absolute value. *)
Lemma Sprintf_0d_shape (W : nat) (n : Z) :
  exists D, D <> "" /\ Atoi_fast_loop 0 D = Ok (Z.abs n)
            /\ Sprintf_0d W n = if n <? 0 then String "-" D else D.
Proof.
  unfold Sprintf_0d.
  set (k := ((if (n <? 0)%Z then (W - 1)%nat else W) - String.length (Itoa (Z.abs n)))%nat).
  exists (zeros k ++ Itoa (Z.abs n)). split; [|split].
  - intros Hs. pose proof (Itoa_nonempty (Z.abs n) ltac:(lia)).
    destruct k; [rewrite append_nil_l in Hs; congruence|].
    cbn [zeros] in Hs. rewrite append_cons in Hs. discriminate.
  - rewrite fast_loop_zeros. apply fast_loop_Itoa. lia.
  - reflexivity.
Qed.

Lemma Itoa_Sprintf_0d (n : Z) : Itoa n = Sprintf_0d 0 n.
Proof.
  unfold Sprintf_0d. destruct n as [|p|p]; cbn [Z.ltb Z.compare Z.abs].
  - reflexivity.
  - cbn [Nat.sub zeros]. now rewrite append_nil_l.
  - cbn [Nat.sub zeros]. rewrite append_nil_l. apply Itoa_neg.
Qed.

(** A byte that is neither a digit nor the minus sign does not occur in
    the text of a number. *)
Lemma Sprintf_0d_bytes (W : nat) (n : Z) :
  forallb (fun c => is_digit c || Ascii.eqb c "-")
    (list_ascii_of_string (Sprintf_0d W n)) = true.
Proof.
  destruct (Sprintf_0d_shape W n) as (D & _ & HD & ->).
  apply fast_loop_digits in HD.
  assert (HD' : forallb (fun c => is_digit c || Ascii.eqb c "-")
                  (list_ascii_of_string D) = true).
  { rewrite forallb_forall in *. intros c Hc. rewrite (HD c Hc). reflexivity. }
  destruct (n <? 0); [|exact HD'].
  cbn [list_ascii_of_string forallb]. rewrite HD'. reflexivity.
Qed.

Lemma contains_byte_forallb (c : ascii) (P : ascii -> bool) (s : string) :
  forallb P (list_ascii_of_string s) = true -> P c = false ->
  contains_byte c s = false.
Proof.
  intros HP Hc. induction s as [|c' s IH]; [reflexivity|].
  cbn [list_ascii_of_string forallb contains_byte] in *.
  apply andb_prop in HP as [Hc' HP]. rewrite (IH HP), orb_false_r.
  destruct (Ascii.eqb_spec c' c); [congruence | reflexivity].
Qed.

Lemma Split_at_first (sep : ascii) (a b : string) :
  contains_byte sep a = false ->
  Split (a ++ String sep b) sep = a :: Split b sep.
Proof.
  induction a as [|c a IH]; intros Ha.
  - rewrite append_nil_l. cbn [Split]. now rewrite Ascii.eqb_refl.
  - cbn [contains_byte] in Ha. apply orb_false_elim in Ha as [Hc Ha].
    rewrite append_cons. cbn [Split]. rewrite Hc, (IH Ha). reflexivity.
Qed.

Lemma Split_without (sep : ascii) (a : string) :
  contains_byte sep a = false -> Split a sep = [a].
Proof.
  induction a as [|c a IH]; intros Ha; [reflexivity|].
  cbn [contains_byte] in Ha. apply orb_false_elim in Ha as [Hc Ha].
  cbn [Split]. rewrite Hc, (IH Ha). reflexivity.
Qed.

End Numerals.

(** ** Times and durations read back *)

Section TimeRoundTrips.
Import go_strconv go_fmt go_strings spec client.

Lemma Split_FormatTimeString (hour minute : Z) :
  Split (FormatTimeString hour minute) ":"
  = [Sprintf_0d 2 hour; Sprintf_0d 2 minute].
Proof.
  unfold FormatTimeString.
  change (":" ++ Sprintf_0d 2 minute) with (String ":" (Sprintf_0d 2 minute)).
  rewrite Split_at_first, Split_without; [reflexivity|..];
    apply (contains_byte_forallb _ _ _ (Sprintf_0d_bytes _ _)); reflexivity.
Qed.

(** What [ParseTimeString] makes of a formatted time. *)
Lemma ParseTimeString_formatted (hour minute : Z) :
  - 2 ^ 63 <= hour < 2 ^ 63 -> - 2 ^ 63 <= minute < 2 ^ 63 ->
  ParseTimeString (FormatTimeString hour minute)
  = if negb (in_range 0 hour 23) then
      Err (errorString "hour must be between 0 and 23")
    else if negb (in_range 0 minute 59) then
      Err (errorString "minute must be between 0 and 59")
    else Ok (hour, minute).
Proof.
  intros Hh Hm. unfold ParseTimeString.
  rewrite Split_FormatTimeString, !Atoi_Sprintf_0d by assumption.
  unfold in_range. rewrite !Z.gtb_ltb.
  destruct (Z.ltb_spec hour 0), (Z.leb_spec 0 hour); try lia; cbn [orb andb negb];
    [reflexivity|].
  destruct (Z.ltb_spec 23 hour), (Z.leb_spec hour 23); try lia; cbn [orb andb negb];
    [reflexivity|].
  destruct (Z.ltb_spec minute 0), (Z.leb_spec 0 minute); try lia; cbn [orb andb negb];
    [reflexivity|].
  destruct (Z.ltb_spec 59 minute), (Z.leb_spec minute 59); try lia; reflexivity.
Qed.

(** X1. Reading back a formatted time: [ParseTimeString] returns the hour
    and the minute that [FormatTimeString] was given when they are those
    of a time of day, and the range error of the first offending part
    otherwise. *)
Theorem ParseTimeString_FormatTimeString (hour minute : Z) :
  - 2 ^ 63 <= hour < 2 ^ 63 -> - 2 ^ 63 <= minute < 2 ^ 63 ->
  ParseTimeString (FormatTimeString hour minute)
  = (if negb (in_range 0 hour 23) then
       Err (errorString "hour must be between 0 and 23")
     else if negb (in_range 0 minute 59) then
       Err (errorString "minute must be between 0 and 59")
     else Ok (hour, minute))
  /\ (is_ok (ParseTimeString (FormatTimeString hour minute)) = true
      <-> 0 <= hour <= 23 /\ 0 <= minute <= 59).
Proof.
  intros Hh Hm. rewrite ParseTimeString_formatted by assumption.
  split; [reflexivity|]. unfold in_range.
  destruct (Z.leb_spec 0 hour), (Z.leb_spec hour 23),
    (Z.leb_spec 0 minute), (Z.leb_spec minute 59); cbn; split;
    intros; try discriminate; try lia; auto.
Qed.

Lemma ParseTimeString_FormatTimeString_witness :
  ParseTimeString (FormatTimeString 7 5) = Ok (7, 5).
Proof.
  apply (proj1 (ParseTimeString_FormatTimeString 7 5 ltac:(lia) ltac:(lia))).
Defined.

(** X2. Durations: [ParseDuration] reads back what [FormatDuration] writes
    exactly for the durations of less than a day. *)
Theorem ParseDuration_FormatDuration (totalMinutes : Z) :
  - 2 ^ 63 <= totalMinutes < 2 ^ 63 ->
  ParseDuration (FormatDuration totalMinutes)
  = if in_range 0 totalMinutes 1439 then Ok totalMinutes
    else if (totalMinutes <=? -60) || (1440 <=? totalMinutes) then
      Err (errorString "hour must be between 0 and 23")
    else Err (errorString "minute must be between 0 and 59").
Proof.
  intros Ht. unfold ParseDuration, FormatDuration.
  change (Sprintf_0d 2 ?h ++ ":" ++ Sprintf_0d 2 ?m) with (FormatTimeString h m).
  pose proof (Z.quot_rem' totalMinutes 60) as Hqr.
  assert (Hr : Z.abs (Z.rem totalMinutes 60) < 60)
    by (pose proof (Z.rem_bound_abs totalMinutes 60); lia).
  assert (Hs : 0 <= totalMinutes -> 0 <= Z.rem totalMinutes 60)
    by (intros; apply Z.rem_nonneg; lia).
  assert (Hs' : totalMinutes <= 0 -> Z.rem totalMinutes 60 <= 0)
    by (intros; apply Z.rem_nonpos; lia).
  rewrite ParseTimeString_formatted by lia.
  unfold in_range.
  destruct (Z.leb_spec 0 totalMinutes), (Z.leb_spec totalMinutes 1439),
    (Z.leb_spec totalMinutes (-60)), (Z.leb_spec 1440 totalMinutes);
    try lia; cbn [andb orb negb].
  all: destruct (Z.leb_spec 0 (Z.quot totalMinutes 60)),
         (Z.leb_spec (Z.quot totalMinutes 60) 23); try lia; cbn [andb orb negb];
       try reflexivity.
  all: destruct (Z.leb_spec 0 (Z.rem totalMinutes 60)),
         (Z.leb_spec (Z.rem totalMinutes 60) 59); try lia; cbn [andb orb negb];
       try reflexivity.
  rewrite (wrap_small (_ * 60)) by lia. rewrite wrap_small by lia. f_equal. lia.
Qed.

Lemma ParseDuration_FormatDuration_witness :
  ParseDuration (FormatDuration 150) = Ok 150.
Proof.
  apply (ParseDuration_FormatDuration 150). lia.
Defined.

End TimeRoundTrips.

(** ** ASCII text *)

Section AsciiText.
Import go_utf8 go_strings go_strconv go_fmt spec.

(** The runes of ASCII text are its bytes. *)
Lemma chunks_ascii (s : string) :
  isASCII s = true ->
  chunks s = map (fun c => (b2z c, String c "")) (list_ascii_of_string s).
Proof.
  induction s as [|c s IH]; [reflexivity|].
  unfold isASCII. cbn [list_ascii_of_string forallb map].
  intros Hs. apply andb_prop in Hs as [Hc Hs].
  rewrite <- (IH Hs).
  apply Z.ltb_lt in Hc. unfold RuneSelf in Hc.
  rewrite (chunks_unfold (String c s) (b2z c) 1); [reflexivity | discriminate |].
  unfold DecodeRune. cbn [String.length].
  replace (S (String.length s) <? 1)%nat with false
    by (symmetry; apply Nat.ltb_ge; lia).
  change (at_ (String c s) 0) with (b2z c).
  unfold first. destruct (Z.ltb_spec (b2z c) 128); [reflexivity | lia].
Qed.

Lemma drop_while_none_of {A} (f : A -> bool) (l : list A) :
  forallb (fun x => negb (f x)) l = true -> drop_while f l = l.
Proof.
  destruct l as [|x l]; [reflexivity|].
  cbn [forallb drop_while]. intros H. apply andb_prop in H as [Hx _].
  now destruct (f x).
Qed.

Lemma forallb_rev {A} (f : A -> bool) (l : list A) :
  forallb f (rev l) = forallb f l.
Proof.
  induction l as [|x l IH]; [reflexivity|].
  cbn [rev forallb]. rewrite forallb_app, IH. cbn [forallb].
  rewrite andb_true_r. apply andb_comm.
Qed.

(** [TrimSpace] leaves a text without white space as it is. *)
Lemma TrimSpace_no_space (s : string) :
  forallb (fun ch => negb (space_chunk ch)) (chunks s) = true ->
  TrimSpace s = s.
Proof.
  intros Hs. unfold TrimSpace.
  rewrite (drop_while_none_of _ _ Hs).
  rewrite drop_while_none_of by now rewrite forallb_rev.
  rewrite rev_involutive. apply concat_chunks_chunks.
Qed.

(** On ASCII text, a condition on the bytes is one on the runes. *)
Lemma forallb_chunks_ascii (P : ascii -> bool) (Q : Z * string -> bool) (s : string) :
  isASCII s = true ->
  (forall c, b2z c < 128 -> P c = true -> Q (b2z c, String c "") = true) ->
  forallb P (list_ascii_of_string s) = true ->
  forallb Q (chunks s) = true.
Proof.
  intros Ha HPQ HP. rewrite (chunks_ascii s Ha).
  unfold isASCII in Ha. rewrite forallb_forall in *.
  intros ch Hch. apply in_map_iff in Hch as (c & <- & Hc).
  apply HPQ; auto. specialize (Ha c Hc). apply Z.ltb_lt in Ha. exact Ha.
Qed.

Lemma map_bytes_fixed (f : ascii -> ascii) (s : string) :
  forallb (fun c => Ascii.eqb (f c) c) (list_ascii_of_string s) = true ->
  map_bytes f s = s.
Proof.
  induction s as [|c s IH]; [reflexivity|].
  cbn [list_ascii_of_string forallb map_bytes].
  intros H. apply andb_prop in H as [Hc Hs].
  apply Ascii.eqb_eq in Hc. now rewrite Hc, IH.
Qed.

Lemma forallb_impl {A} (P Q : A -> bool) (l : list A) :
  (forall x, P x = true -> Q x = true) ->
  forallb P l = true -> forallb Q l = true.
Proof.
  intros HPQ. rewrite !forallb_forall. auto.
Qed.

Lemma level_byte_cases (c : ascii) :
  level_byte c = true ->
  b2z c < 128 /\ go_unicode.IsSpace (b2z c) = false /\ upper_byte c = c.
Proof.
  unfold level_byte, is_digit, in_range.
  destruct (Ascii.eqb_spec c "-") as [->|]; [intros _; vm_compute; auto|].
  destruct (Ascii.eqb_spec c "F") as [->|]; [intros _; vm_compute; auto|].
  destruct (Ascii.eqb_spec c "L") as [->|]; [intros _; vm_compute; auto|].
  rewrite !orb_false_r. intros Hd.
  assert (Hc : 48 <= b2z c <= 57) by lia.
  split; [lia|]. split.
  - unfold go_unicode.IsSpace, in_range.
    destruct ((0 <=? b2z c) && (b2z c <=? 255)); lia.
  - unfold upper_byte, in_range.
    destruct (Z.leb_spec 97 (b2z c)); [lia | reflexivity].
Qed.

Context `{GoTables}.

(** Text made of digits, minus signs and the letters [F] and [L] is what
    [ParseFlightLevel] works on after trimming and upper-casing. *)
Lemma level_text_normal (s : string) :
  forallb level_byte (list_ascii_of_string s) = true ->
  ToUpper (TrimSpace s) = s.
Proof.
  intros Hs.
  assert (Ha : isASCII s = true).
  { unfold isASCII. revert Hs. apply forallb_impl. intros c Hc.
    apply Z.ltb_lt. unfold RuneSelf. now apply level_byte_cases. }
  rewrite TrimSpace_no_space.
  - unfold ToUpper. rewrite Ha. apply map_bytes_fixed.
    revert Hs. apply forallb_impl. intros c Hc.
    apply Ascii.eqb_eq. now apply level_byte_cases.
  - apply (forallb_chunks_ascii level_byte); auto.
    intros c _ Hc. unfold space_chunk. cbn [fst].
    destruct (level_byte_cases c Hc) as (_ & -> & _). reflexivity.
Qed.

Lemma Sprintf_0d_level (W : nat) (n : Z) :
  forallb level_byte (list_ascii_of_string (Sprintf_0d W n)) = true.
Proof.
  generalize (Sprintf_0d_bytes W n). apply forallb_impl.
  intros c Hc. unfold level_byte. now rewrite Hc.
Qed.

Lemma Sprintf_0d_head (W : nat) (n : Z) :
  exists c s, Sprintf_0d W n = String c s /\ (is_digit c || Ascii.eqb c "-") = true.
Proof.
  destruct (Sprintf_0d_shape W n) as (D & Hne & HD & ->).
  destruct (n <? 0); [exists "-"%char, D; auto|].
  destruct D as [|c D]; [congruence|].
  exists c, D. split; [reflexivity|].
  now rewrite (fast_loop_head _ _ _ _ HD).
Qed.

End AsciiText.

(** ** Altitudes read back *)

Section FlightLevelRoundTrips.
Import go_utf8 go_strings go_strconv go_fmt spec client types.
Context `{GoTables}.

(** A flight level written with [FL%0Wd] is read as that many hundred
    feet. *)
Lemma FL_cons (s : string) : "FL" ++ s = String "F" (String "L" s).
Proof. now rewrite !append_cons, append_nil_l. Qed.

Lemma ParseFlightLevel_FL (W : nat) (fl : Z) :
  - 2 ^ 63 <= fl < 2 ^ 63 ->
  ParseFlightLevel ("FL" ++ Sprintf_0d W fl) = Ok (wrap (fl * 100)).
Proof.
  intros Hfl. unfold ParseFlightLevel.
  rewrite level_text_normal.
  - rewrite FL_cons. unfold TrimPrefix, HasPrefix.
    cbn [String.prefix String.length drop].
    destruct (Ascii.ascii_dec "F" "F"); [|congruence].
    destruct (Ascii.ascii_dec "L" "L"); [|congruence].
    assert (Hp : forall x, String.prefix "" x = true) by (now intros []).
    rewrite Hp. now rewrite Atoi_Sprintf_0d.
  - rewrite FL_cons.
    cbn [list_ascii_of_string forallb]. rewrite Sprintf_0d_level. reflexivity.
Qed.

(** A plain number of feet is read as such. *)
Lemma ParseFlightLevel_feet (feet : Z) :
  - 2 ^ 63 <= feet < 2 ^ 63 ->
  ParseFlightLevel (Sprintf_d feet) = Ok feet.
Proof.
  intros Hf. unfold ParseFlightLevel, Sprintf_d.
  rewrite Itoa_Sprintf_0d.
  rewrite level_text_normal by apply Sprintf_0d_level.
  destruct (Sprintf_0d_head 0 feet) as (c & s & Hs & Hc).
  replace (HasPrefix (Sprintf_0d 0 feet) "FL") with false.
  - now rewrite Atoi_Sprintf_0d.
  - rewrite Hs. unfold HasPrefix. cbn [String.prefix].
    destruct (Ascii.ascii_dec "F" c) as [<-|]; [discriminate Hc | reflexivity].
Qed.

(** X3. Reading back a formatted altitude, for every [int]: the parser
    returns the altitude rounded toward zero to a whole flight level. *)
Theorem ParseFlightLevel_FormatFlightLevel_any (feet : Z) :
  - 2 ^ 63 <= feet < 2 ^ 63 ->
  ParseFlightLevel (FormatFlightLevel feet) = Ok (Z.quot feet 100 * 100)
  /\ Z.abs (feet - Z.quot feet 100 * 100) < 100
  /\ (Z.rem feet 100 = 0 -> ParseFlightLevel (FormatFlightLevel feet) = Ok feet).
Proof.
  intros Hf. unfold FormatFlightLevel.
  pose proof (Z.quot_rem' feet 100) as Hqr.
  assert (Hr : Z.abs (Z.rem feet 100) < 100)
    by (pose proof (Z.rem_bound_abs feet 100); lia).
  assert (Hs : 0 <= feet -> 0 <= Z.rem feet 100)
    by (intros; apply Z.rem_nonneg; lia).
  assert (Hs' : feet <= 0 -> Z.rem feet 100 <= 0)
    by (intros; apply Z.rem_nonpos; lia).
  rewrite ParseFlightLevel_FL by lia.
  rewrite wrap_small by lia.
  split; [reflexivity|]. split; [lia|].
  intros Hz. f_equal. lia.
Qed.

(** X4. The altitudes that the builder writes are read back by the route
    helper. *)
Theorem builder_altitude_read_back (b : FlightPlanBuilder.t) (n : Z) :
  - 2 ^ 63 <= n < 2 ^ 63 ->
  ParseFlightLevel (FlightPlanRequest.Altitude (Build (AltitudeFromFeet n b))) = Ok n
  /\ ParseFlightLevel (FlightPlanRequest.Altitude (Build (AltitudeFromFlightLevel n b)))
     = Ok (wrap (n * 100))
  /\ (- 2 ^ 63 <= n * 100 < 2 ^ 63 ->
      FlightPlanRequest.Altitude (Build (AltitudeFromFlightLevel n b))
      = FormatFlightLevel (n * 100)
      /\ ParseFlightLevel (FlightPlanRequest.Altitude (Build (AltitudeFromFlightLevel n b)))
         = Ok (n * 100)).
Proof.
  intros Hn. cbn.
  split; [now apply ParseFlightLevel_feet|].
  split; [now apply ParseFlightLevel_FL|].
  intros Hn'. unfold FormatFlightLevel. rewrite Z.quot_mul by lia.
  split; [reflexivity|].
  rewrite ParseFlightLevel_FL by lia. now rewrite wrap_small.
Qed.

End FlightLevelRoundTrips.

Lemma ParseFlightLevel_FormatFlightLevel_any_witness :
  @client.ParseFlightLevel spec.no_tables (client.FormatFlightLevel (-12345))
  = Ok (Z.quot (-12345) 100 * 100)
  /\ Z.abs (-12345 - Z.quot (-12345) 100 * 100) < 100
  /\ (Z.rem (-12345) 100 = 0 ->
      @client.ParseFlightLevel spec.no_tables (client.FormatFlightLevel (-12345))
      = Ok (-12345)).
Proof.
  apply (@ParseFlightLevel_FormatFlightLevel_any spec.no_tables (-12345)). lia.
Defined.

Lemma builder_altitude_read_back_witness :
  @client.ParseFlightLevel spec.no_tables
    (types.FlightPlanRequest.Altitude
       (client.Build (client.AltitudeFromFeet 35000
                        (client.NewFlightPlan "KJFK" "KLAX" "B738"))))
  = Ok 35000.
Proof.
  apply (proj1 (@builder_altitude_read_back spec.no_tables
                  (client.NewFlightPlan "KJFK" "KLAX" "B738") 35000 ltac:(lia))).
Defined.

(** ** Airport codes and the two validators *)

Section ICAOCodes.
Import go_utf8 go_strings spec client types.

Lemma ascii_chunks_bytes (P : ascii -> bool) (l : list (Z * string)) :
  Forall (fun ch => exists c, ch = (b2z c, String c "") /\ P c = true) l ->
  forallb P (list_ascii_of_string (concat_chunks l)) = true.
Proof.
  induction 1 as [|ch l (c & -> & Hc) _ IH]; [reflexivity|].
  unfold concat_chunks. cbn [fold_right snd].
  rewrite append_cons, append_nil_l.
  cbn [list_ascii_of_string forallb]. rewrite Hc. exact IH.
Qed.

(** X5. [ValidateICAOCode] accepts exactly the codes of four bytes, each an
    upper-case ASCII letter or a digit. *)
Theorem ValidateICAOCode_spec (code : string) :
  ValidateICAOCode code = true
  <-> String.length code = 4%nat
      /\ forallb icao_byte (list_ascii_of_string code) = true.
Proof.
  unfold ValidateICAOCode, len. split.
  - destruct (Z.eqb_spec (Z.of_nat (String.length code)) 4) as [Hl|]; [|discriminate].
    cbn [negb]. intros Hall. split; [lia|].
    assert (Hv : ValidString code = true).
    { unfold ValidString. revert Hall. apply forallb_impl.
      intros [r bs]. unfold chunk_valid, in_range, RuneError. cbn [fst snd].
      intros Hr. destruct (Z.eqb_spec r 65533); [lia | reflexivity]. }
    pose proof (ValidString_good code Hv) as Hg.
    rewrite <- (concat_chunks_chunks code) at 1.
    apply ascii_chunks_bytes.
    rewrite List.Forall_forall in *. intros ch Hch.
    rewrite forallb_forall in Hall. specialize (Hall ch Hch).
    destruct (good_chunk_cases ch (Hg ch Hch)) as [(c & -> & Hc)|(_ & _ & _ & Hhi)].
    + exists c. split; [reflexivity|]. exact Hall.
    + cbv zeta in Hall. unfold in_range in Hall. lia.
  - intros [Hl Hb]. rewrite Hl. cbn [Z.of_nat Pos.of_succ_nat Z.eqb negb].
    change (Z.pos (Pos.succ (Pos.succ (Pos.succ 1))) =? 4) with true. cbn [negb].
    apply (forallb_chunks_ascii icao_byte); auto.
    unfold isASCII. revert Hb. apply forallb_impl.
    intros c. unfold icao_byte, in_range, RuneSelf. lia.
Qed.

Lemma ValidateICAOCode_length (code : string) :
  ValidateICAOCode code = true -> String.length code = 4%nat.
Proof.
  unfold ValidateICAOCode, len.
  destruct (Z.eqb_spec (Z.of_nat (String.length code)) 4); [lia | discriminate].
Qed.

(** X6. Codes that pass [ValidateICAOCode] pass the format check of the
    client validator. *)
Theorem ValidateICAOCode_ValidateFlightPlanRequest (req : FlightPlanRequest.t) :
  ValidateICAOCode (FlightPlanRequest.Origin req) = true ->
  ValidateICAOCode (FlightPlanRequest.Destination req) = true ->
  FlightPlanRequest.Aircraft req <> "" ->
  0 <= FlightPlanRequest.DepartureHour req <= 23 ->
  0 <= FlightPlanRequest.DepartureMinute req <= 59 ->
  ValidateFlightPlanRequest req = None /\ Validate req = None.
Proof.
  intros Ho Hd Ha Hh Hm.
  apply ValidateICAOCode_length in Ho, Hd.
  apply String.eqb_neq in Ha.
  unfold ValidateFlightPlanRequest, Validate, len.
  destruct (FlightPlanRequest.Origin req) as [|? ?]; [discriminate|].
  destruct (FlightPlanRequest.Destination req) as [|? ?]; [discriminate|].
  cbn [String.eqb]. rewrite Ha, Ho, Hd. cbn [Z.of_nat Pos.of_succ_nat Pos.succ Z.eqb Pos.eqb negb].
  split; [|reflexivity].
  rewrite !Z.gtb_ltb.
  destruct (Z.ltb_spec (FlightPlanRequest.DepartureHour req) 0); [lia|].
  destruct (Z.ltb_spec 23 (FlightPlanRequest.DepartureHour req)); [lia|].
  destruct (Z.ltb_spec (FlightPlanRequest.DepartureMinute req) 0); [lia|].
  destruct (Z.ltb_spec 59 (FlightPlanRequest.DepartureMinute req)); [lia|].
  rewrite !andb_false_r. reflexivity.
Qed.

Lemma ValidateICAOCode_ValidateFlightPlanRequest_witness :
  ValidateFlightPlanRequest (NewFlightPlanRequest "KJFK" "EGLL" "B738") = None
  /\ Validate (NewFlightPlanRequest "KJFK" "EGLL" "B738") = None.
Proof.
  apply (ValidateICAOCode_ValidateFlightPlanRequest
           (NewFlightPlanRequest "KJFK" "EGLL" "B738"));
    first [reflexivity | discriminate | simpl; lia].
Defined.

(** X7. The client validator is at least as strict as the validator of
    the model, and reports its errors first. *)
Theorem Validate_ValidateFlightPlanRequest (req : FlightPlanRequest.t) :
  (forall e, Validate req = Some e -> ValidateFlightPlanRequest req = Some e)
  /\ (ValidateFlightPlanRequest req = None -> Validate req = None).
Proof.
  unfold Validate, ValidateFlightPlanRequest,
    ErrMissingOrigin, ErrMissingDestination, ErrMissingAircraft.
  destruct (String.eqb (FlightPlanRequest.Origin req) ""); [split; [auto | discriminate]|].
  destruct (String.eqb (FlightPlanRequest.Destination req) ""); [split; [auto | discriminate]|].
  destruct (String.eqb (FlightPlanRequest.Aircraft req) ""); [split; [auto | discriminate]|].
  split; [discriminate | reflexivity].
Qed.

End ICAOCodes.

(** ** The aircraft data on the wire *)

Section AircraftJSON.
Import go_json types spec client.
Context `{GoTables}.

(** A zero is finite. *)
Lemma zero_finite (v : float) : PrimFloat.eqb v 0%float = true -> finite v = true.
Proof.
  unfold finite, PrimFloat.is_infinity, PrimFloat.is_nan.
  rewrite !FloatAxioms.eqb_spec, FloatAxioms.abs_spec.
  change (Prim2SF 0) with (S754_zero false).
  change (Prim2SF infinity) with (S754_infinity false).
  destruct (Prim2SF v) as [s|s| |s m e]; cbn; try discriminate; auto.
  destruct s; discriminate.
  destruct s; discriminate.
Qed.

Lemma encode_value_ok (f : field) :
  field_ok f = true -> exists v, encode_value f = Ok v.
Proof.
  destruct f as [n v|n v|n v]; cbn [field_ok encode_value]; eauto.
  unfold finite. intros Hf. apply negb_true_iff in Hf. rewrite Hf. eauto.
Qed.

Lemma encode_value_err (f : field) :
  field_ok f = false ->
  isEmptyValue f = false /\ encode_value f = Err UnsupportedValueError.
Proof.
  destruct f as [n v|n v|n v]; cbn [field_ok encode_value isEmptyValue];
    try discriminate.
  intros Hf. split.
  - destruct (PrimFloat.eqb v 0) eqn:Hz; [|reflexivity].
    apply zero_finite in Hz. congruence.
  - unfold finite in Hf. apply negb_false_iff in Hf. now rewrite Hf.
Qed.

(** [json.Marshal] of a struct succeeds, with a non-empty text, when all
    its floats are finite, and fails otherwise. *)
Lemma struct_members_ok (fs : list field) (next : ascii) (buf : string) :
  forallb field_ok fs = true ->
  exists d, struct_members next fs buf = Ok d /\ d <> "".
Proof.
  revert next buf. induction fs as [|f fs IH]; intros next buf; cbn [forallb struct_members].
  - intros _. destruct (Ascii.eqb next "{"); eexists; split; try reflexivity.
    + discriminate.
    + destruct buf; [rewrite append_nil_l | rewrite append_cons]; discriminate.
  - intros Hfs. apply andb_prop in Hfs as [Hf Hfs].
    destruct (isEmptyValue f); [now apply IH|].
    destruct (encode_value_ok f Hf) as [v ->]. now apply IH.
Qed.

Lemma struct_members_err (fs : list field) (next : ascii) (buf : string) :
  forallb field_ok fs = false ->
  struct_members next fs buf = Err UnsupportedValueError.
Proof.
  revert next buf. induction fs as [|f fs IH]; intros next buf; cbn [forallb struct_members].
  - discriminate.
  - destruct (field_ok f) eqn:Hf; cbn [andb]; intros Hfs.
    + destruct (isEmptyValue f); [now apply IH|].
      destruct (encode_value_ok f Hf) as [v ->]. now apply IH.
    + destruct (encode_value_err f Hf) as [-> ->]. reflexivity.
Qed.

Lemma AircraftData_fields_ok (ad : AircraftData.t) :
  forallb field_ok (AircraftData_fields ad) = weights_finite ad.
Proof.
  unfold AircraftData_fields, weights_finite. cbn [forallb field_ok andb].
  rewrite !andb_true_r, !andb_assoc. reflexivity.
Qed.

(** X8. The aircraft data of a request reaches the URL exactly when its
    five weights are finite; it is then the JSON text of the data, which
    is never empty. *)
Theorem acdata_present_iff_finite (fpr : FlightPlanRequest.t) :
  match FlightPlanRequest.AircraftData fpr with
  | None => ToURLValues fpr !! "acdata" = None
  | Some ad =>
      if weights_finite ad then
        exists d, Marshal_struct (AircraftData_fields ad) = Ok d /\ d <> ""
                  /\ AircraftData_String ad = d
                  /\ ToURLValues fpr !! "acdata" = Some [d]
      else
        Marshal_struct (AircraftData_fields ad) = Err UnsupportedValueError
        /\ AircraftData_String ad = ""
        /\ ToURLValues fpr !! "acdata" = None
  end.
Proof.
  rewrite ToURLValues_lookup. unfold wire_value. cbn [assoc encoder_table String.eqb Ascii.eqb Bool.eqb].
  destruct (FlightPlanRequest.AircraftData fpr) as [ad|]; [|reflexivity].
  unfold AircraftData_String, Marshal_struct.
  rewrite <- AircraftData_fields_ok.
  destruct (forallb field_ok (AircraftData_fields ad)) eqn:Hok.
  - destruct (struct_members_ok _ "{"%char "" Hok) as (d & Hd & Hne).
    exists d. rewrite Hd. repeat split; auto.
    unfold of_string. apply String.eqb_neq in Hne. now rewrite Hne.
  - rewrite (struct_members_err _ _ _ Hok). auto.
Qed.

End AircraftJSON.

(** ** Reading a query back *)

Section ParseQueryProofs.
Import go_url go_strings spec types client.

Lemma after_eq_app a rest :
  contains_byte "=" a = false -> after_eq (a ++ "=" ++ rest) = rest.
Proof.
  induction a as [|c a IH]; intros Ha.
  - rewrite append_nil_l, append_cons, append_nil_l. reflexivity.
  - cbn [contains_byte] in Ha. apply orb_false_elim in Ha as [Hc Ha].
    rewrite append_cons. cbn [after_eq]. rewrite Hc. auto.
Qed.

Lemma parse_component_component acc kx :
  parse_component acc (component kx) = (Add (fst acc) (fst kx) (snd kx), snd acc).
Proof.
  destruct (component_name kx) as (Hne & _ & Hs & Hk).
  unfold parse_component. apply String.eqb_neq in Hne. rewrite Hs, Hne, Hk.
  unfold component.
  rewrite after_eq_app by apply QueryEscape_no_separator.
  now rewrite QueryUnescape_QueryEscape.
Qed.

Lemma fold_parse_components (l : list (string * string)) acc :
  fold_left parse_component (map component l) acc
  = (fold_left (fun m kx => Add m (fst kx) (snd kx)) l (fst acc), snd acc).
Proof.
  induction l as [|kx l IH] in acc |- *; [now destruct acc|].
  cbn [map fold_left]. rewrite parse_component_component, IH. reflexivity.
Qed.

(** Reading an encoded query: the pairs are added in the order of the
    encoding. *)
Lemma ParseQuery_Encode_pairs (v : Values) :
  ParseQuery (Encode v)
  = (fold_left (fun m kx => Add m (fst kx) (snd kx)) (pairs_of v) ∅, false).
Proof.
  unfold ParseQuery.
  rewrite Encode_components, fold_add_component.
  2:{ apply Forall_map, Forall_forall. intros kx _. apply component_name. }
  cbn [String.eqb].
  destruct (pairs_of v) as [|kx l] eqn:Hp; [reflexivity|].
  rewrite Split_join.
  - apply fold_parse_components.
  - discriminate.
  - apply Forall_map, Forall_forall. intros kx' _. apply component_name.
Qed.

Lemma fold_Add_key (k : string) (l : list string) (m : Values) (k' : string) :
  fold_left (fun m kx => Add m (fst kx) (snd kx)) (map (pair k) l) m !! k'
  = if decide (k = k') then
      match l with
      | [] => m !! k
      | _ => Some (default [] (m !! k) ++ l)%list
      end
    else m !! k'.
Proof.
  induction l as [|x l IH] in m |- *.
  - cbn. destruct (decide (k = k')); congruence.
  - cbn [map fold_left fst snd]. rewrite IH.
    destruct (decide (k = k')) as [<-|Hne].
    + rewrite Add_lookup_eq. unfold default. cbn [from_option id].
      destruct l; [reflexivity|]. now rewrite <- app_assoc.
    + now rewrite Add_lookup_ne.
Qed.

Lemma fold_Add_keys (v : Values) (keys : list string) (m : Values) (k' : string) :
  List.NoDup keys ->
  (forall k, In k keys -> m !! k = None) ->
  fold_left (fun m kx => Add m (fst kx) (snd kx))
    (flat_map (fun k => map (pair k) (default [] (v !! k))) keys) m !! k'
  = if bool_decide (k' ∈ keys) then
      match default [] (v !! k') with
      | [] => None
      | l => Some l
      end
    else m !! k'.
Proof.
  intros Hnd. induction Hnd as [|k keys Hk Hnd IH] in m |- *; intros Hm.
  - reflexivity.
  - cbn [flat_map]. rewrite fold_left_app, IH.
    + destruct (bool_decide_reflect (k' ∈ keys)) as [Hin|Hnin].
      * rewrite bool_decide_eq_true_2 by now right. reflexivity.
      * rewrite fold_Add_key.
        destruct (decide (k = k')) as [<-|Hne].
        -- rewrite bool_decide_eq_true_2 by now left.
           rewrite (Hm k) by now left. unfold default. cbn [from_option id app].
           destruct (v !! k) as [[|y l0]|]; reflexivity.
        -- rewrite bool_decide_eq_false_2; [reflexivity|].
           intros Hin. apply elem_of_cons in Hin as [->|Hin]; tauto.
    + intros k0 Hk0. rewrite fold_Add_key.
      destruct (decide (k = k0)) as [<-|Hne]; [tauto|].
      apply Hm. now right.
Qed.

Lemma sorted_keys_NoDup (v : Values) : List.NoDup (sorted_keys v).
Proof.
  unfold sorted_keys. apply NoDup_ListNoDup.
  rewrite merge_sort_Permutation. apply NoDup_fst_map_to_list.
Qed.

(** [url.ParseQuery] reads back the values that [Values.Encode] wrote,
    as long as no key holds an empty list. *)
Lemma ParseQuery_Encode (v : Values) :
  (forall k, v !! k <> Some []) -> ParseQuery (Encode v) = (v, false).
Proof.
  intros Hv. rewrite ParseQuery_Encode_pairs. f_equal.
  apply map_eq. intros k. unfold pairs_of.
  rewrite (fold_Add_keys v);
    [|apply sorted_keys_NoDup | intros; apply lookup_empty].
  destruct (bool_decide_reflect (k ∈ sorted_keys v)) as [Hin|Hnin].
  - apply list_elem_of_In, sorted_keys_In in Hin as [l Hl]. rewrite Hl. unfold default. cbn [from_option id].
    destruct l; [exfalso; now apply (Hv k) | reflexivity].
  - rewrite lookup_empty. rewrite list_elem_of_In, sorted_keys_In in Hnin.
    destruct (v !! k) eqn:E; [exfalso; eauto | reflexivity].
Qed.

Context `{GoTables}.

Lemma GenerateFlightPlanValues_lookup (c : Client.t) (req : FlightPlanRequest.t) k :
  GenerateFlightPlanValues c req !! k
  = if String.eqb k "api_key" then
      (if String.eqb (Client.APIKey c) "" then None else Some [Client.APIKey c])
    else wire_value req k.
Proof.
  destruct (String.eqb_spec k "api_key") as [->|Hne].
  - apply GenerateFlightPlanValues_api_key.
  - unfold GenerateFlightPlanValues.
    destruct (String.eqb (Client.APIKey c) ""); cbn [negb].
    + apply ToURLValues_lookup.
    + rewrite Add_lookup_ne by congruence. apply ToURLValues_lookup.
Qed.

(** X9. The query of the generation URL can be read back: [url.ParseQuery]
    returns, without error, exactly the parameters of the request, each
    with its value unescaped, and the API key. *)
Theorem GenerateFlightPlanURL_read_back (c : Client.t) (req : FlightPlanRequest.t) :
  GenerateFlightPlanURL c req
  = Client.BaseURL c ++ endpointGenerate ++ "?"
      ++ Encode (GenerateFlightPlanValues c req)
  /\ ParseQuery (Encode (GenerateFlightPlanValues c req))
     = (GenerateFlightPlanValues c req, false)
  /\ forall k,
       fst (ParseQuery (Encode (GenerateFlightPlanValues c req))) !! k
       = if String.eqb k "api_key" then
           (if String.eqb (Client.APIKey c) "" then None else Some [Client.APIKey c])
         else wire_value req k.
Proof.
  assert (Hp : ParseQuery (Encode (GenerateFlightPlanValues c req))
               = (GenerateFlightPlanValues c req, false)).
  { apply ParseQuery_Encode. intros k. rewrite GenerateFlightPlanValues_lookup.
    destruct (String.eqb k "api_key").
    - destruct (String.eqb (Client.APIKey c) ""); discriminate.
    - unfold wire_value. destruct (assoc k (encoder_table req)) as [[x|]|]; discriminate. }
  split; [reflexivity|]. split; [exact Hp|].
  intros k. rewrite Hp. apply GenerateFlightPlanValues_lookup.
Qed.

End ParseQueryProofs.

(** ** The queries of the fetch endpoint *)

Section FetchQueries.
Import go_url go_strings spec types client.

Lemma Encode_join (v : Values) :
  Encode v = join "&" (map component (pairs_of v)).
Proof.
  rewrite Encode_components, fold_add_component; [reflexivity|].
  apply Forall_map, Forall_forall. intros kx _. apply component_name.
Qed.

Lemma Add_nonempty (v : Values) (k x : string) : Add v k x <> ∅.
Proof. apply insert_non_empty. Qed.

Ltac encode_fetch :=
  rewrite ?(bool_decide_eq_false_2 _ (Add_nonempty _ _ _)), ?Encode_join;
  match goal with
  | |- context [pairs_of ?V] =>
      let l := eval vm_compute in (pairs_of V) in
      replace (pairs_of V) with l by (vm_compute; reflexivity)
  | _ => idtac
  end;
  reflexivity.

Lemma ToQueryParams_join (fr : FetchRequest.t) :
  ToQueryParams fr
  = match fetch_components fr with
    | [] => ""
    | comps => "?" ++ join "&" comps
    end.
Proof.
  destruct fr as [userid username staticid json].
  unfold ToQueryParams, fetch_components.
  cbn [FetchRequest.UserID FetchRequest.Username FetchRequest.StaticID FetchRequest.JSON].
  destruct (String.eqb userid ""), (String.eqb username ""),
    (String.eqb staticid ""), json; cbn [negb app]; encode_fetch.
Qed.

(** X12. The query of a fetch request lists the parameters that are set,
    in the alphabetical order of their names, whatever the order in which
    the code adds them; it is empty exactly when nothing is set. *)
Theorem ToQueryParams_components (fr : FetchRequest.t) :
  ToQueryParams fr
  = match fetch_components fr with
    | [] => ""
    | comps => "?" ++ join "&" comps
    end
  /\ (ToQueryParams fr = ""
      <-> FetchRequest.UserID fr = "" /\ FetchRequest.Username fr = ""
          /\ FetchRequest.StaticID fr = "" /\ FetchRequest.JSON fr = false).
Proof.
  split; [apply ToQueryParams_join|].
  rewrite ToQueryParams_join. unfold fetch_components.
  destruct fr as [userid username staticid json].
  cbn [FetchRequest.UserID FetchRequest.Username FetchRequest.StaticID FetchRequest.JSON].
  destruct (String.eqb_spec userid ""), (String.eqb_spec username ""),
    (String.eqb_spec staticid ""), json; cbn [app];
    (split; [try (rewrite append_cons; discriminate); intros _; auto
            | intros (? & ? & ? & ?); try congruence; try reflexivity]).
Qed.

End FetchQueries.

Section FetchURLs.
Import go_url go_strings spec types client.

Lemma query_of_Encode (v : Values) :
  query_of (if bool_decide (v = ∅) then "" else "?" ++ Encode v) = Encode v.
Proof.
  destruct (bool_decide_reflect (v = ∅)) as [->|_]; [reflexivity|].
  now rewrite append_cons, append_nil_l.
Qed.

(** The parameters of a fetch request, as [ToQueryParams] collects them
    before encoding. *)
Lemma ToQueryParams_Encode (fr : FetchRequest.t) :
  exists v : Values,
    query_of (ToQueryParams fr) = Encode v
    /\ (forall k, v !! k <> Some [])
    /\ v !! "userid" = option_map (fun x => [x]) (of_string (FetchRequest.UserID fr))
    /\ v !! "username" = option_map (fun x => [x]) (of_string (FetchRequest.Username fr))
    /\ v !! "static_id" = option_map (fun x => [x]) (of_string (FetchRequest.StaticID fr))
    /\ v !! "json" = (if FetchRequest.JSON fr then Some ["1"] else None)
    /\ (forall k, ~ In k ["userid"; "username"; "static_id"; "json"] -> v !! k = None).
Proof.
  destruct fr as [userid username staticid json].
  unfold ToQueryParams, of_string.
  cbn [FetchRequest.UserID FetchRequest.Username FetchRequest.StaticID FetchRequest.JSON].
  destruct (String.eqb userid ""), (String.eqb username ""),
    (String.eqb staticid ""), json; cbn [negb option_map];
    (eexists; split; [apply query_of_Encode|]);
    repeat match goal with |- _ /\ _ => split end;
    lazymatch goal with
    | |- forall k, _ <> _ =>
        intros k; rewrite ?Add_lookup;
        repeat match goal with
               | |- context [decide (?a = ?b)] => destruct (decide (a = b))
               end;
        rewrite ?lookup_empty; discriminate
    | |- forall k, _ -> _ =>
        intros k Hk; cbn [In] in Hk;
        rewrite ?Add_lookup_ne by (intros <-; tauto); apply lookup_empty
    | |- _ => vm_compute; reflexivity
    end.
Qed.

(** X13. The query of a fetch request can be read back: [url.ParseQuery]
    returns, without error, the identifiers that are set, unescaped, the
    flag [json=1] when JSON is asked for, and nothing else. *)
Theorem ToQueryParams_read_back (fr : FetchRequest.t) :
  let r := ParseQuery (query_of (ToQueryParams fr)) in
  snd r = false
  /\ fst r !! "userid" = option_map (fun x => [x]) (of_string (FetchRequest.UserID fr))
  /\ fst r !! "username" = option_map (fun x => [x]) (of_string (FetchRequest.Username fr))
  /\ fst r !! "static_id" = option_map (fun x => [x]) (of_string (FetchRequest.StaticID fr))
  /\ fst r !! "json" = (if FetchRequest.JSON fr then Some ["1"] else None)
  /\ (forall k, ~ In k ["userid"; "username"; "static_id"; "json"] -> fst r !! k = None).
Proof.
  destruct (ToQueryParams_Encode fr) as (v & -> & Hv & Hrest).
  rewrite (ParseQuery_Encode v Hv). cbn [fst snd]. split; [reflexivity | exact Hrest].
Qed.

(** X14. The URLs of the three JSON fetchers: the endpoint, [json=1], and
    the identifiers that are not empty. No identifier is required: with
    empty arguments the query is just [json=1]. The XML fetcher clears
    the JSON flag of the request it is given and never sends [json]. *)
Theorem fetch_URLs (c : Client.t) (userID username staticID : string)
    (req : FetchRequest.t) :
  fetch_URL c (GetFlightPlanByUserID_request userID)
  = Client.BaseURL c ++ endpointXMLFetcher ++ "?json=1"
      ++ (if String.eqb userID "" then "" else "&userid=" ++ QueryEscape userID)
  /\ fetch_URL c (GetFlightPlanByUsername_request username)
     = Client.BaseURL c ++ endpointXMLFetcher ++ "?json=1"
         ++ (if String.eqb username "" then ""
             else "&username=" ++ QueryEscape username)
  /\ fetch_URL c (GetFlightPlanByStaticID_request userID staticID)
     = Client.BaseURL c ++ endpointXMLFetcher ++ "?json=1"
         ++ (if String.eqb staticID "" then ""
             else "&static_id=" ++ QueryEscape staticID)
         ++ (if String.eqb userID "" then "" else "&userid=" ++ QueryEscape userID)
  /\ FetchRequest.JSON (fst (GetFlightPlanXML_URL c req)) = false
  /\ snd (GetFlightPlanXML_URL c req)
     = fetch_URL c (fst (GetFlightPlanXML_URL c req))
  /\ fst (ParseQuery (query_of (ToQueryParams (fst (GetFlightPlanXML_URL c req)))))
       !! "json" = None.
Proof.
  unfold fetch_URL, GetFlightPlanByUserID_request, GetFlightPlanByUsername_request,
    GetFlightPlanByStaticID_request.
  split; [|split; [|split; [|split; [|split]]]].
  1-3: rewrite !ToQueryParams_join; unfold fetch_components;
       cbn [FetchRequest.UserID FetchRequest.Username FetchRequest.StaticID
            FetchRequest.JSON String.eqb app].
  - destruct (String.eqb userID ""); cbn [app join]; do 2 f_equal;
      now rewrite ?append_cons, ?append_nil_l, ?append_nil_r.
  - destruct (String.eqb username ""); cbn [app join]; do 2 f_equal;
      now rewrite ?append_cons, ?append_nil_l, ?append_nil_r.
  - destruct (String.eqb staticID ""), (String.eqb userID ""); cbn [app join];
      do 2 f_equal;
      now rewrite ?append_assoc, ?append_cons, ?append_nil_l, ?append_nil_r.
  - reflexivity.
  - reflexivity.
  - match goal with
    | |- context [ToQueryParams ?r] =>
        destruct (ToQueryParams_Encode r) as (v & -> & Hv & _ & _ & _ & Hj & _)
    end.
    rewrite (ParseQuery_Encode v Hv). exact Hj.
Qed.

(** X15. The edit URL carries exactly two parameters, whatever the static
    ID holds: [editflight=last] and the static ID, which is read back
    unescaped. *)
Theorem GetDirectEditURL_read_back (c : Client.t) (staticID : string) :
  exists query,
    GetDirectEditURL c staticID = Client.BaseURL c ++ endpointGenerate ++ "?" ++ query
    /\ ParseQuery query
       = (Add (Add ∅ "editflight" "last") "static_id" staticID, false)
    /\ query_names query = ["editflight"; "static_id"].
Proof.
  exists ("editflight=last" ++ "&" ++ ("static_id=" ++ QueryEscape staticID)).
  assert (Hs : Split ("editflight=last" ++ "&" ++ ("static_id=" ++ QueryEscape staticID)) "&"
               = ["editflight=last"; "static_id=" ++ QueryEscape staticID]).
  { rewrite Split_app_sep by reflexivity. rewrite Split_no_sep; [reflexivity|].
    rewrite contains_byte_app. cbn [orb].
    change (contains_byte "&" "static_id=") with false.
    apply QueryEscape_no_separator. }
  assert (Hsemi : contains_byte ";" ("static_id=" ++ QueryEscape staticID) = false).
  { rewrite contains_byte_app. apply QueryEscape_no_separator. }
  assert (Hne : String.eqb ("static_id=" ++ QueryEscape staticID) "" = false).
  { rewrite !append_cons. reflexivity. }
  assert (Hk : before_eq ("static_id=" ++ QueryEscape staticID) = "static_id").
  { apply (before_eq_app "static_id"). reflexivity. }
  assert (Hv : after_eq ("static_id=" ++ QueryEscape staticID) = QueryEscape staticID).
  { apply (after_eq_app "static_id"). reflexivity. }
  split; [|split].
  - unfold GetDirectEditURL, endpointGenerate.
    now rewrite ?append_cons, ?append_nil_l.
  - unfold ParseQuery. rewrite Hs. cbn [fold_left].
    unfold parse_component at 2. cbn [fst snd].
    change (contains_byte ";" "editflight=last") with false.
    change (String.eqb "editflight=last" "") with false.
    change (QueryUnescape (before_eq "editflight=last")) with (Some "editflight").
    change (QueryUnescape (after_eq "editflight=last")) with (Some "last").
    cbv iota.
    unfold parse_component. cbn [fst snd].
    rewrite Hsemi, Hne, Hk, Hv, QueryUnescape_QueryEscape. reflexivity.
  - unfold query_names. rewrite Hs. cbn [flat_map].
    rewrite Hsemi, Hne, Hk.
    change (String.eqb "editflight=last" "") with false.
    change (contains_byte ";" "editflight=last") with false.
    reflexivity.
Qed.

End FetchURLs.

(** ** The static ID on arbitrary bytes *)

Section Coercion.
Import go_utf8 go_json go_strings spec types.

Lemma stable_head_cases ch l :
  stable (ch :: l) -> good_chunk ch \/ bad_chunk ch.
Proof.
  intros Hst. destruct (stable_cons_inv _ _ Hst) as (_ & Hne & Hd).
  destruct (chunk_valid ch) eqn:Hv.
  - left. repeat split; auto. eapply DecodeRune_app; eauto.
  - right. destruct ch as [r bs]. cbn [fst snd] in *.
    unfold chunk_valid in Hv. cbn [fst snd] in Hv.
    apply negb_false_iff, andb_prop in Hv as [Hr Hl].
    apply Z.eqb_eq in Hr. apply Nat.eqb_eq in Hl. subst r.
    destruct bs as [|c [|c' bs]]; try discriminate.
    exists c. split; [reflexivity|].
    destruct (Z.lt_ge_cases (b2z c) 0x80) as [Hlt|Hge]; [|exact Hge].
    exfalso. rewrite append_cons in Hd. unfold DecodeRune in Hd.
    cbn [String.length] in Hd.
    replace (S (String.length ("" ++ concat_chunks l)) <? 1)%nat with false in Hd
      by (symmetry; apply Nat.ltb_ge; lia).
    change (at_ (String c ("" ++ concat_chunks l)) 0) with (b2z c) in Hd.
    unfold first in Hd. destruct (Z.ltb_spec (b2z c) 0x80); [|lia].
    injection Hd as Hd. unfold RuneError in Hd. lia.
Qed.

Lemma stable_cases l : stable l -> Forall (fun ch => good_chunk ch \/ bad_chunk ch) l.
Proof.
  induction l as [|ch l IH]; [constructor|].
  intros Hst. constructor; [eapply stable_head_cases; eauto|].
  apply IH. now destruct (stable_cons_inv _ _ Hst).
Qed.

Lemma bad_appendString_rune ch :
  bad_chunk ch -> appendString_rune ch = "\ufffd" /\ coerce_chunk ch = EncodeRune RuneError.
Proof.
  intros (c & -> & Hc). unfold appendString_rune, coerce_chunk, chunk_valid.
  cbn [fst snd String.length]. change (at_ (String c "") 0) with (b2z c).
  unfold RuneSelf. destruct (Z.ltb_spec (b2z c) 128); [lia|]. split; reflexivity.
Qed.

Lemma good_coerce_chunk ch : good_chunk ch -> coerce_chunk ch = snd ch.
Proof. intros (_ & _ & Hv). unfold coerce_chunk. now rewrite Hv. Qed.

Lemma any_unquote ch X :
  good_chunk ch \/ bad_chunk ch ->
  unquote_loop (appendString_rune ch ++ X)
  = option_app (coerce_chunk ch) (unquote_loop X).
Proof.
  intros [Hg|Hb].
  - rewrite good_coerce_chunk by assumption. now apply rune_unquote.
  - destruct (bad_appendString_rune ch Hb) as [-> ->]. reflexivity.
Qed.

Lemma any_rescan ch X :
  good_chunk ch \/ bad_chunk ch ->
  rescan_string (appendString_rune ch ++ X) = appendString_rune ch ++ rescan_string X.
Proof.
  intros [Hg|Hb]; [now apply rune_rescan|].
  destruct (bad_appendString_rune ch Hb) as [-> _]. reflexivity.
Qed.

Lemma any_scan ch e p X :
  good_chunk ch \/ bad_chunk ch ->
  scan (mkScanner S_InString e p false) (appendString_rune ch ++ X)
  = scan (mkScanner S_InString e p false) X.
Proof.
  intros [Hg|Hb]; [now apply rune_scan|].
  destruct (bad_appendString_rune ch Hb) as [-> _]. reflexivity.
Qed.

Lemma any_body_unquote l :
  Forall (fun ch => good_chunk ch \/ bad_chunk ch) l ->
  unquote_loop (body l) = Some (coerce_chunks l).
Proof.
  induction 1 as [|ch l Hg _ IH]; [reflexivity|].
  cbn [body fold_right]. fold (body l). rewrite any_unquote, IH by assumption.
  reflexivity.
Qed.

Lemma any_body_rescan l tail :
  Forall (fun ch => good_chunk ch \/ bad_chunk ch) l ->
  rescan_string (body l ++ String dquote tail) = body l ++ String dquote "".
Proof.
  induction 1 as [|ch l Hg _ IH].
  - cbn. reflexivity.
  - cbn [body fold_right]. fold (body l).
    rewrite append_assoc, any_rescan, IH by assumption.
    now rewrite append_assoc.
Qed.

Lemma any_body_scan l e p X :
  Forall (fun ch => good_chunk ch \/ bad_chunk ch) l ->
  scan (mkScanner S_InString e p false) (body l ++ X)
  = scan (mkScanner S_InString e p false) X.
Proof.
  induction 1 as [|ch l Hg _ IH]; [reflexivity|].
  cbn [body fold_right]. fold (body l).
  rewrite append_assoc, any_scan by assumption. exact IH.
Qed.

(** Decoding what [json.Marshal] writes for any string gives the string
    with its invalid bytes replaced. *)
Lemma Unmarshal_string_appendString_any s :
  Unmarshal_string (appendString s) = Ok (coerce s).
Proof.
  pose proof (stable_cases _ (stable_chunks s)) as Hv.
  unfold Unmarshal_string, appendString, appendString_body. fold (body (chunks s)).
  assert (Hvalid : checkValid (String dquote (body (chunks s) ++ String dquote "")) = true).
  { unfold checkValid. cbn [scan].
    change (step_byte reset dquote) with (mkScanner S_InString false [] false).
    rewrite any_body_scan by assumption. reflexivity. }
  rewrite Hvalid. cbn [negb skip_space].
  change (isSpace dquote) with false. cbv iota.
  change (Ascii.eqb dquote dquote) with true. cbv iota.
  rewrite any_body_rescan by assumption.
  unfold unquoteBytes.
  replace (len (String dquote (body (chunks s) ++ String dquote "")) <? 2) with false.
  2:{ symmetry. apply Z.ltb_ge. unfold len. cbn [String.length].
      rewrite length_append. cbn [String.length]. lia. }
  change (Ascii.eqb dquote dquote) with true.
  cbn [last_byte].
  destruct (body (chunks s) ++ String dquote "") eqn:Hb.
  { destruct (body (chunks s)); discriminate. }
  rewrite <- Hb. rewrite last_byte_app, remove_last_app.
  change (Ascii.eqb dquote dquote) with true. cbn [negb orb].
  rewrite any_body_unquote by assumption. reflexivity.
Qed.

(** Chunks that are well-formed encodings decode to themselves, whatever
    follows them. *)
Lemma good_stable l : Forall good_chunk l -> stable l.
Proof.
  induction 1 as [|ch l (Hne & Hd & Hv) _ IH]; [reflexivity|].
  unfold stable in *. unfold concat_chunks. cbn [fold_right]. fold (concat_chunks l).
  destruct ch as [r bs]. cbn [fst snd] in *.
  rewrite (chunks_unfold (bs ++ concat_chunks l) r (String.length bs)).
  - now rewrite take_length_app, drop_length_app, IH.
  - destruct bs; [congruence|]. rewrite append_cons. discriminate.
  - apply DecodeRune_extend; auto.
Qed.

Lemma replacement_good : good_chunk (RuneError, EncodeRune RuneError).
Proof. repeat split; try reflexivity. discriminate. Qed.

Lemma coerce_repair l : coerce_chunks l = concat_chunks (map repair l).
Proof.
  induction l as [|ch l IH]; [reflexivity|].
  unfold coerce_chunks, concat_chunks in *. cbn [fold_right map]. rewrite IH.
  unfold coerce_chunk, repair. now destruct (chunk_valid ch).
Qed.

Lemma repair_good l :
  Forall (fun ch => good_chunk ch \/ bad_chunk ch) l -> Forall good_chunk (map repair l).
Proof.
  induction 1 as [|ch l Hch _ IH]; [constructor|].
  cbn [map]. constructor; [|exact IH].
  unfold repair. destruct Hch as [Hg|(c & -> & Hc)].
  - destruct Hg as (? & ? & Hv). rewrite Hv. repeat split; auto.
  - apply replacement_good.
Qed.

(** The coerced string is valid UTF-8, and a valid string is its own
    coercion. *)
Lemma coerce_valid s : ValidString (coerce s) = true.
Proof.
  pose proof (repair_good _ (stable_cases _ (stable_chunks s))) as Hg.
  unfold ValidString. unfold coerce.
  rewrite coerce_repair, (good_stable _ Hg).
  apply forallb_forall. intros ch Hch.
  rewrite List.Forall_forall in Hg. now destruct (Hg ch Hch) as (_ & _ & Hv).
Qed.

Lemma coerce_of_valid s : ValidString s = true -> coerce s = s.
Proof.
  intros Hv. rewrite <- (concat_chunks_chunks s) at 2.
  unfold coerce, coerce_chunks, concat_chunks, ValidString in *.
  induction (chunks s) as [|ch l IH]; [reflexivity|].
  cbn [forallb fold_right] in *. apply andb_prop in Hv as [Hch Hv].
  rewrite (IH Hv). unfold coerce_chunk. now rewrite Hch.
Qed.

(** X16. Decoding the encoding of a static ID never fails: it gives the ID
    with each invalid byte replaced by U+FFFD. The result is valid UTF-8
    and survives further round trips unchanged; it is the ID itself
    exactly when the ID is valid UTF-8. *)
Theorem StaticIDField_round_trip_any (s : string) :
  exists d, MarshalJSON (StaticIDField.mk s) = Ok d
            /\ UnmarshalJSON d = Ok (StaticIDField.mk (coerce s))
            /\ go_utf8.ValidString (coerce s) = true
            /\ coerce (coerce s) = coerce s
            /\ (coerce s = s <-> go_utf8.ValidString s = true).
Proof.
  assert (Hrest : go_utf8.ValidString (coerce s) = true
                  /\ coerce (coerce s) = coerce s
                  /\ (coerce s = s <-> go_utf8.ValidString s = true)).
  { split; [apply coerce_valid|]. split; [apply coerce_of_valid, coerce_valid|].
    split; [intros <-; apply coerce_valid | apply coerce_of_valid]. }
  unfold MarshalJSON. cbn [StaticIDField.Value].
  destruct (String.eqb_spec s "") as [->|Hne].
  - exists "{}". split; [reflexivity|]. split; [vm_compute; reflexivity | exact Hrest].
  - exists (appendString s). split; [reflexivity|]. split; [|exact Hrest].
    unfold UnmarshalJSON. now rewrite Unmarshal_string_appendString_any.
Qed.

End Coercion.

(** ** The builder *)

Section Builder.
Import go_url go_strings spec types client.
Context `{GoTables}.

Lemma do_call_required c b :
  required (Build (do_call c b)) = required (Build b).
Proof. destruct c; reflexivity. Qed.

Lemma do_call_unassigned c b :
  unassigned (Build (do_call c b)) = unassigned (Build b).
Proof. destruct c; reflexivity. Qed.

Lemma chain_required calls b : required (Build (chain calls b)) = required (Build b).
Proof.
  unfold chain. induction calls as [|c calls IH] in b |- *; [reflexivity|].
  cbn [fold_left]. now rewrite IH, do_call_required.
Qed.

Lemma chain_unassigned calls b :
  unassigned (Build (chain calls b)) = unassigned (Build b).
Proof.
  unfold chain. induction calls as [|c calls IH] in b |- *; [reflexivity|].
  cbn [fold_left]. now rewrite IH, do_call_unassigned.
Qed.

(** X17. Whatever is called on a builder, the request it builds has the
    origin, destination and aircraft given to [NewFlightPlan]: no method
    assigns them. The verdict of [Validate] is settled when the builder is
    made. *)
Theorem builder_keeps_required (origin destination aircraft : string)
    (calls : list builder_call) :
  let r := Build (chain calls (NewFlightPlan origin destination aircraft)) in
  FlightPlanRequest.Origin r = origin
  /\ FlightPlanRequest.Destination r = destination
  /\ FlightPlanRequest.Aircraft r = aircraft
  /\ Validate r = Validate (NewFlightPlanRequest origin destination aircraft)
  /\ ToURLValues r !! "orig" = of_string origin ≫= (fun x => Some [x])
  /\ ToURLValues r !! "dest" = of_string destination ≫= (fun x => Some [x])
  /\ ToURLValues r !! "type" = of_string aircraft ≫= (fun x => Some [x]).
Proof.
  intros r.
  pose proof (chain_required calls (NewFlightPlan origin destination aircraft)) as Hr.
  fold r in Hr. unfold required in Hr. cbn in Hr. injection Hr as Ho Hd Ha.
  repeat split; auto.
  - unfold Validate. rewrite Ho, Hd, Ha. reflexivity.
  - rewrite ToURLValues_lookup. unfold wire_value. cbn [assoc encoder_table String.eqb Ascii.eqb Bool.eqb].
    rewrite Ho. now destruct (of_string origin).
  - rewrite ToURLValues_lookup. unfold wire_value. cbn [assoc encoder_table String.eqb Ascii.eqb Bool.eqb].
    rewrite Hd. now destruct (of_string destination).
  - rewrite ToURLValues_lookup. unfold wire_value. cbn [assoc encoder_table String.eqb Ascii.eqb Bool.eqb].
    rewrite Ha. now destruct (of_string aircraft).
Qed.

(** X18. A request made with the builder carries only the parameters that
    some method of the builder assigns. *)
Theorem builder_parameters (origin destination aircraft : string)
    (calls : list builder_call) (k : string) :
  ToURLValues (Build (chain calls (NewFlightPlan origin destination aircraft))) !! k
    <> None ->
  In k builder_names.
Proof.
  pose proof (chain_unassigned calls (NewFlightPlan origin destination aircraft)) as Hu.
  set (r := Build (chain calls (NewFlightPlan origin destination aircraft))) in *.
  unfold unassigned in Hu. cbn in Hu.
  clearbody r.
  injection Hu as H1 H2 H3 H4 H5 H6 H7 H8 H9 H10 H11 H12 H13 H14 H15 H16 H17 H18 H19
    H20 H21 H22 H23 H24 H25 H26 H27 H28 H29 H30 H31 H32 H33 H34 H35 H36 H37 H38.
  rewrite ToURLValues_lookup. unfold wire_value.
  cbn [assoc encoder_table].
  repeat match goal with
         | |- context [String.eqb k ?n] =>
             destruct (String.eqb_spec k n) as [->|?];
             [ first
                 [ solve [intros _; unfold builder_names; cbn [In];
                          repeat (first [left; reflexivity | right])]
                 | solve [intros Hc; exfalso; apply Hc;
                          repeat match goal with
                                 | Hf : _ = _ |- _ => rewrite Hf; clear Hf
                                 end; reflexivity] ]
             | ]
         end.
  intros Hc. now contradiction Hc.
Qed.

(** X11. The model validator accepts exactly the requests whose generation
    URL carries the three required parameters. *)
Theorem Validate_iff_required_parameters (c : Client.t) (req : FlightPlanRequest.t) :
  let names := query_names (Encode (GenerateFlightPlanValues c req)) in
  Validate req = None <-> In "orig" names /\ In "dest" names /\ In "type" names.
Proof.
  cbv zeta. rewrite !query_names_Encode_In, !GenerateFlightPlanValues_lookup.
  cbn [String.eqb Ascii.eqb Bool.eqb]. unfold wire_value.
  cbn [assoc encoder_table String.eqb Ascii.eqb Bool.eqb]. unfold of_string, Validate.
  destruct (String.eqb (FlightPlanRequest.Origin req) "").
  { split; [discriminate | intros ((x & l & Hx) & _); discriminate]. }
  destruct (String.eqb (FlightPlanRequest.Destination req) "").
  { split; [discriminate | intros (_ & (x & l & Hx) & _); discriminate]. }
  destruct (String.eqb (FlightPlanRequest.Aircraft req) "").
  { split; [discriminate | intros (_ & _ & (x & l & Hx)); discriminate]. }
  split; [|reflexivity]. intros _. repeat split; eauto.
Qed.

End Builder.

Lemma builder_parameters_witness :
  In "route" spec.builder_names.
Proof.
  apply (@builder_parameters spec.no_tables "KJFK" "KLAX" "B738" [spec.call_Route "DCT"] "route").
  vm_compute. discriminate.
Defined.

(** ** Routes compose *)

Section RouteComposition.
Import go_utf8 go_strings spec client.

Lemma take_app_le (n : nat) (a b : string) :
  (n <= String.length a)%nat -> take n (a ++ b) = take n a.
Proof.
  revert a. induction n as [|n IH]; intros a Hn; [now destruct a, b|].
  destruct a as [|c a]; [cbn in Hn; lia|].
  rewrite append_cons. cbn [take]. rewrite IH; [reflexivity|].
  cbn [String.length] in Hn. lia.
Qed.

Lemma drop_app_le (n : nat) (a b : string) :
  (n <= String.length a)%nat -> drop n (a ++ b) = drop n a ++ b.
Proof.
  revert a. induction n as [|n IH]; intros a Hn; [now destruct a|].
  destruct a as [|c a]; [cbn in Hn; lia|].
  rewrite append_cons. cbn [drop]. apply IH.
  cbn [String.length] in Hn. lia.
Qed.

Lemma take_app_more (n : nat) (a : string) (c : ascii) (b : string) :
  (String.length a < n)%nat ->
  exists t, take n (a ++ String c b) = a ++ String c t.
Proof.
  revert n. induction a as [|x a IH]; intros n Hn.
  - destruct n as [|n]; [cbn in Hn; lia|].
    rewrite append_nil_l. cbn [take]. exists (take n b). now rewrite append_nil_l.
  - destruct n as [|n]; [lia|]. cbn [String.length] in Hn.
    destruct (IH n ltac:(lia)) as [t Ht].
    exists t. rewrite !append_cons. cbn [take]. now rewrite Ht.
Qed.

Lemma bytes_high_app (a b : string) :
  bytes_high (a ++ b) = bytes_high a && bytes_high b.
Proof.
  unfold bytes_high. induction a as [|c a IH].
  - now rewrite append_nil_l.
  - rewrite append_cons. cbn [list_ascii_of_string forallb]. now rewrite IH, andb_assoc.
Qed.

Lemma DecodeRune_ascii_head (c : ascii) (s : string) :
  b2z c < 0x80 -> DecodeRune (String c s) = (b2z c, 1%nat).
Proof.
  intros Hc. unfold DecodeRune. cbn [String.length].
  replace (S (String.length s) <? 1)%nat with false
    by (symmetry; apply Nat.ltb_ge; lia).
  change (at_ (String c s) 0) with (b2z c).
  unfold first. destruct (Z.ltb_spec (b2z c) 128); [reflexivity | lia].
Qed.

(** An ASCII byte is never taken into the rune that precedes it. *)
Lemma DecodeRune_before_ascii (a : string) (c : ascii) (b : string) :
  a <> "" -> b2z c < 0x80 -> DecodeRune (a ++ String c b) = DecodeRune a.
Proof.
  intros Hne Hc.
  destruct (DecodeRune (a ++ String c b)) as [r n] eqn:Hd.
  assert (Hne' : a ++ String c b <> "").
  { destruct a; [congruence|]. rewrite append_cons. discriminate. }
  destruct (Nat.le_gt_cases n (String.length a)) as [Hle|Hgt].
  - symmetry. eapply DecodeRune_app; eauto.
  - exfalso.
    destruct a as [|x a]; [congruence|].
    destruct (Z.lt_ge_cases (b2z x) 0x80) as [Hx|Hx].
    + rewrite append_cons, DecodeRune_ascii_head in Hd by assumption.
      injection Hd as _ <-. cbn [String.length] in Hgt. lia.
    + assert (Hv : chunk_valid (r, take n (String x a ++ String c b)) = true).
      { unfold chunk_valid. cbn [fst snd]. rewrite length_take.
        destruct (DecodeRune_size _ _ _ Hne' Hd) as [_ Hn].
        cbn [String.length] in Hgt.
        replace (Nat.min n (String.length (String x a ++ String c b)) =? 1)%nat
          with false by (symmetry; apply Nat.eqb_neq; lia).
        now rewrite andb_false_r. }
      destruct (EncodeRune_DecodeRune _ _ _ Hne' Hd Hv) as [_ Hh].
      destruct Hh as [Hh _].
      { rewrite append_cons. exact Hx. }
      destruct (take_app_more n (String x a) c b Hgt) as [t Ht].
      rewrite Ht, bytes_high_app in Hh.
      apply andb_prop in Hh as [_ Hh].
      unfold bytes_high in Hh. cbn [list_ascii_of_string forallb] in Hh.
      apply andb_prop in Hh as [Hh _]. lia.
Qed.

(** The runes of a text cut at an ASCII byte are those of its two parts. *)
Lemma chunks_app_ascii (a : string) (c : ascii) (b : string) :
  b2z c < 0x80 ->
  chunks (a ++ String c b) = (chunks a ++ (b2z c, String c "") :: chunks b)%list.
Proof.
  intros Hc. induction a as [|a r n Hne Hd IH] using chunks_ind.
  - rewrite append_nil_l.
    rewrite (chunks_unfold (String c b) (b2z c) 1);
      [reflexivity | discriminate | now apply DecodeRune_ascii_head].
  - destruct (DecodeRune_size _ _ _ Hne Hd) as [_ Hn].
    rewrite (chunks_unfold (a ++ String c b) r n).
    + rewrite (chunks_unfold a r n Hne Hd).
      rewrite take_app_le, drop_app_le, IH by assumption. reflexivity.
    + destruct a; [congruence|]. rewrite append_cons. discriminate.
    + rewrite DecodeRune_before_ascii; auto.
Qed.

Lemma fields_loop_app_space cur l1 sp l2 :
  space_chunk sp = true ->
  fields_loop cur (l1 ++ sp :: l2)
  = (fields_loop cur l1 ++ fields_loop None l2)%list.
Proof.
  intros Hsp. induction l1 as [|ch l1 IH] in cur |- *.
  - cbn [app fields_loop]. rewrite Hsp. now destruct cur.
  - cbn [app fields_loop]. destruct (space_chunk ch), cur; rewrite IH; reflexivity.
Qed.

(** [strings.Fields] of two texts joined by an ASCII white-space byte. *)
Lemma Fields_app_space (a : string) (c : ascii) (b : string) :
  b2z c < 0x80 -> go_unicode.IsSpace (b2z c) = true ->
  Fields (a ++ String c b) = (Fields a ++ Fields b)%list.
Proof.
  intros Hc Hsp. unfold Fields.
  rewrite chunks_app_ascii by assumption.
  now apply fields_loop_app_space.
Qed.

Lemma fields_loop_nonspace (w : list (Z * string)) (f : string) :
  Forall nonspace w ->
  fields_loop (Some f) w = [f ++ concat_chunks w].
Proof.
  intros Hw. induction Hw as [|ch w Hch _ IH] in f |- *.
  - cbn. now rewrite append_nil_r.
  - cbn [fields_loop]. unfold nonspace in Hch. rewrite Hch, IH.
    unfold concat_chunks. cbn [fold_right]. now rewrite append_assoc.
Qed.

(** A word is its own single field. *)
Lemma Fields_word (p : string) : word p -> Fields p = [p].
Proof.
  intros (w & -> & Hne & Hns & Hst). unfold Fields. rewrite Hst.
  destruct w as [|ch w]; [congruence|].
  inversion Hns as [|? ? Hch Hw]; subst.
  cbn [fields_loop]. unfold nonspace in Hch. rewrite Hch.
  rewrite fields_loop_nonspace by assumption. reflexivity.
Qed.

Lemma Fields_words (s : string) : Forall word (Fields s).
Proof. apply fields_loop_words, stable_chunks. Qed.

Lemma Fields_join (ts : list string) :
  Forall word ts -> Fields (join " " ts) = ts.
Proof.
  induction 1 as [|t ts Ht Hts IH]; [reflexivity|].
  destruct ts as [|t' ts].
  - cbn [join]. now apply Fields_word.
  - change (join " " (t :: t' :: ts)) with (t ++ " " ++ join " " (t' :: ts)).
    rewrite append_cons, append_nil_l.
    rewrite Fields_app_space by (vm_compute; reflexivity).
    now rewrite IH, Fields_word.
Qed.

(** X20. Routes compose: the way-points of two routes joined by a space are
    those of the first followed by those of the second. Joining the
    way-points of a route by single spaces gives a route with the same
    way-points, so that [ParseRoute] normalises a route in one pass. *)
Theorem ParseRoute_compose (a b : string) :
  ParseRoute (a ++ " " ++ b)
  = slice_of (waypoints (ParseRoute a) ++ waypoints (ParseRoute b))
  /\ ParseRoute (join " " (waypoints (ParseRoute a))) = ParseRoute a.
Proof.
  rewrite !ParseRoute_Fields. cbn [waypoints]. split.
  - rewrite append_cons, append_nil_l.
    now rewrite Fields_app_space by (vm_compute; reflexivity).
  - f_equal. apply Fields_join, Fields_words.
Qed.

End RouteComposition.

(** ** The order of the parameters *)

Section ParameterOrder.
Import go_url go_strings spec types client.
Context `{GoTables}.

#[local] Instance string_le_total : Total string_le.
Proof. intros a b. apply String.leb_total. Qed.

Lemma pairs_of_singletons (v : Values) :
  (forall k l, v !! k = Some l -> exists x, l = [x]) ->
  map fst (pairs_of v) = sorted_keys v.
Proof.
  intros Hv. unfold pairs_of.
  assert (Hk : forall k, In k (sorted_keys v) -> exists x, v !! k = Some [x]).
  { intros k Hin. apply sorted_keys_In in Hin as [l Hl].
    destruct (Hv k l Hl) as [x ->]. eauto. }
  induction (sorted_keys v) as [|k keys IH]; [reflexivity|].
  cbn [flat_map]. rewrite map_app, IH by (intros k' Hk'; apply Hk; now right).
  destruct (Hk k ltac:(now left)) as [x ->]. reflexivity.
Qed.

(** X10. The generation URL lists every parameter once, in the bytewise
    alphabetical order of the names, whatever the order in which the
    encoder adds them. *)
Theorem GenerateFlightPlanURL_sorted (c : Client.t) (req : FlightPlanRequest.t) :
  let names := query_names (Encode (GenerateFlightPlanValues c req)) in
  names = sorted_keys (GenerateFlightPlanValues c req)
  /\ Sorted string_le names
  /\ List.NoDup names
  /\ (forall k, In k names <-> GenerateFlightPlanValues c req !! k <> None).
Proof.
  cbv zeta. rewrite query_names_Encode, pairs_of_singletons.
  - split; [reflexivity|]. split; [apply Sorted_merge_sort, _|].
    split; [apply sorted_keys_NoDup|].
    intros k. rewrite sorted_keys_In. split.
    + intros [l Hl]. congruence.
    + destruct (GenerateFlightPlanValues c req !! k); [eauto | congruence].
  - intros k l. rewrite GenerateFlightPlanValues_lookup.
    destruct (String.eqb k "api_key").
    + destruct (String.eqb (Client.APIKey c) ""); [discriminate|]. intros [= <-]. eauto.
    + unfold wire_value. destruct (assoc k (encoder_table req)) as [[x|]|];
        try discriminate. intros [= <-]. eauto.
Qed.

End ParameterOrder.

(** ** The request of a builder is shared *)

Section SharedRequest.
Import types.

Lemma shared_chain_builder calls b h : fst (shared.chain calls b h) = b.
Proof.
  unfold shared.chain. induction calls as [|c calls IH] in h |- *; [reflexivity|].
  cbn [fold_left fst snd shared.do_call]. apply IH.
Qed.

Lemma shared_chain_app calls1 calls2 b h :
  shared.chain (calls1 ++ calls2) b h
  = shared.chain calls2 (fst (shared.chain calls1 b h)) (snd (shared.chain calls1 b h)).
Proof.
  unfold shared.chain. rewrite fold_left_app.
  now destruct (fold_left _ calls1 (b, h)).
Qed.

Lemma shared_chain_load calls b h r :
  shared.load (shared.request b) h = Some r ->
  shared.load (shared.request b) (snd (shared.chain calls b h))
  = Some (client.Build (spec.chain calls (client.FlightPlanBuilder.mk r))).
Proof.
  unfold shared.chain, spec.chain, shared.load.
  induction calls as [|c calls IH] in h, r |- *; intros Hr; [exact Hr|].
  cbn [fold_left fst snd].
  change (shared.do_call c b h)
    with (b, shared.assign (shared.request b)
               (fun r => client.Build (spec.do_call c (client.FlightPlanBuilder.mk r))) h).
  rewrite (IH _ (client.Build (spec.do_call c (client.FlightPlanBuilder.mk r)))).
  - now destruct (spec.do_call c (client.FlightPlanBuilder.mk r)).
  - unfold shared.assign. rewrite list_lookup_alter_eq, Hr. reflexivity.
Qed.

Lemma shared_chain_frame calls b h p :
  p <> shared.request b ->
  shared.load p (snd (shared.chain calls b h)) = shared.load p h.
Proof.
  unfold shared.chain, shared.load.
  induction calls as [|c calls IH] in h |- *; intros Hp; [reflexivity|].
  cbn [fold_left fst snd].
  change (shared.do_call c b h)
    with (b, shared.assign (shared.request b)
               (fun r => client.Build (spec.do_call c (client.FlightPlanBuilder.mk r))) h).
  rewrite IH by assumption.
  unfold shared.assign. now rewrite list_lookup_alter_ne.
Qed.

(** X19. [Build] does not copy: it returns the request that the builder
    goes on assigning to. The calls made on the builder after [Build] are
    seen through the request built before them, a second [Build] returns
    the same request, and the requests of other builders are left alone. *)
Theorem Build_shares_request (origin destination aircraft : string)
    (calls1 calls2 : list spec.builder_call) (h : shared.store) :
  let '(b, h1) := shared.NewFlightPlan origin destination aircraft h in
  let '(b1, h2) := shared.chain calls1 b h1 in
  let r1 := shared.Build b1 in
  let '(b2, h3) := shared.chain calls2 b1 h2 in
  let r2 := shared.Build b2 in
  r1 = r2
  /\ shared.load r1 h2
     = Some (client.Build
               (spec.chain calls1 (client.NewFlightPlan origin destination aircraft)))
  /\ shared.load r1 h3
     = Some (client.Build
               (spec.chain (calls1 ++ calls2)
                  (client.NewFlightPlan origin destination aircraft)))
  /\ (forall p, p <> r1 -> shared.load p h3 = shared.load p h).
Proof.
  unfold shared.NewFlightPlan, shared.alloc.
  set (b := shared.mk_builder (length h)).
  set (h1 := (h ++ [NewFlightPlanRequest origin destination aircraft])%list).
  assert (Hb : shared.load (shared.request b) h1
               = Some (NewFlightPlanRequest origin destination aircraft)).
  { unfold shared.load, h1, b. cbn [shared.request].
    rewrite lookup_app_r by lia. now rewrite Nat.sub_diag. }
  pose proof (shared_chain_app calls1 calls2 b h1) as Happ.
  pose proof (shared_chain_builder calls1 b h1) as Hb1.
  pose proof (shared_chain_load calls1 b h1 _ Hb) as Hl1.
  pose proof (shared_chain_load (calls1 ++ calls2) b h1 _ Hb) as Hl12.
  pose proof (fun p Hp => shared_chain_frame (calls1 ++ calls2) b h1 p Hp) as Hfr.
  rewrite Happ in Hl12, Hfr.
  destruct (shared.chain calls1 b h1) as [b1 h2]. cbn [fst snd] in *. subst b1.
  pose proof (shared_chain_builder calls2 b h2) as Hb2.
  destruct (shared.chain calls2 b h2) as [b2 h3]. cbn [fst snd] in *. subst b2.
  unfold shared.Build. repeat split; auto.
  intros p Hp. rewrite Hfr by assumption.
  unfold shared.load, h1. cbn [shared.request b] in Hp.
  destruct (Nat.lt_ge_cases p (length h)) as [Hlt|Hge].
  - now rewrite lookup_app_l.
  - rewrite lookup_app_r by lia.
    rewrite (lookup_ge_None_2 h) by lia.
    destruct (p - length h)%nat as [|n] eqn:E; [unfold b in Hp; cbn in Hp; lia | reflexivity].
Qed.

End SharedRequest.
